(** * Flood dashboard analytics: a shallow embedding of the pipeline

    The development follows the Python sources file by file:

    - [fetch_data.py]          the rolling reading store ([append_and_trim]);
    - [fetch_historical.py]    the seasonal baseline ([compute_p90_by_day]);
    - [compare_p90_roc.py]     bulk rate of change and the comparison with the
                               baseline ([compute_rate_of_change],
                               [prepare_current_data], [compare_to_historical]);
    - [process_gauge_data.py]  the latest-value pass ([compute_pct_change_3h]
                               and the ratio column);
    - [main.py]                the colour bands of the map ([color_logic]).

    Data frames are lists of records, one record per row, in row order.
    Flows are IEEE 754 binary64 numbers, as in Python and pandas, and the
    pandas null of a numeric column is the NaN of that format. Instants are
    integers counting nanoseconds since the Unix epoch, the resolution of a
    pandas timestamp. *)

From Stdlib Require Import String ZArith List Bool Lia Floats Uint63.
From Stdlib Require Import Permutation Sorted OrderedTypeEx.
Import ListNotations.

Set Warnings "-inexact-float".

Local Open Scope Z_scope.

(* ================================================================== *)
(** * Binary64 numbers as pandas sees them *)
(* ================================================================== *)

Module Float64.

(** [pd.isna] on a float cell: NaN is the only value different from
    itself. *)
Definition isna (x : float) : bool := negb (PrimFloat.eqb x x).

Definition notna (x : float) : bool := negb (isna x).

(** [numpy.nan], [float('nan')]. *)
Definition NaN : float := nan.

(** A number that is neither NaN nor an infinity. *)
Definition finite (x : float) : bool :=
  match Prim2SF x with
  | S754_zero _ | S754_finite _ _ _ => true
  | S754_infinity _ | S754_nan => false
  end.

(** Conversion of a small natural number (a row position, a count). *)
Definition of_nat (n : nat) : float := of_uint63 (Uint63.of_Z (Z.of_nat n)).

(** Integer part of a non-negative finite number, as a C cast to [int64]
    gives it. *)
Definition trunc_nat (x : float) : nat :=
  match Prim2SF x with
  | S754_finite false m e =>
      match e with
      | Zneg p => Z.to_nat (Z.shiftr (Zpos m) (Zpos p))
      | _ => Z.to_nat (Z.shiftl (Zpos m) e)
      end
  | _ => 0%nat
  end.

End Float64.

(* ================================================================== *)
(** * Instants, civil dates and the US/Eastern zone *)
(* ================================================================== *)

Module Clock.

Definition ns_per_second : Z := 1000000000.
Definition ns_per_minute : Z := 60 * ns_per_second.
Definition ns_per_hour : Z := 3600 * ns_per_second.
Definition ns_per_day : Z := 86400 * ns_per_second.

(** [timedelta(hours=h)], [pd.Timedelta(hours=h)]. *)
Definition hours (h : Z) : Z := h * ns_per_hour.
Definition minutes (m : Z) : Z := m * ns_per_minute.

(** A cell of a timestamp column before [pd.to_datetime]: a text that
    parses to an instant, an empty cell, or a text that does not parse. *)
Inductive stamp : Type :=
| At (t : Z)
| Blank
| Garbled.

(** [pd.to_datetime(..., errors="coerce")]: what does not parse becomes
    NaT. [None] stands for NaT. *)
Definition to_datetime_coerce (c : stamp) : option Z :=
  match c with
  | At t => Some t
  | Blank | Garbled => None
  end.

(** [pd.to_datetime(...)] with the default [errors="raise"], on one cell:
    the outer [None] is the exception. *)
Definition to_datetime_cell (c : stamp) : option (option Z) :=
  match c with
  | At t => Some (Some t)
  | Blank => Some None
  | Garbled => None
  end.

(** The order of a timestamp column, NaT last. *)
Definition stamp_leb (a b : stamp) : bool :=
  match a, b with
  | At t, At u => t <=? u
  | _, At _ => false
  | _, _ => true
  end.

Definition stamp_eqb (a b : stamp) : bool :=
  match a, b with
  | At t, At u => t =? u
  | At _, _ | _, At _ => false
  | _, _ => true
  end.

(** Whole days since 1970-01-01 of the wall-clock date of an instant. *)
Definition day_number (t : Z) : Z := t / ns_per_day.

(** Proleptic Gregorian calendar: days from 1970-01-01 to the first of
    January of year [y]. *)
Definition days_before_year (y : Z) : Z :=
  let p := y - 1 in
  365 * (y - 1970) + (p / 4 - p / 100 + p / 400) - 477.

Definition is_leap (y : Z) : bool :=
  (y mod 4 =? 0) && (negb (y mod 100 =? 0) || (y mod 400 =? 0)).

(** The civil year of a day number: a first estimate that never
    overshoots (a year has at most 366 days, and at least 365), advanced
    while the next year has begun. *)
Fixpoint year_from (fuel : nat) (y d : Z) : Z :=
  match fuel with
  | O => y
  | S k => if days_before_year (y + 1) <=? d then year_from k (y + 1) d else y
  end.

Definition year_of_day (d : Z) : Z :=
  let y0 := 1970 + (if d <? 0 then d / 365 else d / 366) in
  year_from (Z.to_nat (Z.abs d / 100 + 2)) y0 d.

(** [Timestamp.dayofyear] of a wall-clock instant: 1 on the first of
    January. *)
Definition dayofyear (t : Z) : Z :=
  let d := day_number t in
  d - days_before_year (year_of_day d) + 1.

(** Days from 1970-01-01 to the first day of month [m] of year [y]. *)
Definition days_before_month (y m : Z) : Z :=
  let feb := if is_leap y then 29 else 28 in
  let lens := [31; feb; 31; 30; 31; 30; 31; 31; 30; 31; 30; 31] in
  days_before_year y + fold_right Z.add 0 (firstn (Z.to_nat (m - 1)) lens).

(** Day of the week of a day number, 0 for Sunday: 1970-01-01 was a
    Thursday. *)
Definition weekday (d : Z) : Z := (d + 4) mod 7.

(** Day number of the first Sunday on or after day [d]. *)
Definition sunday_from (d : Z) : Z := d + (7 - weekday d) mod 7.

(** Day number of the last Sunday on or before day [d]. *)
Definition sunday_until (d : Z) : Z := d - weekday d.

(** US/Eastern, as the tz database has it for the years since 1987.
    Since 2007 daylight time runs from the second Sunday of March to the
    first Sunday of November; from 1987 to 2006 it ran from the first
    Sunday of April to the last Sunday of October. The clocks change at
    02:00 local time, that is 07:00 UTC in spring and 06:00 UTC in
    autumn. The result is the offset from UTC. *)
Definition us_eastern_offset (t : Z) : Z :=
  let y := year_of_day (day_number t) in
  let start_day :=
    if 2007 <=? y then sunday_from (days_before_month y 3) + 7
    else sunday_from (days_before_month y 4) in
  let end_day :=
    if 2007 <=? y then sunday_from (days_before_month y 11)
    else sunday_until (days_before_month y 11 - 1) in
  let dst_start := start_day * ns_per_day + hours 7 in
  let dst_end := end_day * ns_per_day + hours 6 in
  if (dst_start <=? t) && (t <? dst_end) then hours (-4) else hours (-5).

(** [ts.tz_convert("US/Eastern")] followed by reading the wall clock. *)
Definition to_us_eastern (t : Z) : Z := t + us_eastern_offset t.

(** An instant given by its UTC calendar fields. *)
Definition utc (y m d hh mm : Z) : Z :=
  (days_before_month y m + (d - 1)) * ns_per_day + hours hh + minutes mm.

End Clock.

(* ================================================================== *)
(** * Data-frame operations shared by the scripts *)
(* ================================================================== *)

Module Frame.

Section Sorting.
Context {A : Type} (leb : A -> A -> bool).

(** Stable insertion: [x] goes before the first element it does not
    exceed. *)
Fixpoint insert (x : A) (l : list A) : list A :=
  match l with
  | [] => [x]
  | y :: r => if leb x y then x :: l else y :: insert x r
  end.

(** [DataFrame.sort_values] on several columns, which is stable. *)
Fixpoint sort (l : list A) : list A :=
  match l with
  | [] => []
  | x :: r => insert x (sort r)
  end.
End Sorting.

Section GroupBy.
Context {R K : Type}.
Variable key : R -> option K.
Variable eqb : K -> K -> bool.
Variable leb : K -> K -> bool.

(** The rows of the group of [k]. A row whose key is null belongs to no
    group ([groupby] has [dropna=True]). *)
Definition has_key (k : K) (r : R) : bool :=
  match key r with
  | Some k' => eqb k' k
  | None => false
  end.

Fixpoint keys (df : list R) : list K :=
  match df with
  | [] => []
  | r :: rest =>
      match key r with
      | Some k => k :: keys rest
      | None => keys rest
      end
  end.

Fixpoint dedup (l : list K) : list K :=
  match l with
  | [] => []
  | k :: r => k :: filter (fun k' => negb (eqb k' k)) (dedup r)
  end.

(** The distinct keys, in ascending order ([groupby] has [sort=True]). *)
Definition group_keys (df : list R) : list K := sort leb (dedup (keys df)).

(** [df.groupby(key)]: one group per distinct key, each holding its rows
    in frame order. *)
Definition groupby (df : list R) : list (K * list R) :=
  map (fun k => (k, filter (has_key k) df)) (group_keys df).
End GroupBy.

(** [left.merge(right, how="left", on=...)]: every left row is paired with
    each right row of the same key, in order, or once with nothing. *)
Definition merge_left {L R : Type} (same_key : L -> R -> bool)
           (left : list L) (right : list R) : list (L * option R) :=
  flat_map (fun l =>
              match filter (same_key l) right with
              | [] => [(l, None)]
              | ms => map (fun r => (l, Some r)) ms
              end) left.

(** Lexicographic order on pairs. *)
Definition pair_leb {A B : Type} (lebA : A -> A -> bool) (eqbA : A -> A -> bool)
           (lebB : B -> B -> bool) (x y : A * B) : bool :=
  if eqbA (fst x) (fst y) then lebB (snd x) (snd y) else lebA (fst x) (fst y).

Definition pair_eqb {A B : Type} (eqbA : A -> A -> bool) (eqbB : B -> B -> bool)
           (x y : A * B) : bool :=
  eqbA (fst x) (fst y) && eqbB (snd x) (snd y).

(** Order with nulls last ([na_position="last"]). *)
Definition option_leb {A : Type} (lebA : A -> A -> bool) (x y : option A) : bool :=
  match x, y with
  | Some a, Some b => lebA a b
  | _, None => true
  | None, Some _ => false
  end.

Definition option_eqb {A : Type} (eqbA : A -> A -> bool) (x y : option A) : bool :=
  match x, y with
  | Some a, Some b => eqbA a b
  | None, None => true
  | _, _ => false
  end.

(** [Series.bfill]: a null takes the next valid value, if there is one. *)
Fixpoint bfill (l : list float) : list float :=
  match l with
  | [] => []
  | x :: r =>
      let r' := bfill r in
      (if Float64.isna x then
         match r' with
         | y :: _ => y
         | [] => x
         end
       else x) :: r'
  end.

(** [Series.ffill]: a null takes the last valid value before it, if there
    is one; [prev] is that value. *)
Fixpoint ffill_from (prev : float) (l : list float) : list float :=
  match l with
  | [] => []
  | x :: r =>
      let x' := if Float64.isna x then prev else x in
      x' :: ffill_from x' r
  end.

Definition ffill (l : list float) : list float := ffill_from Float64.NaN l.

(** First valid value of [l] and its position, [l] starting at position
    [i]. *)
Fixpoint next_valid (i : nat) (l : list float) : option (nat * float) :=
  match l with
  | [] => None
  | x :: r => if Float64.isna x then next_valid (S i) r else Some (i, x)
  end.

(** Value on the straight line through [(i0, v0)] and [(i1, v1)] at
    position [i], as [numpy.interp] computes it. *)
Definition lerp (i0 : nat) (v0 : float) (i1 : nat) (v1 : float) (i : nat) : float :=
  ((v1 - v0) / (Float64.of_nat i1 - Float64.of_nat i0)
   * (Float64.of_nat i - Float64.of_nat i0) + v0)%float.

(** [Series.interpolate(method="linear")] with its default forward
    direction: a null between two valid values is interpolated on row
    positions, a null after the last valid value repeats it, a null before
    the first valid value stays. [prev] is the last valid value seen, with
    its position. *)
Fixpoint interpolate_from (prev : option (nat * float)) (i : nat)
         (l : list float) : list float :=
  match l with
  | [] => []
  | x :: r =>
      if Float64.isna x then
        (match prev with
         | None => x
         | Some (i0, v0) =>
             match next_valid (S i) r with
             | Some (i1, v1) => lerp i0 v0 i1 v1 i
             | None => v0
             end
         end) :: interpolate_from prev (S i) r
      else x :: interpolate_from (Some (i, x)) (S i) r
  end.

Definition interpolate (l : list float) : list float :=
  interpolate_from None 0%nat l.

(** [Series.quantile(q)] with linear interpolation between order
    statistics: nulls are skipped, and a group with no valid value has a
    null quantile. *)
Definition quantile (q : float) (values : list float) : float :=
  let xs := sort PrimFloat.leb (filter Float64.notna values) in
  match xs with
  | [] => Float64.NaN
  | _ =>
      let idx := (q * Float64.of_nat (length xs - 1))%float in
      let lo := Float64.trunc_nat idx in
      let frac := (idx - Float64.of_nat lo)%float in
      let val := nth lo xs Float64.NaN in
      if PrimFloat.eqb frac 0 then val
      else
        let next_val := nth (S lo) xs Float64.NaN in
        (val + (next_val - val) * frac)%float
  end.

(** [Series.shift(w)]: every value moves [w] rows down, the first [w] rows
    become null, the length is kept. *)
Definition shift (w : nat) (x : list float) : list float :=
  firstn (length x) (repeat Float64.NaN w ++ x).

(** Position of the first least element ([Series.argmin]). *)
Fixpoint argmin_from (best : Z) (besti i : nat) (l : list Z) : nat :=
  match l with
  | [] => besti
  | d :: r => if d <? best then argmin_from d i (S i) r
              else argmin_from best besti (S i) r
  end.

Definition argmin (l : list Z) : nat :=
  match l with
  | [] => 0%nat
  | d :: r => argmin_from d 0%nat 1%nat r
  end.

End Frame.

(* ================================================================== *)
(** * fetch_data.py: the rolling reading store *)
(* ================================================================== *)

Module fetch_data.
Import Clock.

(** A row of [gauge_data.csv], and of the frame [fetch_va_iv_since]
    builds. The flow is NaN where the service sent its no-data code
    -9999 or a text that is not a number. The site number stands for the
    value of the cell; its spelling is not modelled: the service sends
    it with leading zeros, and [read_csv] reads the column of a file as
    integers, so a row that has been through the file has lost them. *)
Record reading : Type := {
  site_no : string;
  site_name : string;
  timestamp_utc : stamp;
  flow_cfs : float;
  latitude : float;
  longitude : float
}.

(** The normalisation of one value of the service in [fetch_va_iv_since]:
    [None] is a value [float()] rejects. *)
Definition parse_flow (v : option float) : float :=
  match v with
  | Some flow => if PrimFloat.eqb flow (-9999) then Float64.NaN else flow
  | None => Float64.NaN
  end.

(** [pd.to_datetime(col, format="ISO8601", utc=True)]: raises on a text
    that is not a timestamp, keeps an empty cell as NaT. *)
Fixpoint to_datetime (df : list reading) : option (list (reading * option Z)) :=
  match df with
  | [] => Some []
  | r :: rest =>
      match to_datetime_cell (timestamp_utc r), to_datetime rest with
      | Some t, Some rest' => Some ((r, t) :: rest')
      | _, _ => None
      end
  end.

(** [ts >= cutoff_time] on a cell: false on NaT. *)
Definition not_before (cutoff : Z) (t : option Z) : bool :=
  match t with
  | Some u => cutoff <=? u
  | None => false
  end.

Definition with_timestamp (p : reading * option Z) : reading :=
  let (r, t) := p in
  {| site_no := site_no r; site_name := site_name r;
     timestamp_utc := match t with Some u => At u | None => Blank end;
     flow_cfs := flow_cfs r;
     latitude := latitude r; longitude := longitude r |}.

(** [append_and_trim(df_new, file_path, hours)]. [now] is the reading of
    the clock, [file] the rows of the file, [None] when it does not
    exist. The result is the content of the file afterwards, or [None]
    when [pd.to_datetime] raises, in which case nothing is written. *)
Definition append_and_trim (now : Z) (df_new : list reading)
           (file : option (list reading)) (hrs : Z) : option (list reading) :=
  let cutoff_time := now - hours hrs in
  let df_all :=
    match file with
    | Some df_old => df_old ++ df_new
    | None => df_new
    end in
  match to_datetime df_all with
  | Some parsed =>
      Some (map with_timestamp
                (filter (fun p => not_before cutoff_time (snd p)) parsed))
  | None => None
  end.

(** The default of the [hours] argument. *)
Definition default_hours : Z := 24.

(** Line 46 of [fetch_va_iv_since]: the request carries
    [start_time.strftime("%Y-%m-%dT%H:%M")]. This is the instant that text
    names: [start_time] with its seconds cut off. *)
Definition startDT (start_time : Z) : Z := start_time - start_time mod ns_per_minute.

(** [Series.max()] of a timestamp column: the greatest instant, NaT being
    skipped; NaT when there is none. *)
Definition max_instant (col : list (option Z)) : option Z :=
  fold_left (fun acc t =>
               match acc, t with
               | Some a, Some b => Some (Z.max a b)
               | None, x => x
               | x, None => x
               end) col None.

(** [load_last_timestamp(file_path)]: one second after the latest instant
    of the file, or twenty-four hours before now when there is no file.
    The outer [None] is the exception of [pd.to_datetime]; the inner one
    is NaT, what a file without any instant gives. *)
Definition load_last_timestamp (now : Z) (file : option (list reading))
  : option (option Z) :=
  match file with
  | Some df =>
      match to_datetime df with
      | Some parsed =>
          Some (match max_instant (map snd parsed) with
                | Some last_time => Some (last_time + ns_per_second)
                | None => None
                end)
      | None => None
      end
  | None => Some (Some (now - hours 24))
  end.

End fetch_data.

(* ================================================================== *)
(** * fetch_historical.py: the seasonal baseline *)
(* ================================================================== *)

Module fetch_historical.
Import Clock Frame.

(** A row of the frame [fetch_historical_data] returns. The [date] column
    holds the text of the service. *)
Record sample : Type := {
  site_no : string;
  site_name : string;
  date : stamp;
  flow_cfs : float
}.

(** A row of [historical_p90.csv]. *)
Record baseline : Type := {
  b_site_no : string;
  b_site_name : string;
  b_day_of_year : Z;
  p90_flow_cfs : float
}.

(** Lines 120 to 124: the instant is parsed with [errors="coerce"], moved
    to US/Eastern, cut to its date, and the day of the year read from
    that date. A date that does not parse gives a null day. *)
Definition day_of_year (r : sample) : option Z :=
  match to_datetime_coerce (date r) with
  | Some t => Some (dayofyear (to_us_eastern t))
  | None => None
  end.

(** [df.groupby("site_no")["flow_cfs"].count()] at one site: the number of
    its rows whose flow is not null. *)
Definition site_count (df : list sample) (s : string) : nat :=
  List.length (filter (fun r => String.eqb (site_no r) s && Float64.notna (flow_cfs r)) df).

Definition valid_sites (df : list sample) : list string :=
  filter (fun s => (0 <? site_count df s)%nat)
         (group_keys (fun r => Some (site_no r)) String.eqb String.leb df).

Definition isin (s : string) (l : list string) : bool :=
  existsb (String.eqb s) l.

Definition key2 : Type := string * string.
Definition key3 : Type := string * string * Z.

Definition key2_eqb : key2 -> key2 -> bool := pair_eqb String.eqb String.eqb.
Definition key2_leb : key2 -> key2 -> bool := pair_leb String.leb String.eqb String.leb.
Definition key3_eqb : key3 -> key3 -> bool := pair_eqb key2_eqb Z.eqb.
Definition key3_leb : key3 -> key3 -> bool := pair_leb key2_leb key2_eqb Z.leb.

Definition sample_key (r : sample) : option key3 :=
  match day_of_year r with
  | Some d => Some (site_no r, site_name r, d)
  | None => None
  end.

(** Lines 132 to 136: the 0.9 quantile of every (site, name, day) group. *)
Definition quantile_row (g : key3 * list sample) : baseline :=
  let '(s, n, d) := fst g in
  {| b_site_no := s; b_site_name := n; b_day_of_year := d;
     p90_flow_cfs := quantile 0.9 (map flow_cfs (snd g)) |}.

Definition grouped (df : list sample) : list baseline :=
  map quantile_row (groupby sample_key key3_eqb key3_leb df).

(** The keys of a row of the baseline. *)
Definition site_of (r : baseline) : key2 := (b_site_no r, b_site_name r).
Definition row_key (r : baseline) : key3 := (site_of r, b_day_of_year r).

Definition site_key (r : baseline) : option key2 := Some (site_of r).

(** [range(1, 366)]. *)
Definition full_idx : list Z := map Z.of_nat (seq 1 365).

(** Lines 142 to 150 for one (site, name) group: the left merge of the 365
    days with the rows of the group, then the three fills. *)
Definition fill_site (site_df : list baseline) : list (Z * float) :=
  let merged :=
    merge_left (fun d r => Z.eqb d (b_day_of_year r)) full_idx site_df in
  let days := map fst merged in
  let p90 :=
    map (fun m : Z * option baseline =>
           match snd m with
           | Some r => p90_flow_cfs r
           | None => Float64.NaN
           end) merged in
  let p90 := interpolate p90 in
  let p90 := ffill (bfill p90) in
  let p90 := if forallb Float64.isna p90 then map (fun _ => 0%float) p90 else p90 in
  combine days p90.

(** Lines 152 to 155: the filled frame of one group, with its site number
    and site name. *)
Definition site_rows (g : key2 * list baseline) : list baseline :=
  map (fun dv : Z * float =>
         {| b_site_no := fst (fst g); b_site_name := snd (fst g);
            b_day_of_year := fst dv; p90_flow_cfs := snd dv |})
      (fill_site (snd g)).

(** [compute_p90_by_day(df)]. *)
Definition compute_p90_by_day (df : list sample) : list baseline :=
  let valid := valid_sites df in
  let df := filter (fun r => isin (site_no r) valid) df in
  flat_map site_rows (groupby site_key key2_eqb key2_leb (grouped df)).

Definition YEARS_BACK : Z := 20.
Definition CHUNK_YEARS : Z := 5.

(** [timedelta(days=d)]. *)
Definition days (d : Z) : Z := d * ns_per_day.

(** The [while cur_start < end_date] loop of [fetch_historical_data]: the
    date ranges requested, in order. [fuel] bounds the number of turns. *)
Fixpoint chunk_loop (fuel : nat) (cur_start end_date span : Z) : list (Z * Z) :=
  match fuel with
  | O => []
  | S k =>
      if cur_start <? end_date then
        let cur_end := Z.min (cur_start + span) end_date in
        (cur_start, cur_end) :: chunk_loop k (cur_end + days 1) end_date span
      else []
  end.

(** The ranges [fetch_historical_data(years_back, chunk_years)] requests
    when the clock reads [now]. Every turn moves [cur_start] forward by a
    day at least, so one turn per day of the period is enough fuel. *)
Definition date_ranges (now years_back chunk_years : Z) : list (Z * Z) :=
  let end_date := now in
  let start_date := end_date - days (years_back * 365) in
  chunk_loop (Z.to_nat (years_back * 365 + 1)) start_date end_date
             (days (chunk_years * 365)).

(** [fetch_historical_data]: the frames of the chunks, concatenated.
    [service] answers a request for a range. *)
Definition fetch_historical_data (service : Z -> Z -> list sample)
           (now years_back chunk_years : Z) : list sample :=
  flat_map (fun range => service (fst range) (snd range))
           (date_ranges now years_back chunk_years).

(** [main()]: the frame written to [historical_p90.csv], [None] when
    nothing was fetched and the run stops without writing. *)
Definition main (service : Z -> Z -> list sample) (now : Z) : option (list baseline) :=
  match fetch_historical_data service now YEARS_BACK CHUNK_YEARS with
  | [] => None
  | df => Some (compute_p90_by_day df)
  end.

End fetch_historical.

(* ================================================================== *)
(** * compare_p90_roc.py: bulk rate of change and the comparison *)
(* ================================================================== *)

Module compare_p90_roc.
Import Clock Frame.

(** A row of the current frame, as [load_current_data] reads it. The
    columns the computations never touch (region, lat, lon) ride along
    unchanged and are left out. Any of the three columns [dropna] looks at
    may be null: no site number, a null flow, a timestamp that is blank. *)
Record reading : Type := {
  site_no : option string;
  site_name : string;
  timestamp_utc : stamp;
  flow_cfs : float
}.

(** The current frame after [compute_rate_of_change]. *)
Record with_roc : Type := {
  row : reading;
  pct_change_1h : float;
  pct_change_3h : float;
  pct_change_6h : float
}.

(** The current frame after [prepare_current_data]. *)
Record prepared : Type := {
  base : with_roc;
  day_of_year : option Z
}.

(** A row of [high_flow_with_roc.csv]. *)
Record classified : Type := {
  c_site_no : option string;
  c_site_name : string;
  c_timestamp_utc : stamp;
  c_flow_cfs : float;
  c_p90_flow_cfs : float;
  ratio : float;
  high_flow : bool;
  c_pct_change_1h : float;
  c_pct_change_3h : float;
  c_pct_change_6h : float
}.

(** Rows per window, at the five-minute cadence of the service. *)
Definition WINDOWS : list (string * nat) :=
  [("1h"%string, 12%nat); ("3h"%string, 36%nat); ("6h"%string, 72%nat)].

(** The lambda of line 49 on the flows of one site:
    [(x - x.shift(window)) / x.shift(window) * 100]. *)
Definition pct_change (window : nat) (x : list float) : list float :=
  map (fun p : float * float => ((fst p - snd p) / snd p * 100)%float)
      (combine x (shift window x)).

(** The formula of the specification for the rate of change at position
    [t] of a series [v] with lookback [w], to be compared with
    [pct_change]: null while no reading lies [w] positions back, and
    [(v[t] - v[t-w]) / v[t-w] * 100] afterwards. *)
Definition offset_formula (w : nat) (v : list float) (t : nat) : float :=
  if (t <? w)%nat then Float64.NaN
  else ((nth t v Float64.NaN - nth (t - w) v Float64.NaN)
        / nth (t - w) v Float64.NaN * 100)%float.

Definition of_site (s : string) (r : reading) : bool :=
  has_key site_no String.eqb s r.

(** The flows of the rows of site [s], in frame order. *)
Definition site_flows (df : list reading) (s : string) : list float :=
  map flow_cfs (filter (of_site s) df).

(** [df.groupby("site_no")["flow_cfs"].transform(f)] at one row: the
    value of [f] on the flows of the row's site, at the position the row
    has among them, which is the number of rows of that site [before] it.
    A row without a site number is in no group and gets a null. *)
Definition transform_at (f : list float -> list float) (df before : list reading)
           (r : reading) : float :=
  match site_no r with
  | Some s => nth (List.length (filter (of_site s) before)) (f (site_flows df s)) Float64.NaN
  | None => Float64.NaN
  end.

Fixpoint add_roc (df before rest : list reading) : list with_roc :=
  match rest with
  | [] => []
  | r :: rest' =>
      {| row := r;
         pct_change_1h := transform_at (pct_change 12) df before r;
         pct_change_3h := transform_at (pct_change 36) df before r;
         pct_change_6h := transform_at (pct_change 72) df before r |}
        :: add_roc df (before ++ [r]) rest'
  end.

(** The rows of site [s] in the frame with the three new columns. *)
Definition in_site (s : string) (r : with_roc) : bool := of_site s (row r).

Definition garbled (r : reading) : bool :=
  match timestamp_utc r with
  | Garbled => true
  | _ => false
  end.

(** The order of [sort_values(["site_no", "timestamp_utc"])], rows
    without a site number last. Two site numbers are compared as texts
    here; where the column holds integers, as in a frame [read_csv]
    returns, pandas compares them as numbers. The order of the rows of
    one site, and the place of the rows without a site number, are the
    same either way. *)
Definition row_leb (a b : reading) : bool :=
  pair_leb (option_leb String.leb) (option_eqb String.eqb) stamp_leb
           (site_no a, timestamp_utc a) (site_no b, timestamp_utc b).

(** [compute_rate_of_change(df)]. [None] is the exception [pd.to_datetime]
    raises on a text that is not a timestamp. *)
Definition compute_rate_of_change (df : list reading) : option (list with_roc) :=
  if existsb garbled df then None
  else
    let df := sort row_leb df in
    Some (add_roc df [] df).

(** [pd.to_datetime(col, utc=True, errors="coerce")] as a column update. *)
Definition coerce (c : stamp) : stamp :=
  match c with
  | At t => At t
  | Blank | Garbled => Blank
  end.

Definition set_timestamp (c : stamp) (r : with_roc) : with_roc :=
  {| row := {| site_no := site_no (row r); site_name := site_name (row r);
               timestamp_utc := c; flow_cfs := flow_cfs (row r) |};
     pct_change_1h := pct_change_1h r;
     pct_change_3h := pct_change_3h r;
     pct_change_6h := pct_change_6h r |}.

(** Line 79: [df["timestamp_utc"].dt.dayofyear] on the UTC instant. *)
Definition add_day_of_year (r : with_roc) : prepared :=
  let c := coerce (timestamp_utc (row r)) in
  {| base := set_timestamp c r;
     day_of_year := match c with
                    | At t => Some (dayofyear t)
                    | _ => None
                    end |}.

(** The rows [dropna(subset=["day_of_year", "flow_cfs", "site_no"])]
    keeps. *)
Definition complete (p : prepared) : bool :=
  match day_of_year p, site_no (row (base p)) with
  | Some _, Some _ => Float64.notna (flow_cfs (row (base p)))
  | _, _ => false
  end.

(** [prepare_current_data(df)]. *)
Definition prepare_current_data (df : list with_roc) : list prepared :=
  filter complete (map add_day_of_year df).

(** The join condition of line 90. *)
Definition same_key (p : prepared) (h : fetch_historical.baseline) : bool :=
  option_eqb String.eqb (site_no (row (base p))) (Some (fetch_historical.b_site_no h))
  && option_eqb Z.eqb (day_of_year p) (Some (fetch_historical.b_day_of_year h)).

(** Lines 107 to 111 on one merged row. *)
Definition classify (m : prepared * option fetch_historical.baseline) : classified :=
  let cur := row (base (fst m)) in
  let p90 := match snd m with
             | Some h => fetch_historical.p90_flow_cfs h
             | None => Float64.NaN
             end in
  let ratio0 := (flow_cfs cur / p90)%float in
  let ratio1 :=
    if Float64.isna p90 || PrimFloat.eqb p90 0 then Float64.NaN else ratio0 in
  {| c_site_no := site_no cur;
     c_site_name := site_name cur;
     c_timestamp_utc := timestamp_utc cur;
     c_flow_cfs := flow_cfs cur;
     c_p90_flow_cfs := p90;
     ratio := ratio1;
     high_flow := PrimFloat.leb 1 ratio1;
     c_pct_change_1h := pct_change_1h (base (fst m));
     c_pct_change_3h := pct_change_3h (base (fst m));
     c_pct_change_6h := pct_change_6h (base (fst m)) |}.

(** [compare_to_historical(df_current, df_hist)]. *)
Definition compare_to_historical (df_current : list prepared)
           (df_hist : list fetch_historical.baseline) : list classified :=
  map classify (merge_left same_key df_current df_hist).

(** [main()]: [df_current] is the concatenation of the region files,
    [hist] the content of [historical_p90.csv] when it exists. The result
    is the frame written to [high_flow_with_roc.csv]; [None] when the run
    stops without writing. *)
Definition main (df_current : list reading)
           (hist : option (list fetch_historical.baseline)) : option (list classified) :=
  match df_current with
  | [] => None
  | _ =>
      match compute_rate_of_change df_current with
      | None => None
      | Some df_roc =>
          let df_prepared := prepare_current_data df_roc in
          match hist with
          | None => None
          | Some df_hist => Some (compare_to_historical df_prepared df_hist)
          end
      end
  end.

End compare_p90_roc.

(* ================================================================== *)
(** * process_gauge_data.py: the latest reading of every gauge *)
(* ================================================================== *)

Module process_gauge_data.
Import Clock Frame fetch_data.

(** A row of [gauge_data_processed.csv]. There is no [high_flow] column
    in this file. *)
Record processed : Type := {
  p_site_no : string;
  p_site_name : string;
  p_timestamp_utc : stamp;
  p_flow_cfs : float;
  p_latitude : float;
  p_longitude : float;
  pct_change_3h : float;
  p90_flow_cfs : float;
  ratio : float
}.

(** [group.iloc[-1]]. *)
Fixpoint last_row (group : list reading) : option reading :=
  match group with
  | [] => None
  | [r] => Some r
  | _ :: rest => last_row rest
  end.

(** [(group['timestamp_utc'] - target_time).abs()] at one row; NaT when
    either side is NaT. *)
Definition time_diff (target_time : option Z) (r : reading) : option Z :=
  match to_datetime_coerce (timestamp_utc r), target_time with
  | Some u, Some g => Some (Z.abs (u - g))
  | _, _ => None
  end.

(** [group['time_diff'] <= pd.Timedelta(minutes=30)] at one row. *)
Definition mask (target_time : option Z) (r : reading) : bool :=
  match time_diff target_time r with
  | Some d => d <=? minutes 30
  | None => false
  end.

Definition distance (target_time : option Z) (r : reading) : Z :=
  match time_diff target_time r with
  | Some d => d
  | None => 0
  end.

(** The body of the loop of [compute_pct_change_3h] for one site. *)
Definition pct_change_site (group : list reading) : float :=
  match last_row group with
  | None => Float64.NaN
  | Some latest_row =>
      let latest_time := to_datetime_coerce (timestamp_utc latest_row) in
      let target_time :=
        match latest_time with
        | Some t => Some (t - hours 3)
        | None => None
        end in
      if existsb (mask target_time) group then
        let near := filter (mask target_time) group in
        let flow_3h :=
          nth (argmin (map (distance target_time) near))
              (map flow_cfs near) Float64.NaN in
        if negb (PrimFloat.eqb flow_3h 0) then
          ((flow_cfs latest_row - flow_3h) / flow_3h * 100)%float
        else Float64.NaN
      else Float64.NaN
  end.

(** [df.groupby('site_no')]: the groups, in the order of their keys.
    Two site numbers are compared as texts here; where the column holds
    integers pandas compares them as numbers. The rows of a group and
    their order are the same either way. *)
Definition by_site (df : list reading) : list (string * list reading) :=
  groupby (fun r => Some (site_no r)) String.eqb String.leb df.

(** [compute_pct_change_3h(df)]: one value per site, in the order of the
    site numbers. *)
Definition compute_pct_change_3h (df : list reading) : list float :=
  map (fun g => pct_change_site (snd g)) (by_site df).

(** The last value of a column that is not null, as [GroupBy.last] takes
    it. *)
Definition last_valid (l : list float) : float :=
  fold_left (fun acc x => if Float64.isna x then acc else x) l Float64.NaN.

Definition last_stamp (l : list stamp) : stamp :=
  fold_left (fun acc c => match c with At t => At t | _ => acc end) l Blank.

Definition last_name (l : list string) : string :=
  fold_left (fun _ n => n) l EmptyString.

(** [df_gauge.groupby('site_no').last().reset_index()], with the column
    [pct_change_3h] of line 63 attached. *)
Definition latest (g : string * list reading) (pct : float) : processed :=
  let rows := snd g in
  {| p_site_no := fst g;
     p_site_name := last_name (map site_name rows);
     p_timestamp_utc := last_stamp (map timestamp_utc rows);
     p_flow_cfs := last_valid (map flow_cfs rows);
     p_latitude := last_valid (map latitude rows);
     p_longitude := last_valid (map longitude rows);
     pct_change_3h := pct;
     p90_flow_cfs := Float64.NaN;
     ratio := Float64.NaN |}.

(** Line 66: the day of the year of the UTC instant. *)
Definition day_of_year (r : processed) : option Z :=
  match p_timestamp_utc r with
  | At t => Some (dayofyear t)
  | _ => None
  end.

Definition same_key (r : processed) (h : fetch_historical.baseline) : bool :=
  String.eqb (p_site_no r) (fetch_historical.b_site_no h)
  && option_eqb Z.eqb (day_of_year r) (Some (fetch_historical.b_day_of_year h)).

(** Lines 69 to 77 on one merged row: the P90 of the match, and the ratio
    as the plain quotient. *)
Definition add_ratio (m : processed * option fetch_historical.baseline) : processed :=
  let r := fst m in
  let p90 := match snd m with
             | Some h => fetch_historical.p90_flow_cfs h
             | None => Float64.NaN
             end in
  {| p_site_no := p_site_no r;
     p_site_name := p_site_name r;
     p_timestamp_utc := p_timestamp_utc r;
     p_flow_cfs := p_flow_cfs r;
     p_latitude := p_latitude r;
     p_longitude := p_longitude r;
     pct_change_3h := pct_change_3h r;
     p90_flow_cfs := p90;
     ratio := (p_flow_cfs r / p90)%float |}.

(** The order of line 24, [sort_values(['site_no', 'timestamp_utc'])],
    with site numbers compared as in [by_site]. *)
Definition gauge_leb (a b : reading) : bool :=
  pair_leb String.leb String.eqb stamp_leb
           (site_no a, timestamp_utc a) (site_no b, timestamp_utc b).

Definition unparsed (r : reading) : bool :=
  match timestamp_utc r with
  | Garbled => true
  | _ => false
  end.

(** The script from top to bottom. [df_gauge] and [df_hist] are the two
    frames [read_csv] returns; the result is the frame written, [None]
    when the script stops with an exception: on a gauge file without
    rows, whose timestamp column is no date column, so that [.dt] of
    line 66 raises; and when a timestamp of the file does not parse, so
    that the date arithmetic raises. *)
Definition script (df_gauge : list reading)
           (df_hist : list fetch_historical.baseline) : option (list processed) :=
  match df_gauge with
  | [] => None
  | _ =>
      if existsb unparsed df_gauge then None
      else
        let df_gauge := sort gauge_leb df_gauge in
        let df_latest :=
          map (fun gp => latest (fst gp) (snd gp))
              (combine (by_site df_gauge) (compute_pct_change_3h df_gauge)) in
        Some (map add_ratio (merge_left same_key df_latest df_hist))
  end.

End process_gauge_data.

(* ================================================================== *)
(** * main.py: the colour bands of the map *)
(* ================================================================== *)

Module main.

Definition gray : string := "#808080".
Definition brown : string := "#A18F65".
Definition red : string := "#942719".
Definition blue : string := "#5279A8".

(** [color_logic(x)] of [build_map], applied to the three-hour rate of
    change of a gauge. Gray marks missing data, brown a stable or falling
    flow, blue a moderate rise, red a sharp rise. *)
Definition color_logic (x : float) : string :=
  if Float64.isna x then gray
  else if PrimFloat.leb x 0 then brown
  else if PrimFloat.ltb 25 x then red
  else blue.

(** [numpy.rint]: the nearest integer, a tie going to the even one. Below
    [2^52] in magnitude it is computed by adding and taking away [2^52],
    which binary64 arithmetic rounds to the integer; from [2^52] on every
    value is an integer. A null, an infinity and a zero are returned as
    they are. *)
Definition rint (y : float) : float :=
  if Float64.isna y then y
  else if PrimFloat.leb 4503599627370496 (PrimFloat.abs y) then y
  else if PrimFloat.eqb y 0 then y
  else if PrimFloat.ltb y 0 then
    (- ((- y + 4503599627370496) - 4503599627370496))%float
  else ((y + 4503599627370496) - 4503599627370496)%float.

(** Line 39, [df["pct_change_3h"].round(3)], at one value: numpy scales by
    [10^3], rounds to the nearest integer and scales back. *)
Definition round3 (x : float) : float := (rint (x * 1000) / 1000)%float.

(** The [color_group] column of [build_map], line 60: [color_logic]
    applied to the column line 39 has rounded. *)
Definition color_group (pct_change_3h : float) : string :=
  color_logic (round3 pct_change_3h).

(** [size_class(flow)] of [build_map]: the size of the dot. *)
Definition size_class (flow : float) : Z :=
  if PrimFloat.leb flow 50 then 10
  else if PrimFloat.leb flow 200 then 20
  else 30.

(** The colour of the title of the page of one gauge, lines 242 to 251. *)
Definition title_color (pct_change_3h : float) : string :=
  if Float64.isna pct_change_3h then "#5A4A2F"
  else if PrimFloat.leb pct_change_3h 0 then "#A18F65"
  else if PrimFloat.ltb 25 pct_change_3h then "#942719"
  else "#5279A8".

(** The six-hour window of the chart of one gauge, lines 255 to 270: the
    readings of the site in the order of their timestamps, cut at six
    hours before the latest. [None] is the exception [pd.to_datetime]
    raises. pandas does not fix the order of readings with the same
    timestamp; here they stay in file order. *)
Definition gauge_6h (site_no : string) (ts : list fetch_data.reading)
  : option (list fetch_data.reading) :=
  if existsb process_gauge_data.unparsed ts then None
  else
    let gauge_df :=
      Frame.sort (fun a b => Clock.stamp_leb (fetch_data.timestamp_utc a)
                                             (fetch_data.timestamp_utc b))
                 (filter (fun r => String.eqb (fetch_data.site_no r) site_no) ts) in
    match gauge_df with
    | [] => Some gauge_df
    | _ =>
        let latest_time :=
          fetch_data.max_instant
            (map (fun r => Clock.to_datetime_coerce (fetch_data.timestamp_utc r)) gauge_df) in
        Some (filter (fun r =>
                        match Clock.to_datetime_coerce (fetch_data.timestamp_utc r),
                              latest_time with
                        | Some t, Some l => l - Clock.hours 6 <=? t
                        | _, _ => false
                        end) gauge_df)
    end.

(** The loop of [unique_filename]: the first number from [n] on whose file
    name is not taken. [taken n] tells whether the name made with [n]
    exists in the download folder; [fuel] bounds the number of turns. *)
Fixpoint first_free (fuel : nat) (taken : nat -> bool) (n : nat) : option nat :=
  match fuel with
  | O => None
  | S k => if taken n then first_free k taken (S n) else Some n
  end.

(** [unique_filename] in a folder where the numbers [folder] are taken
    for the given base name, date and extension. A folder of [k] files
    leaves one of the first [k + 1] numbers free. *)
Definition unique_filename (folder : list nat) : option nat :=
  first_free (S (List.length folder)) (fun n => existsb (Nat.eqb n) folder) 1.

End main.

(* ================================================================== *)
(** * update_data.py: the update log *)
(* ================================================================== *)

Module update_data.

Definition MAX_LOG_RECORDS : nat := 100.

(** [DataFrame.tail(n)]: the last [n] rows. *)
Definition tail {A : Type} (n : nat) (df : list A) : list A :=
  skipn (List.length df - n) df.

(** [log_update()]: the content of [update_log.csv] after the call.
    [timestamp] is the reading of the clock, [log_file] the rows of the
    file, [None] when it does not exist. *)
Definition log_update (timestamp : Z) (log_file : option (list Z)) : list Z :=
  let df_log :=
    match log_file with
    | Some rows => rows
    | None => []
    end in
  tail MAX_LOG_RECORDS (df_log ++ [timestamp]).

End update_data.

(* ================================================================== *)
(** * visualize_site.py: the readings of one site *)
(* ================================================================== *)

Module visualize_site.
Import Clock.

(** A row of [north_va.csv] or [south_va.csv] as [read_csv] returns it.
    The site numbers of the service are digits, so the column of site
    numbers is read as integers. *)
Record reading : Type := {
  site_no : Z;
  site_name : string;
  timestamp_utc : stamp;
  flow_cfs : float
}.

(** [df["site_no"] == site_name_or_no] at one row: the column holds
    integers and the argument is the text of the command line, and pandas
    answers the comparison of an integer with a text with False. *)
Definition site_no_is (site_name_or_no : string) (r : reading) : bool := false.

(** Line 40: the site is named by its name or by its number. *)
Definition mask (site_name_or_no : string) (r : reading) : bool :=
  String.eqb (site_name r) site_name_or_no || site_no_is site_name_or_no r.

Definition unparsed (r : reading) : bool :=
  match timestamp_utc r with
  | Garbled => true
  | _ => false
  end.

(** One turn of the loop of [load_data] on a file that exists: [None] is
    the exception of [pd.to_datetime], [Some []] a file without the
    site. pandas does not fix the order of readings with the same
    timestamp; here they stay in file order. *)
Definition site_rows (site_name_or_no : string) (df : list reading)
  : option (list reading) :=
  if existsb unparsed df then None
  else Some (Frame.sort (fun a b => stamp_leb (timestamp_utc a) (timestamp_utc b))
                        (filter (mask site_name_or_no) df)).

(** [load_data(site_name_or_no)]: the rows of the site and its region,
    the north file being read first. [north] and [south] are the rows of
    the two files, [None] for a file that does not exist. The outer
    [None] of the result is the exception. *)
Definition load_data (north south : option (list reading)) (site_name_or_no : string)
  : option (list reading * option string) :=
  let try_south :=
    match south with
    | Some df =>
        match site_rows site_name_or_no df with
        | None => None
        | Some [] => Some ([], None)
        | Some rows => Some (rows, Some "south"%string)
        end
    | None => Some ([], None)
    end in
  match north with
  | Some df =>
      match site_rows site_name_or_no df with
      | None => None
      | Some [] => try_south
      | Some rows => Some (rows, Some "north"%string)
      end
  | None => try_south
  end.

End visualize_site.
(* ================================================================== *)
(** * Concrete frames used by the examples *)
(* ================================================================== *)

Module Examples.
Import Clock.

Definition gauge (site : string) (t : stamp) (flow : float) : fetch_data.reading :=
  {| fetch_data.site_no := site; fetch_data.site_name := "HOGUE CREEK NEAR HAYFIELD, VA";
     fetch_data.timestamp_utc := t; fetch_data.flow_cfs := flow;
     fetch_data.latitude := 39.2; fetch_data.longitude := -78.3 |}.

(** A file holding readings from 30 hours, 24 hours and one minute more
    than 24 hours before noon of 2024-01-02, and a fetch adding three
    rows, one of them without a timestamp. *)
Definition store_now : Z := utc 2024 1 2 12 0.

Definition store_old : list fetch_data.reading :=
  [gauge "01613900" (At (utc 2024 1 1 6 0)) 11;
   gauge "01613900" (At (utc 2024 1 1 11 59)) 12;
   gauge "01613900" (At (utc 2024 1 1 12 0)) 13].

Definition store_new : list fetch_data.reading :=
  [gauge "01613900" (At (utc 2024 1 2 0 0)) 14;
   gauge "01613900" Blank 15;
   gauge "01613900" (At (utc 2024 1 2 11 55)) 16].

(** A current reading of the comparison script. *)
Definition current (site : string) (t : Z) (flow : float) : compare_p90_roc.reading :=
  {| compare_p90_roc.site_no := Some site;
     compare_p90_roc.site_name := "JAMES RIVER AT CARTERSVILLE, VA";
     compare_p90_roc.timestamp_utc := At t;
     compare_p90_roc.flow_cfs := flow |}.

(** Readings of one site every five minutes from [start] on. *)
Definition every_five_minutes (site : string) (start : Z) (flows : list float)
  : list compare_p90_roc.reading :=
  map (fun p : nat * float => current site (start + minutes (5 * Z.of_nat (fst p))) (snd p))
      (combine (seq 0 (List.length flows)) flows).

(** A stream bed that was dry an hour ago: thirteen readings, the first
    with a flow of zero. *)
Definition dry_start : list compare_p90_roc.reading :=
  every_five_minutes "02035000" (utc 2024 1 2 0 0)
                     [0; 1; 1; 2; 2; 2; 3; 3; 3; 4; 4; 4; 5]%float.

(** Two sites in one frame, rows not in order. *)
Definition two_sites : list compare_p90_roc.reading :=
  current "02037500" (utc 2024 1 2 1 0) 7
  :: rev (every_five_minutes "02035000" (utc 2024 1 2 0 0)
            [10; 11; 12; 13; 14; 15; 16; 17; 18; 19; 20; 21; 22; 23]%float)
  ++ [current "02037500" (utc 2024 1 2 0 0) 6].

(** Nine in the evening of the first of January in Virginia, which is two
    in the morning of the second of January in UTC. *)
Definition evening : Z := utc 2024 1 2 2 0.

Definition evening_reading : compare_p90_roc.with_roc :=
  {| compare_p90_roc.row := current "02035000" evening 120;
     compare_p90_roc.pct_change_1h := Float64.NaN;
     compare_p90_roc.pct_change_3h := Float64.NaN;
     compare_p90_roc.pct_change_6h := Float64.NaN |}.

Definition evening_sample : fetch_historical.sample :=
  {| fetch_historical.site_no := "02035000";
     fetch_historical.site_name := "JAMES RIVER AT CARTERSVILLE, VA";
     fetch_historical.date := At evening;
     fetch_historical.flow_cfs := 120 |}.

Definition p90_row (site : string) (day : Z) (p90 : float) : fetch_historical.baseline :=
  {| fetch_historical.b_site_no := site;
     fetch_historical.b_site_name := "JAMES RIVER AT CARTERSVILLE, VA";
     fetch_historical.b_day_of_year := day;
     fetch_historical.p90_flow_cfs := p90 |}.

(** A baseline whose threshold differs between the first and the second
    day of the year. *)
Definition new_year_baseline : list fetch_historical.baseline :=
  [p90_row "02035000" 1 100; p90_row "02035000" 2 200].

(** A gauge whose baseline for the day is zero. *)
Definition zero_baseline : list fetch_historical.baseline :=
  [p90_row "01613900" 2 0].

Definition one_gauge : list fetch_data.reading :=
  [gauge "01613900" (At (utc 2024 1 2 12 0)) 5].

(** A reading and a baseline that are both infinite. *)
Definition infinite_reading : compare_p90_roc.prepared :=
  {| compare_p90_roc.base :=
       {| compare_p90_roc.row := current "02035000" evening infinity;
          compare_p90_roc.pct_change_1h := Float64.NaN;
          compare_p90_roc.pct_change_3h := Float64.NaN;
          compare_p90_roc.pct_change_6h := Float64.NaN |};
     compare_p90_roc.day_of_year := Some 2 |}.

Definition infinite_baseline : list fetch_historical.baseline :=
  [p90_row "02035000" 2 infinity].

(** The nearest-neighbour example of the specification: the latest
    reading at 12:00 with a flow of 50, a reading at 09:10 with a flow of
    40, and readings outside the half hour around 09:00. *)
Definition noon_group : list fetch_data.reading :=
  [gauge "01613900" (At (utc 2024 1 2 8 20)) 30;
   gauge "01613900" (At (utc 2024 1 2 9 10)) 40;
   gauge "01613900" (At (utc 2024 1 2 9 45)) 45;
   gauge "01613900" (At (utc 2024 1 2 12 0)) 50].

(** The same day without any reading near 09:00. *)
Definition gap_group : list fetch_data.reading :=
  [gauge "01613900" (At (utc 2024 1 2 8 20)) 30;
   gauge "01613900" (At (utc 2024 1 2 9 45)) 45;
   gauge "01613900" (At (utc 2024 1 2 12 0)) 50].

Definition daily (site name : string) (d : stamp) (flow : float)
  : fetch_historical.sample :=
  {| fetch_historical.site_no := site; fetch_historical.site_name := name;
     fetch_historical.date := d; fetch_historical.flow_cfs := flow |}.

(** An archive of four sites: one with three dated values, one whose only
    value has a date that does not parse, one with no value at all, and
    one whose only value has no date while its dated row has no value. *)
Definition history : list fetch_historical.sample :=
  [daily "02035000" "JAMES RIVER AT CARTERSVILLE, VA" (At (utc 2020 1 10 12 0)) 5;
   daily "01613900" "HOGUE CREEK NEAR HAYFIELD, VA" Garbled 5;
   daily "02035000" "JAMES RIVER AT CARTERSVILLE, VA" (At (utc 2021 1 10 12 0)) 7;
   daily "02035000" "JAMES RIVER AT CARTERSVILLE, VA" (At (utc 2021 1 20 12 0)) 17;
   daily "02037500" "JAMES RIVER NEAR RICHMOND, VA" (At (utc 2021 1 20 12 0)) nan;
   daily "02041650" "APPOMATTOX RIVER AT MATOACA, VA" (At (utc 2021 1 20 12 0)) nan;
   daily "02041650" "APPOMATTOX RIVER AT MATOACA, VA" Blank 3].


(** One site number reported under two names. *)
Definition renamed : list fetch_historical.sample :=
  [daily "02035000" "JAMES RIVER AT CARTERSVILLE, VA" (At (utc 2020 1 10 12 0)) 5;
   daily "02035000" "JAMES R AT CARTERSVILLE" (At (utc 2021 1 10 12 0)) 7].

(** A site whose only samples carry the no-data code of the service. *)
Definition no_data_only : list fetch_historical.sample :=
  [daily "02037500" "JAMES RIVER NEAR RICHMOND, VA" (At (utc 2021 1 20 12 0)) (-9999);
   daily "02037500" "JAMES RIVER NEAR RICHMOND, VA" (At (utc 2021 1 21 12 0)) (-9999)].

(** Two rows of a region file as [read_csv] returns them. *)
Definition region_row (site : Z) (name : string) (t : stamp) (flow : float)
  : visualize_site.reading :=
  {| visualize_site.site_no := site; visualize_site.site_name := name;
     visualize_site.timestamp_utc := t; visualize_site.flow_cfs := flow |}.

Definition north_va : list visualize_site.reading :=
  [region_row 1613900 "HOGUE CREEK NEAR HAYFIELD, VA" (At (utc 2024 1 2 12 0)) 5;
   region_row 1613900 "HOGUE CREEK NEAR HAYFIELD, VA" (At (utc 2024 1 2 11 0)) 4].

Definition south_va : list visualize_site.reading :=
  [region_row 2035000 "JAMES RIVER AT CARTERSVILLE, VA" (At (utc 2024 1 2 12 0)) 900].

End Examples.
(* ================================================================== *)
(** * Facts about binary64 numbers *)
(* ================================================================== *)

Section FloatFacts.
Import Float64.

Lemma SFcompare_refl (a : spec_float) :
  a <> S754_nan -> SFcompare a a = Some Eq.
Proof.
  destruct a as [s|s| |s m e]; simpl; intros H; try congruence.
  - now destruct s.
  - destruct s; rewrite Z.compare_refl, Pos.compare_cont_refl; reflexivity.
Qed.

Lemma SFcompare_antisym (a b : spec_float) :
  SFcompare a b = option_map CompOpp (SFcompare b a).
Proof.
  destruct a as [s|s| |s m e], b as [s'|s'| |s' m' e']; simpl;
    try reflexivity;
    try (destruct s; reflexivity); try (destruct s'; reflexivity);
    try (destruct s, s'; reflexivity).
  destruct s, s'; simpl; try reflexivity;
    rewrite (Z.compare_antisym e e');
    replace (Pos.compare_cont Eq m' m) with (CompOpp (Pos.compare_cont Eq m m'))
      by apply (Pos.compare_cont_antisym m m' Eq);
    destruct (e ?= e'); simpl; try reflexivity;
    destruct (Pos.compare_cont Eq m m'); reflexivity.
Qed.

Lemma SFcompare_some (a b : spec_float) :
  a <> S754_nan -> b <> S754_nan -> exists c, SFcompare a b = Some c.
Proof.
  destruct a, b; simpl; intros; try congruence; eauto.
Qed.

Lemma isna_Prim2SF (x : float) :
  isna x = true <-> Prim2SF x = S754_nan.
Proof.
  unfold isna. rewrite FloatAxioms.eqb_spec. unfold SFeqb. split.
  - intros H. destruct (Prim2SF x) eqn:E; try reflexivity;
      rewrite SFcompare_refl in H by congruence; discriminate.
  - intros ->. reflexivity.
Qed.

Lemma isna_false_Prim2SF (x : float) :
  isna x = false <-> Prim2SF x <> S754_nan.
Proof.
  rewrite <- isna_Prim2SF. destruct (isna x); split; congruence.
Qed.

Lemma isna_NaN : isna NaN = true.
Proof. reflexivity. Qed.

Lemma eqb_zero_Prim2SF (x : float) :
  PrimFloat.eqb x 0 = true <-> exists s, Prim2SF x = S754_zero s.
Proof.
  rewrite FloatAxioms.eqb_spec. change (Prim2SF 0) with (S754_zero false).
  unfold SFeqb. destruct (Prim2SF x) as [s|s| |s m e]; simpl; split;
    try discriminate; try (intros [s' H]; discriminate).
  - intros _. now exists s.
  - reflexivity.
  - now destruct s.
  - now destruct s.
Qed.

(** Rounding a non-negative mantissa never produces a NaN. *)
Lemma shr_1_nonneg (mrs : shr_record) :
  0 <= shr_m mrs -> 0 <= shr_m (shr_1 mrs).
Proof.
  destruct mrs as [m r s]. simpl.
  destruct m as [|p|p]; [simpl; lia | | lia].
  destruct p; simpl; lia.
Qed.

Lemma iter_shr_1_nonneg (p : positive) :
  forall mrs, 0 <= shr_m mrs -> 0 <= shr_m (iter_pos shr_1 p mrs).
Proof.
  induction p as [p IH|p IH|]; intros mrs H; simpl.
  - apply IH, IH, shr_1_nonneg, H.
  - apply IH, IH, H.
  - apply shr_1_nonneg, H.
Qed.

Lemma shr_fexp_nonneg (m e : Z) (l : location) :
  0 <= m -> 0 <= shr_m (fst (shr_fexp prec emax m e l)).
Proof.
  intros H. unfold shr_fexp, shr.
  assert (H0 : 0 <= shr_m (shr_record_of_loc m l))
    by (destruct l as [|[]]; exact H).
  destruct (fexp prec emax (Zdigits2 m + e) - e); simpl; auto.
  now apply iter_shr_1_nonneg.
Qed.

Lemma round_nearest_even_nonneg (m : Z) (l : location) :
  0 <= m -> 0 <= round_nearest_even m l.
Proof.
  intros H. destruct l as [|[]]; simpl; try lia.
  destruct (Z.even m); lia.
Qed.

Lemma binary_round_aux_not_nan (sx : bool) (mx ex : Z) (lx : location) :
  0 <= mx -> binary_round_aux prec emax sx mx ex lx <> S754_nan.
Proof.
  intros H. unfold binary_round_aux.
  pose proof (shr_fexp_nonneg mx ex lx H) as H1.
  destruct (shr_fexp prec emax mx ex lx) as [mrs' e'] eqn:E1. simpl in H1.
  pose proof (shr_fexp_nonneg _ e' loc_Exact
                (round_nearest_even_nonneg _ (loc_of_shr_record mrs') H1)) as H2.
  destruct (shr_fexp prec emax _ e' loc_Exact) as [mrs'' e''] eqn:E2.
  simpl in H2.
  destruct (shr_m mrs'') as [|p|p]; try discriminate; try lia.
  destruct (e'' <=? emax - prec); discriminate.
Qed.

Lemma SFdiv_finite_not_nan (sx sy : bool) (mx my : positive) (ex ey : Z) :
  SFdiv prec emax (S754_finite sx mx ex) (S754_finite sy my ey) <> S754_nan.
Proof.
  unfold SFdiv, SFdiv_core_binary.
  set (s := (ex - ey - _)).
  set (m' := match s with Z0 => _ | Zpos _ => _ | Zneg _ => _ end).
  assert (Hm : 0 <= m').
  { unfold m'. destruct s; try lia. apply Z.shiftl_nonneg. lia. }
  pose proof (Z.div_pos m' (Zpos my) Hm ltac:(lia)) as Hq.
  unfold Z.div in Hq.
  destruct (Z.div_eucl m' (Zpos my)) as [q r]. simpl in Hq.
  now apply binary_round_aux_not_nan.
Qed.

(** A finite number divided by a number that is neither null nor zero is
    not null. *)
Lemma div_notna (x y : float) :
  finite x = true -> isna y = false -> PrimFloat.eqb y 0 = false ->
  isna (x / y) = false.
Proof.
  intros Hx Hy Hz. apply isna_false_Prim2SF. rewrite FloatAxioms.div_spec.
  apply isna_false_Prim2SF in Hy.
  assert (Hz' : forall s, Prim2SF y <> S754_zero s).
  { intros s E. assert (PrimFloat.eqb y 0 = true) by (apply eqb_zero_Prim2SF; eauto).
    congruence. }
  unfold finite in Hx. unfold SF64div.
  destruct (Prim2SF x) as [s|s| |s m e]; try discriminate;
    destruct (Prim2SF y) as [s'|s'| |s' m' e']; try congruence;
    try (simpl; discriminate); try (exfalso; eapply Hz'; reflexivity).
  apply SFdiv_finite_not_nan.
Qed.

Lemma div_by_nan (x y : float) : isna y = true -> isna (x / y) = true.
Proof.
  intros H. apply isna_Prim2SF. rewrite FloatAxioms.div_spec.
  apply isna_Prim2SF in H. rewrite H. unfold SF64div.
  now destruct (Prim2SF x).
Qed.

Lemma leb_nan_r (x y : float) : isna y = true -> PrimFloat.leb x y = false.
Proof.
  intros H. rewrite FloatAxioms.leb_spec. apply isna_Prim2SF in H. rewrite H.
  unfold SFleb. now destruct (Prim2SF x).
Qed.

Lemma leb_nan_l (x y : float) : isna x = true -> PrimFloat.leb x y = false.
Proof.
  intros H. rewrite FloatAxioms.leb_spec. apply isna_Prim2SF in H. now rewrite H.
Qed.

Lemma ltb_nan_r (x y : float) : isna y = true -> PrimFloat.ltb x y = false.
Proof.
  intros H. rewrite FloatAxioms.ltb_spec. apply isna_Prim2SF in H. rewrite H.
  unfold SFltb. now destruct (Prim2SF x).
Qed.

(** On numbers that are not null the order is total: [y < x] is the
    negation of [x <= y]. *)
Lemma ltb_negb_leb (x y : float) :
  isna x = false -> isna y = false ->
  PrimFloat.ltb y x = negb (PrimFloat.leb x y).
Proof.
  intros Hx Hy. apply isna_false_Prim2SF in Hx, Hy.
  rewrite FloatAxioms.ltb_spec, FloatAxioms.leb_spec. unfold SFltb, SFleb.
  rewrite (SFcompare_antisym (Prim2SF y) (Prim2SF x)).
  destruct (SFcompare_some _ _ Hx Hy) as [c ->]. now destruct c.
Qed.

Lemma leb_0_ltb_25 (x : float) :
  PrimFloat.leb x 0 = true -> PrimFloat.ltb 25 x = false.
Proof.
  rewrite FloatAxioms.leb_spec, FloatAxioms.ltb_spec.
  change (Prim2SF 0) with (S754_zero false).
  replace (Prim2SF 25) with (S754_finite false 7036874417766400 (-48))
    by (vm_compute; reflexivity).
  unfold SFleb, SFltb.
  destruct (Prim2SF x) as [s|s| |s m e]; simpl; try reflexivity;
    destruct s; simpl; try reflexivity; discriminate.
Qed.

End FloatFacts.

(* ================================================================== *)
(** * main.py: the colour bands *)
(* ================================================================== *)

(** [color_logic] cuts its argument into four bands
    that exclude each other and leave nothing out: gray (missing) exactly on
    a null, brown (stable or declining) exactly on [x <= 0], blue (moderate
    rise) exactly on [0 < x <= 25], red (sharp rise) exactly on [25 < x];
    the value 25 itself is blue. *)
Lemma color_logic_bands (x : float) :
  (main.color_logic x = main.gray <-> Float64.isna x = true) /\
  (main.color_logic x = main.brown <-> PrimFloat.leb x 0 = true) /\
  (main.color_logic x = main.blue <->
     PrimFloat.ltb 0 x && PrimFloat.leb x 25 = true) /\
  (main.color_logic x = main.red <-> PrimFloat.ltb 25 x = true) /\
  main.color_logic 25 = main.blue.
Proof.
  unfold main.color_logic.
  destruct (Float64.isna x) eqn:Hn.
  - rewrite (leb_nan_l x 0 Hn), (leb_nan_l x 25 Hn), (ltb_nan_r 0 x Hn),
      (ltb_nan_r 25 x Hn).
    repeat split; intros; try reflexivity; try discriminate.
  - rewrite (ltb_negb_leb x 0 Hn eq_refl), (ltb_negb_leb x 25 Hn eq_refl).
    pose proof (leb_0_ltb_25 x) as H0.
    rewrite (ltb_negb_leb x 25 Hn eq_refl) in H0.
    destruct (PrimFloat.leb x 0); destruct (PrimFloat.leb x 25); simpl;
      try (specialize (H0 eq_refl); discriminate);
      repeat split; intros; try reflexivity; try discriminate.
Qed.

(** The band edges of the specification, evaluated. *)
Example color_logic_edges :
  map main.color_logic [25; 25.0001; 0; -0.5; 0.0001; infinity; neg_infinity; nan]%float
  = [main.blue; main.red; main.brown; main.brown; main.blue; main.red;
     main.brown; main.gray].
Proof. vm_compute. reflexivity. Qed.

(** The rounding of line 39 on values around the band edges. *)
Example round3_values :
  map main.round3 [25.0001; 25.0004; 25.0005; 25.0006; 0.0001; 0.0005; 0.0015;
                   -0.0004; 12.3456; 25; nan; infinity]%float
  = [25; 25; 25; 25.001; 0; 0; 0.002; -0; 12.346; 25; nan; infinity]%float.
Proof. vm_compute. reflexivity. Qed.

(** C8. On the map the bands are cut on the rate of change rounded to three
    decimals, not on the rate of change: line 39 overwrites the column
    before line 60 colours it. A gauge is drawn red (sharp rise) exactly
    when its rounded rate exceeds 25 and blue (moderate rise) exactly when
    its rounded rate lies in (0, 25]. So a rate of 25.0001, which exceeds
    25, is drawn blue and not red, and a rate of 0.0001, which is positive,
    is drawn brown and not blue, while [color_logic] on the values
    themselves, and the title of the page of the gauge, give red and blue.
    A null stays gray and 25 stays blue. *)
Theorem map_colour_rounds_first :
  (forall x, main.color_group x = main.red
             <-> PrimFloat.ltb 25 (main.round3 x) = true)
  /\ (forall x, main.color_group x = main.blue
                <-> PrimFloat.ltb 0 (main.round3 x)
                    && PrimFloat.leb (main.round3 x) 25 = true)
  /\ (PrimFloat.ltb 25 25.0001 = true
      /\ main.color_group 25.0001 = main.blue
      /\ main.color_logic 25.0001 = main.red
      /\ main.title_color 25.0001 = main.red)
  /\ (PrimFloat.ltb 0 0.0001 = true
      /\ main.color_group 0.0001 = main.brown
      /\ main.color_logic 0.0001 = main.blue
      /\ main.title_color 0.0001 = main.blue)
  /\ main.color_group 25 = main.blue
  /\ main.color_group Float64.NaN = main.gray.
Proof.
  split; [|split].
  - intros x. unfold main.color_group.
    destruct (color_logic_bands (main.round3 x)) as [_ [_ [_ [H _]]]]. exact H.
  - intros x. unfold main.color_group.
    destruct (color_logic_bands (main.round3 x)) as [_ [_ [H _]]]. exact H.
  - repeat split.
Qed.

(* ================================================================== *)
(** * fetch_data.py: retention of the reading store *)
(* ================================================================== *)

Section ReadingStore.
Import Clock fetch_data.

(** The only way [append_and_trim] fails is a timestamp that does not
    parse. *)
Lemma to_datetime_total (df : list reading) :
  Forall (fun r => timestamp_utc r <> Garbled) df ->
  exists parsed, to_datetime df = Some parsed.
Proof.
  induction 1 as [|r rest Hr _ [rest' IH]]; simpl; eauto.
  rewrite IH. destruct (timestamp_utc r); simpl; eauto. contradiction.
Qed.

Lemma append_and_trim_total (now : Z) (df_new : list reading)
      (file : option (list reading)) (hrs : Z) :
  Forall (fun r => timestamp_utc r <> Garbled) df_new ->
  (forall df_old, file = Some df_old ->
                  Forall (fun r => timestamp_utc r <> Garbled) df_old) ->
  exists stored, append_and_trim now df_new file hrs = Some stored.
Proof.
  intros Hn Ho. unfold append_and_trim.
  assert (H : Forall (fun r => timestamp_utc r <> Garbled)
                     (match file with Some df_old => df_old ++ df_new | None => df_new end)).
  { destruct file; auto. apply Forall_app; auto. }
  destruct (to_datetime_total _ H) as [parsed ->]. eauto.
Qed.

(** The no-data code of the service, and a text that is not a number,
    enter the store as nulls. *)
Lemma parse_flow_null :
  parse_flow (Some (-9999)%float) = Float64.NaN
  /\ parse_flow None = Float64.NaN
  /\ parse_flow (Some 12.5%float) = 12.5%float.
Proof. vm_compute. repeat split. Qed.

End ReadingStore.

(** C9. Whatever the file held and whatever is appended, every reading
    [append_and_trim] leaves in the file carries an instant that is not
    older than the clock reading minus the horizon. *)
Theorem append_and_trim_horizon (now : Z) (df_new : list fetch_data.reading)
        (file : option (list fetch_data.reading)) (hrs : Z)
        (stored : list fetch_data.reading) :
  fetch_data.append_and_trim now df_new file hrs = Some stored ->
  Forall (fun r => exists t, fetch_data.timestamp_utc r = Clock.At t
                             /\ now - Clock.hours hrs <= t) stored.
Proof.
  unfold fetch_data.append_and_trim. intros H.
  destruct (fetch_data.to_datetime _) as [parsed|] eqn:E; try discriminate.
  injection H as <-. apply Forall_forall. intros r Hr.
  apply in_map_iff in Hr. destruct Hr as [[r0 t0] [<- Hp]].
  apply filter_In in Hp. destruct Hp as [_ Hp]. simpl in Hp.
  destruct t0 as [u|]; simpl in Hp; try discriminate.
  exists u. split; [reflexivity | now apply Z.leb_le].
Qed.

(** The retention example of the specification: readings spread over
    thirty hours, with the default horizon of twenty-four hours. Three rows
    survive. *)
Lemma append_and_trim_horizon_witness :
  exists stored,
    fetch_data.append_and_trim Examples.store_now Examples.store_new
                               (Some Examples.store_old) fetch_data.default_hours
    = Some stored
    /\ List.length stored = 3%nat
    /\ Forall (fun r => exists t, fetch_data.timestamp_utc r = Clock.At t
                                  /\ Examples.store_now - Clock.hours 24 <= t) stored.
Proof.
  eexists. split; [vm_compute; reflexivity|].
  split; [reflexivity|].
  apply (append_and_trim_horizon Examples.store_now Examples.store_new
                                 (Some Examples.store_old) fetch_data.default_hours).
  vm_compute. reflexivity.
Defined.

(* ================================================================== *)
(** * Facts about the data-frame operations *)
(* ================================================================== *)

Section SortFacts.
Import Frame.
Context {A : Type} (leb : A -> A -> bool).

Lemma insert_perm (x : A) (l : list A) : Permutation (insert leb x l) (x :: l).
Proof.
  induction l as [|y r IH]; simpl; auto.
  destruct (leb x y); auto.
  rewrite IH. apply perm_swap.
Qed.

Lemma sort_perm (l : list A) : Permutation (sort leb l) l.
Proof.
  induction l as [|x r IH]; simpl; auto.
  rewrite insert_perm. now constructor.
Qed.

Lemma sort_In (x : A) (l : list A) : In x (sort leb l) <-> In x l.
Proof.
  split; apply Permutation_in; [|symmetry]; apply sort_perm.
Qed.

Lemma sort_length (l : list A) : List.length (sort leb l) = List.length l.
Proof. apply Permutation_length, sort_perm. Qed.

Hypothesis leb_total : forall a b, leb a b = true \/ leb b a = true.
Hypothesis leb_trans : forall a b c, leb a b = true -> leb b c = true -> leb a c = true.

Lemma insert_sorted (x : A) (l : list A) :
  StronglySorted (fun a b => leb a b = true) l ->
  StronglySorted (fun a b => leb a b = true) (insert leb x l).
Proof.
  induction 1 as [|y r Hr IH Hy]; simpl.
  - repeat constructor.
  - destruct (leb x y) eqn:E.
    + constructor; [now constructor|]. constructor; [exact E|].
      eapply Forall_impl; [|exact Hy]. intros z Hz. now apply leb_trans with y.
    + constructor; [exact IH|].
      assert (Hyx : leb y x = true) by (destruct (leb_total x y); [congruence|assumption]).
      apply Forall_forall. intros z Hz.
      apply (Permutation_in _ (insert_perm x r)) in Hz.
      destruct Hz as [<-|Hz]; [exact Hyx|].
      rewrite Forall_forall in Hy. now apply Hy.
Qed.

Lemma sort_sorted (l : list A) :
  StronglySorted (fun a b => leb a b = true) (sort leb l).
Proof.
  induction l as [|x r IH]; simpl; [constructor | now apply insert_sorted].
Qed.

End SortFacts.

Section GroupFacts.
Import Frame.
Context {R K : Type}.
Variable key : R -> option K.
Variable eqb : K -> K -> bool.
Variable leb : K -> K -> bool.
Hypothesis eqb_eq : forall a b, eqb a b = true <-> a = b.

Lemma has_key_true (k : K) (r : R) :
  has_key key eqb k r = true <-> key r = Some k.
Proof.
  unfold has_key. destruct (key r) as [k'|]; split; try discriminate.
  - intros H. apply eqb_eq in H. now subst.
  - intros [= ->]. now apply eqb_eq.
Qed.

Lemma keys_In (k : K) (df : list R) :
  In k (keys key df) <-> exists r, In r df /\ key r = Some k.
Proof.
  induction df as [|r rest IH]; simpl.
  - split; [contradiction | intros [r [[] _]]].
  - destruct (key r) as [k'|] eqn:E; simpl; rewrite IH; split.
    + intros [<-|[r' [H1 H2]]]; eauto.
    + intros [r' [[<-|H1] H2]]; [left; congruence | right; eauto].
    + intros [r' [H1 H2]]; eauto.
    + intros [r' [[<-|H1] H2]]; [congruence | eauto].
Qed.

Lemma dedup_In (k : K) (l : list K) : In k (dedup eqb l) <-> In k l.
Proof.
  induction l as [|k0 r IH]; simpl; [tauto|].
  rewrite filter_In, IH. split.
  - tauto.
  - intros [->|H]; [now left|].
    destruct (eqb k k0) eqn:E.
    + left. symmetry. now apply eqb_eq.
    + right. split; [exact H | reflexivity].
Qed.

Lemma dedup_NoDup (l : list K) : NoDup (dedup eqb l).
Proof.
  induction l as [|k0 r IH]; simpl; constructor.
  - rewrite filter_In. intros [_ H].
    assert (eqb k0 k0 = true) by now apply eqb_eq.
    rewrite H0 in H. discriminate.
  - now apply NoDup_filter.
Qed.

Lemma group_keys_In (k : K) (df : list R) :
  In k (group_keys key eqb leb df) <-> exists r, In r df /\ key r = Some k.
Proof.
  unfold group_keys. now rewrite sort_In, dedup_In, keys_In.
Qed.

Lemma group_keys_NoDup (df : list R) : NoDup (group_keys key eqb leb df).
Proof.
  unfold group_keys.
  eapply Permutation_NoDup; [symmetry; apply sort_perm | apply dedup_NoDup].
Qed.

Lemma groupby_fst (df : list R) :
  map fst (groupby key eqb leb df) = group_keys key eqb leb df.
Proof.
  unfold groupby. rewrite map_map. simpl. apply map_id.
Qed.

Lemma groupby_In (k : K) (g : list R) (df : list R) :
  In (k, g) (groupby key eqb leb df) <->
  In k (group_keys key eqb leb df) /\ g = filter (has_key key eqb k) df.
Proof.
  unfold groupby. rewrite in_map_iff. split.
  - intros [k' [[= -> <-] H]]. auto.
  - intros [H ->]. eauto.
Qed.

(** No group is empty. *)
Lemma groupby_nonempty (k : K) (g : list R) (df : list R) :
  In (k, g) (groupby key eqb leb df) -> exists r, In r g /\ key r = Some k.
Proof.
  intros H. apply groupby_In in H. destruct H as [H ->].
  apply group_keys_In in H. destruct H as [r [H1 H2]].
  exists r. split; [|exact H2]. apply filter_In. split; [exact H1|].
  now apply has_key_true.
Qed.

End GroupFacts.

Section MergeFacts.
Import Frame.
Context {L R : Type} (same_key : L -> R -> bool).

Lemma merge_left_In (l : L) (o : option R) (left : list L) (right : list R) :
  In (l, o) (merge_left same_key left right) ->
  In l left /\
  match o with
  | Some r => In r right /\ same_key l r = true
  | None => forall r, In r right -> same_key l r = false
  end.
Proof.
  unfold merge_left. rewrite in_flat_map. intros [l' [Hl H]].
  destruct (filter (same_key l') right) as [|m ms] eqn:E.
  - destruct H as [[= -> <-]|[]]. split; [exact Hl|].
    intros r Hr. destruct (same_key l r) eqn:Er; [|reflexivity].
    assert (In r (filter (same_key l) right)) by (apply filter_In; auto).
    rewrite E in H. contradiction.
  - apply in_map_iff in H. destruct H as [r [[= -> <-] Hr]].
    split; [exact Hl|]. rewrite <- E in Hr. now apply filter_In in Hr.
Qed.

(** When no left row has two matches, the merge keeps the left frame row
    for row. *)
Lemma merge_left_fst (left : list L) (right : list R) :
  (forall l, In l left -> (List.length (filter (same_key l) right) <= 1)%nat) ->
  map fst (merge_left same_key left right) = left.
Proof.
  unfold merge_left. induction left as [|l rest IH]; intros H; [reflexivity|].
  cbn [flat_map]. rewrite map_app, IH by (intros; apply H; now right).
  change (l :: rest) with ([l] ++ rest). f_equal.
  specialize (H l (or_introl eq_refl)).
  destruct (filter (same_key l) right) as [|m [|m' ms]]; simpl in *;
    try reflexivity; lia.
Qed.

End MergeFacts.

(* ================================================================== *)
(** * compare_p90_roc.py: what reaches the join, and the ratio *)
(* ================================================================== *)

Section Classifier.
Import Clock Frame compare_p90_roc.

Lemma complete_add_day_of_year (r : with_roc) :
  complete (add_day_of_year r) = true <->
  site_no (row r) <> None /\ Float64.isna (flow_cfs (row r)) = false
  /\ exists t, timestamp_utc (row r) = At t.
Proof.
  unfold complete, add_day_of_year, Float64.notna. simpl.
  destruct (timestamp_utc (row r)) as [t| |]; simpl;
    destruct (site_no (row r)) as [s|]; simpl;
    destruct (Float64.isna (flow_cfs (row r))); simpl; split;
    try discriminate; try tauto;
    try (intros [_ [_ [t' H]]]; discriminate);
    try (intros [H _]; congruence);
    try (intros [_ [H _]]; discriminate).
  all: intros _; repeat split; try discriminate; eauto.
Qed.

Lemma prepare_current_data_In (p : prepared) (df : list with_roc) :
  In p (prepare_current_data df) <->
  exists r, In r df /\ p = add_day_of_year r /\ complete p = true.
Proof.
  unfold prepare_current_data. rewrite filter_In, in_map_iff. split.
  - intros [[r [<- H]] Hc]. eauto.
  - intros [r [H [-> Hc]]]. eauto.
Qed.

Lemma compare_to_historical_In (c : classified) (df_current : list prepared)
      (df_hist : list fetch_historical.baseline) :
  In c (compare_to_historical df_current df_hist) ->
  exists p o, In p df_current /\ c = classify (p, o).
Proof.
  unfold compare_to_historical. rewrite in_map_iff.
  intros [[p o] [<- H]]. apply merge_left_In in H. destruct H as [H _]. eauto.
Qed.

(** A left join loses no row of the current frame. *)
Lemma compare_to_historical_keeps (p : prepared) (df_current : list prepared)
      (df_hist : list fetch_historical.baseline) :
  In p df_current ->
  exists o, In (classify (p, o)) (compare_to_historical df_current df_hist).
Proof.
  intros H. unfold compare_to_historical, merge_left.
  destruct (filter (same_key p) df_hist) as [|h hs] eqn:E.
  - exists None. apply in_map, in_flat_map. exists p. split; [exact H|].
    rewrite E. now left.
  - exists (Some h). apply in_map, in_flat_map. exists p. split; [exact H|].
    rewrite E. now left.
Qed.

End Classifier.

(** C10. [prepare_current_data] keeps a reading exactly when its site
    number, its flow and its parsed timestamp are all present, and stamps
    the kept reading with its day of the year; so every record
    [compare_to_historical] makes from the prepared frame, and every record
    [main] writes, carries a flow that is not null (with a site number and
    a timestamp). *)
Theorem classifier_drops_incomplete
        (df : list compare_p90_roc.with_roc)
        (df_hist : list fetch_historical.baseline) :
  (forall p, In p (compare_p90_roc.prepare_current_data df) <->
             exists r, In r df /\ p = compare_p90_roc.add_day_of_year r
                       /\ compare_p90_roc.site_no (compare_p90_roc.row r) <> None
                       /\ Float64.isna (compare_p90_roc.flow_cfs (compare_p90_roc.row r)) = false
                       /\ exists t, compare_p90_roc.timestamp_utc (compare_p90_roc.row r) = Clock.At t
                                    /\ compare_p90_roc.day_of_year p = Some (Clock.dayofyear t)) /\
  (forall c, In c (compare_p90_roc.compare_to_historical
                     (compare_p90_roc.prepare_current_data df) df_hist) ->
             Float64.isna (compare_p90_roc.c_flow_cfs c) = false
             /\ compare_p90_roc.c_site_no c <> None
             /\ exists t, compare_p90_roc.c_timestamp_utc c = Clock.At t) /\
  (forall df_current hist out,
      compare_p90_roc.main df_current hist = Some out ->
      Forall (fun c => Float64.isna (compare_p90_roc.c_flow_cfs c) = false) out).
Proof.
  assert (Hprep : forall df0 p,
             In p (compare_p90_roc.prepare_current_data df0) <->
             exists r, In r df0 /\ p = compare_p90_roc.add_day_of_year r
                       /\ compare_p90_roc.site_no (compare_p90_roc.row r) <> None
                       /\ Float64.isna (compare_p90_roc.flow_cfs (compare_p90_roc.row r)) = false
                       /\ exists t, compare_p90_roc.timestamp_utc (compare_p90_roc.row r) = Clock.At t
                                    /\ compare_p90_roc.day_of_year p = Some (Clock.dayofyear t)).
  { intros df0 p. rewrite prepare_current_data_In. split.
    - intros [r [H [-> Hc]]]. apply complete_add_day_of_year in Hc.
      destruct Hc as [Hs [Hf [t Ht]]]. exists r. repeat split; auto.
      exists t. split; [exact Ht|].
      unfold compare_p90_roc.add_day_of_year. simpl. now rewrite Ht.
    - intros [r [H [-> [Hs [Hf [t [Ht _]]]]]]]. exists r. repeat split; auto.
      apply complete_add_day_of_year. eauto. }
  assert (Hout : forall df0 h c,
             In c (compare_p90_roc.compare_to_historical
                     (compare_p90_roc.prepare_current_data df0) h) ->
             Float64.isna (compare_p90_roc.c_flow_cfs c) = false
             /\ compare_p90_roc.c_site_no c <> None
             /\ exists t, compare_p90_roc.c_timestamp_utc c = Clock.At t).
  { intros df0 h c Hc. apply compare_to_historical_In in Hc.
    destruct Hc as [p [o [Hp ->]]]. apply Hprep in Hp.
    destruct Hp as [r [_ [-> [Hs [Hf [t [Ht _]]]]]]].
    unfold compare_p90_roc.classify, compare_p90_roc.add_day_of_year. simpl.
    repeat split; auto. exists t. now rewrite Ht. }
  split; [apply Hprep|]. split; [apply Hout|].
  intros df_current hist out H. unfold compare_p90_roc.main in H.
  destruct df_current as [|r0 rest]; try discriminate.
  destruct (compare_p90_roc.compute_rate_of_change (r0 :: rest)) as [df_roc|];
    try discriminate.
  destruct hist as [h|]; try discriminate. injection H as <-.
  apply Forall_forall. intros c Hc. now apply Hout in Hc.
Qed.

(** C2, as amended. For every record [compare_to_historical] makes: the
    ratio is null whenever the P90 is null or zero; when the flow is finite
    the ratio is null only then; [high_flow] is the test [ratio >= 1.0], and
    is false when the ratio is null. In [process_gauge_data.py] the ratio
    is null whenever the P90 is null. *)
Theorem ratio_and_high_flow
        (df_current : list compare_p90_roc.prepared)
        (df_gauge : list fetch_data.reading)
        (df_hist : list fetch_historical.baseline) :
  (forall c, In c (compare_p90_roc.compare_to_historical df_current df_hist) ->
     let p90 := compare_p90_roc.c_p90_flow_cfs c in
     (Float64.isna p90 = true \/ PrimFloat.eqb p90 0 = true ->
      Float64.isna (compare_p90_roc.ratio c) = true)
     /\ (Float64.finite (compare_p90_roc.c_flow_cfs c) = true ->
         (Float64.isna (compare_p90_roc.ratio c) = true <->
          Float64.isna p90 = true \/ PrimFloat.eqb p90 0 = true))
     /\ compare_p90_roc.high_flow c = PrimFloat.leb 1 (compare_p90_roc.ratio c)
     /\ (Float64.isna (compare_p90_roc.ratio c) = true ->
         compare_p90_roc.high_flow c = false)) /\
  (forall out r, process_gauge_data.script df_gauge df_hist = Some out ->
     In r out ->
     Float64.isna (process_gauge_data.p90_flow_cfs r) = true ->
     Float64.isna (process_gauge_data.ratio r) = true).
Proof.
  split.
  - intros c Hc. apply compare_to_historical_In in Hc.
    destruct Hc as [p [o [_ ->]]]. unfold compare_p90_roc.classify. simpl.
    set (p90 := match o with
                | Some h => fetch_historical.p90_flow_cfs h
                | None => Float64.NaN
                end).
    set (flow := compare_p90_roc.flow_cfs _).
    assert (Hnull : Float64.isna p90 = true \/ PrimFloat.eqb p90 0 = true ->
                    Float64.isna (if Float64.isna p90 || PrimFloat.eqb p90 0
                                  then Float64.NaN else (flow / p90)%float) = true).
    { intros [H|H]; rewrite H; [|rewrite orb_true_r]; reflexivity. }
    split; [exact Hnull|]. split; [|split; [reflexivity|apply leb_nan_r]].
    intros Hfin. split; [|exact Hnull].
    destruct (Float64.isna p90) eqn:E1; [now left|].
    destruct (PrimFloat.eqb p90 0) eqn:E2; [now right|]. simpl.
    rewrite (div_notna flow p90 Hfin E1 E2). discriminate.
  - intros out r H Hr. unfold process_gauge_data.script in H.
    destruct df_gauge as [|r0 rest]; [discriminate|].
    destruct (existsb _ _); try discriminate. injection H as <-.
    apply in_map_iff in Hr. destruct Hr as [m [<- _]].
    unfold process_gauge_data.add_ratio. simpl. apply div_by_nan.
Qed.

(* ================================================================== *)
(** * The orders the frames are sorted by *)
(* ================================================================== *)

Section OrderFacts.
Import Clock Frame.

Lemma string_leb_iff (a b : string) :
  String.leb a b = true <-> a = b \/ String_as_OT.lt a b.
Proof.
  unfold String.leb. destruct (String.compare a b) eqn:E.
  - apply String_as_OT.cmp_eq in E. tauto.
  - apply String_as_OT.cmp_lt in E. tauto.
  - split; [discriminate|]. intros [H|H].
    + apply String_as_OT.cmp_eq in H. unfold String_as_OT.cmp in H. congruence.
    + apply String_as_OT.cmp_lt in H. unfold String_as_OT.cmp in H. congruence.
Qed.

Lemma string_leb_trans (a b c : string) :
  String.leb a b = true -> String.leb b c = true -> String.leb a c = true.
Proof.
  rewrite !string_leb_iff. intros [->|H1] [->|H2]; auto.
  right. eapply String_as_OT.lt_trans; eauto.
Qed.

Lemma stamp_leb_total (a b : stamp) : stamp_leb a b = true \/ stamp_leb b a = true.
Proof.
  destruct a as [t| |], b as [u| |]; simpl; auto.
  destruct (Z.leb_spec t u); [now left|right]. apply Z.leb_le. lia.
Qed.

Lemma stamp_leb_trans (a b c : stamp) :
  stamp_leb a b = true -> stamp_leb b c = true -> stamp_leb a c = true.
Proof.
  destruct a as [t| |], b as [u| |], c as [w| |]; simpl; auto; try discriminate.
  rewrite !Z.leb_le. lia.
Qed.

Section Option.
Context {A : Type} (lebA : A -> A -> bool) (eqbA : A -> A -> bool).
Hypothesis eqbA_eq : forall a b, eqbA a b = true <-> a = b.
Hypothesis lebA_total : forall a b, lebA a b = true \/ lebA b a = true.
Hypothesis lebA_trans :
  forall a b c, lebA a b = true -> lebA b c = true -> lebA a c = true.
Hypothesis lebA_antisym : forall a b, lebA a b = true -> lebA b a = true -> a = b.

Lemma option_eqb_eq (x y : option A) : option_eqb eqbA x y = true <-> x = y.
Proof.
  destruct x, y; simpl; split; try discriminate; try reflexivity.
  - intros H. f_equal. now apply eqbA_eq.
  - intros [= ->]. now apply eqbA_eq.
Qed.

Lemma option_leb_total (x y : option A) :
  option_leb lebA x y = true \/ option_leb lebA y x = true.
Proof. destruct x, y; simpl; auto. Qed.

Lemma option_leb_trans (x y z : option A) :
  option_leb lebA x y = true -> option_leb lebA y z = true ->
  option_leb lebA x z = true.
Proof. destruct x, y, z; simpl; auto; try discriminate. apply lebA_trans. Qed.

Lemma option_leb_antisym (x y : option A) :
  option_leb lebA x y = true -> option_leb lebA y x = true -> x = y.
Proof.
  destruct x, y; simpl; auto; try discriminate.
  intros H1 H2. f_equal. now apply lebA_antisym.
Qed.
End Option.

Section Pair.
Context {A B : Type} (lebA eqbA : A -> A -> bool) (lebB : B -> B -> bool).
Hypothesis eqbA_eq : forall a b, eqbA a b = true <-> a = b.
Hypothesis lebA_total : forall a b, lebA a b = true \/ lebA b a = true.
Hypothesis lebA_trans :
  forall a b c, lebA a b = true -> lebA b c = true -> lebA a c = true.
Hypothesis lebA_antisym : forall a b, lebA a b = true -> lebA b a = true -> a = b.
Hypothesis lebB_total : forall a b, lebB a b = true \/ lebB b a = true.
Hypothesis lebB_trans :
  forall a b c, lebB a b = true -> lebB b c = true -> lebB a c = true.

Lemma eqbA_refl (a : A) : eqbA a a = true.
Proof. now apply eqbA_eq. Qed.

Lemma pair_leb_total (x y : A * B) :
  pair_leb lebA eqbA lebB x y = true \/ pair_leb lebA eqbA lebB y x = true.
Proof.
  unfold pair_leb. destruct (eqbA (fst x) (fst y)) eqn:E.
  - apply eqbA_eq in E. rewrite E, eqbA_refl. apply lebB_total.
  - destruct (eqbA (fst y) (fst x)) eqn:E'.
    + apply eqbA_eq in E'. rewrite E', eqbA_refl in E. discriminate.
    + apply lebA_total.
Qed.

Lemma pair_leb_trans (x y z : A * B) :
  pair_leb lebA eqbA lebB x y = true -> pair_leb lebA eqbA lebB y z = true ->
  pair_leb lebA eqbA lebB x z = true.
Proof.
  unfold pair_leb.
  destruct (eqbA (fst x) (fst y)) eqn:E1; destruct (eqbA (fst y) (fst z)) eqn:E2.
  - apply eqbA_eq in E1, E2. rewrite E1, E2, eqbA_refl. apply lebB_trans.
  - apply eqbA_eq in E1. rewrite E1, E2. auto.
  - apply eqbA_eq in E2. rewrite <- E2, E1. auto.
  - intros H1 H2. destruct (eqbA (fst x) (fst z)) eqn:E3.
    + apply eqbA_eq in E3. rewrite <- E3 in H2.
      pose proof (lebA_antisym _ _ H1 H2) as H. apply eqbA_eq in H. congruence.
    + eapply lebA_trans; eauto.
Qed.
End Pair.

End OrderFacts.

(* ================================================================== *)
(** * compare_p90_roc.py: the bulk rate of change *)
(* ================================================================== *)

Section BulkRoc.
Import Clock Frame compare_p90_roc Float64.

(** The three columns are the three windows of [WINDOWS]. *)
Lemma WINDOWS_rows : map snd WINDOWS = [12; 36; 72]%nat.
Proof. reflexivity. Qed.

(** Anything divided by a null is a null, and stays one when scaled. *)
Lemma pct_of_null (a : float) : ((a - NaN) / NaN * 100)%float = NaN.
Proof.
  apply Prim2SF_inj.
  rewrite FloatAxioms.mul_spec, FloatAxioms.div_spec.
  change (Prim2SF NaN) with S754_nan.
  unfold SF64div, SF64mul.
  destruct (Prim2SF (a - NaN)); reflexivity.
Qed.

Lemma shift_length (w : nat) (x : list float) :
  List.length (shift w x) = List.length x.
Proof.
  unfold shift. rewrite length_firstn, length_app, repeat_length. lia.
Qed.

Lemma shift_nth (w : nat) (x : list float) (t : nat) :
  (t < List.length x)%nat ->
  nth t (shift w x) NaN = if (t <? w)%nat then NaN else nth (t - w) x NaN.
Proof.
  intros H. unfold shift. rewrite nth_firstn.
  destruct (Nat.ltb_spec t (List.length x)); [|lia].
  destruct (Nat.ltb_spec t w).
  - rewrite app_nth1 by (rewrite repeat_length; lia). apply nth_repeat.
  - rewrite app_nth2 by (rewrite repeat_length; lia).
    now rewrite repeat_length.
Qed.

Lemma pct_change_length (w : nat) (x : list float) :
  List.length (pct_change w x) = List.length x.
Proof.
  unfold pct_change. rewrite length_map, length_combine, shift_length. lia.
Qed.

(** The lambda of line 49 is the formula of the specification, position
    by position. *)
Lemma pct_change_nth (w : nat) (x : list float) (t : nat) :
  (t < List.length x)%nat ->
  nth t (pct_change w x) NaN = offset_formula w x t.
Proof.
  intros H. unfold pct_change, offset_formula.
  set (f := fun p : float * float => ((fst p - snd p) / snd p * 100)%float).
  change NaN with (f (NaN, NaN)) at 1.
  rewrite map_nth, combine_nth by (now rewrite shift_length).
  rewrite shift_nth by exact H. unfold f. simpl.
  destruct (t <? w)%nat; [apply pct_of_null | reflexivity].
Qed.

Lemma add_roc_row (df before rest : list reading) :
  map row (add_roc df before rest) = rest.
Proof.
  revert before. induction rest as [|r rest IH]; intros before; simpl; [reflexivity|].
  now rewrite IH.
Qed.

Lemma filter_map_row (s : string) (l : list with_roc) :
  map row (filter (in_site s) l) = filter (of_site s) (map row l).
Proof.
  induction l as [|r l IH]; simpl; [reflexivity|].
  unfold in_site at 1. destruct (of_site s (row r)); simpl; now rewrite IH.
Qed.

Lemma of_site_true (s : string) (r : reading) :
  of_site s r = true <-> site_no r = Some s.
Proof. apply has_key_true, String.eqb_eq. Qed.

(** Every row gets the value its site's series has at the position the
    row holds in that series. *)
Lemma add_roc_nth (df : list reading) (s : string) :
  forall rest before t r,
    nth_error (filter (in_site s) (add_roc df before rest)) t = Some r ->
    let pos := (List.length (filter (of_site s) before) + t)%nat in
    pct_change_1h r = nth pos (pct_change 12 (site_flows df s)) NaN
    /\ pct_change_3h r = nth pos (pct_change 36 (site_flows df s)) NaN
    /\ pct_change_6h r = nth pos (pct_change 72 (site_flows df s)) NaN.
Proof.
  induction rest as [|r0 rest IH]; intros before t r H; simpl in H.
  - destruct t; discriminate.
  - unfold in_site at 1 in H. simpl in H.
    destruct (of_site s r0) eqn:E.
    + destruct t as [|t]; simpl in H.
      * injection H as <-. simpl. unfold transform_at.
        apply of_site_true in E. rewrite E, Nat.add_0_r. auto.
      * apply IH in H. rewrite filter_app, length_app in H. simpl in H.
        rewrite E in H. simpl in H.
        replace (List.length (filter (of_site s) before) + S t)%nat
          with (List.length (filter (of_site s) before) + 1 + t)%nat by lia.
        exact H.
    + apply IH in H. rewrite filter_app, length_app in H. simpl in H.
      rewrite E in H. simpl in H. rewrite Nat.add_0_r in H. exact H.
Qed.

Lemma row_leb_total (a b : reading) : row_leb a b = true \/ row_leb b a = true.
Proof.
  apply pair_leb_total.
  - apply option_eqb_eq, String.eqb_eq.
  - apply option_leb_total, String.leb_total.
  - apply stamp_leb_total.
Qed.

Lemma row_leb_trans (a b c : reading) :
  row_leb a b = true -> row_leb b c = true -> row_leb a c = true.
Proof.
  apply pair_leb_trans.
  - apply option_eqb_eq, String.eqb_eq.
  - apply option_leb_trans, string_leb_trans.
  - apply option_leb_antisym, String.leb_antisym.
  - apply stamp_leb_trans.
Qed.

(** Within one site the order of the frame is the order of the
    timestamps. *)
Lemma row_leb_same_site (s : string) (a b : reading) :
  site_no a = Some s -> site_no b = Some s ->
  row_leb a b = stamp_leb (timestamp_utc a) (timestamp_utc b).
Proof.
  intros Ha Hb. unfold row_leb, pair_leb. simpl. rewrite Ha, Hb. simpl.
  now rewrite String.eqb_refl.
Qed.

Lemma StronglySorted_filter {A : Type} (R : A -> A -> Prop) (f : A -> bool)
      (l : list A) :
  StronglySorted R l -> StronglySorted R (filter f l).
Proof.
  induction 1 as [|x l Hl IH Hx]; simpl; [constructor|].
  destruct (f x); [|exact IH]. constructor; [exact IH|].
  apply Forall_forall. intros y Hy. apply filter_In in Hy.
  rewrite Forall_forall in Hx. now apply Hx.
Qed.

Lemma site_rows_by_time (s : string) (l : list reading) :
  StronglySorted (fun a b => row_leb a b = true) l ->
  Forall (fun r => site_no r = Some s) l ->
  StronglySorted (fun a b => stamp_leb a b = true) (map timestamp_utc l).
Proof.
  induction 1 as [|x l Hl IH Hx]; intros Hs; simpl; constructor.
  - apply IH. now inversion Hs.
  - inversion Hs as [|? ? Hsx Hsl]; subst.
    apply Forall_forall. intros c Hc. apply in_map_iff in Hc.
    destruct Hc as [y [<- Hy]].
    rewrite Forall_forall in Hx, Hsl.
    rewrite <- (row_leb_same_site s x y Hsx (Hsl y Hy)). now apply Hx.
Qed.

End BulkRoc.

(** C4. In the frame [compute_rate_of_change] returns, the rows of a site
    are its readings in ascending order of timestamp, and the three
    rate-of-change columns of the row at position [t] of that sequence are
    the formula [(v[t] - v[t-w]) / v[t-w] * 100] on the flows [v] of the
    sequence, with [w] = 12, 36 and 72 positions: the lookback counts rows,
    whatever the time between them. *)
Theorem bulk_roc_is_index_offset
        (df : list compare_p90_roc.reading) (out : list compare_p90_roc.with_roc)
        (s : string) :
  compare_p90_roc.compute_rate_of_change df = Some out ->
  let g := filter (compare_p90_roc.in_site s) out in
  let v := map (fun r => compare_p90_roc.flow_cfs (compare_p90_roc.row r)) g in
  Permutation (map compare_p90_roc.row g) (filter (compare_p90_roc.of_site s) df)
  /\ StronglySorted (fun a b => Clock.stamp_leb a b = true)
                    (map (fun r => compare_p90_roc.timestamp_utc (compare_p90_roc.row r)) g)
  /\ forall t r, nth_error g t = Some r ->
       compare_p90_roc.pct_change_1h r = compare_p90_roc.offset_formula 12 v t
       /\ compare_p90_roc.pct_change_3h r = compare_p90_roc.offset_formula 36 v t
       /\ compare_p90_roc.pct_change_6h r = compare_p90_roc.offset_formula 72 v t.
Proof.
  unfold compare_p90_roc.compute_rate_of_change.
  destruct (existsb _ df); [discriminate|]. intros H. injection H as <-.
  set (sorted := Frame.sort compare_p90_roc.row_leb df).
  set (g := filter (compare_p90_roc.in_site s) _).
  set (v := map (fun r => compare_p90_roc.flow_cfs (compare_p90_roc.row r)) g).
  assert (Hrow : map compare_p90_roc.row g
                 = filter (compare_p90_roc.of_site s) sorted).
  { unfold g. now rewrite filter_map_row, add_roc_row. }
  assert (Hv : v = compare_p90_roc.site_flows sorted s).
  { unfold v, compare_p90_roc.site_flows. rewrite <- Hrow. now rewrite map_map. }
  split; [|split].
  - rewrite Hrow. unfold sorted.
    clear. induction (sort_perm compare_p90_roc.row_leb df);
      simpl; auto.
    + destruct (compare_p90_roc.of_site s x); auto.
    + destruct (compare_p90_roc.of_site s x), (compare_p90_roc.of_site s y);
        auto. apply perm_swap.
    + etransitivity; eauto.
  - rewrite <- (map_map compare_p90_roc.row compare_p90_roc.timestamp_utc), Hrow.
    apply site_rows_by_time with s.
    + apply StronglySorted_filter.
      apply (sort_sorted compare_p90_roc.row_leb row_leb_total row_leb_trans).
    + apply Forall_forall. intros r Hr. apply filter_In in Hr.
      now apply of_site_true.
  - intros t r Hr.
    assert (Ht : (t < List.length v)%nat).
    { unfold v. rewrite length_map. apply nth_error_Some. congruence. }
    apply add_roc_nth in Hr. simpl in Hr. fold sorted in Hr. rewrite <- Hv in Hr.
    rewrite !pct_change_nth in Hr by exact Ht. exact Hr.
Qed.

(** The witness of C4: a frame of two sites whose rows are out of order. *)
Lemma bulk_roc_is_index_offset_witness :
  exists out,
    compare_p90_roc.compute_rate_of_change Examples.two_sites = Some out
    /\ (let g := filter (compare_p90_roc.in_site "02035000") out in
        let v := map (fun r => compare_p90_roc.flow_cfs (compare_p90_roc.row r)) g in
        Permutation (map compare_p90_roc.row g)
                    (filter (compare_p90_roc.of_site "02035000") Examples.two_sites)
        /\ StronglySorted (fun a b => Clock.stamp_leb a b = true)
             (map (fun r => compare_p90_roc.timestamp_utc (compare_p90_roc.row r)) g)
        /\ forall t r, nth_error g t = Some r ->
             compare_p90_roc.pct_change_1h r = compare_p90_roc.offset_formula 12 v t
             /\ compare_p90_roc.pct_change_3h r = compare_p90_roc.offset_formula 36 v t
             /\ compare_p90_roc.pct_change_6h r = compare_p90_roc.offset_formula 72 v t).
Proof.
  eexists. split; [vm_compute; reflexivity|].
  apply (bulk_roc_is_index_offset Examples.two_sites _ "02035000").
  vm_compute. reflexivity.
Defined.

(** The bulk example of the specification: the series 10, 12, 15, 20 with a
    lookback of one row; and the one-hour column of the two-site frame. *)
Example bulk_roc_values :
  nth 3 (compare_p90_roc.pct_change 1 [10; 12; 15; 20]%float) Float64.NaN
  = ((20 - 15) / 15 * 100)%float
  /\ compare_p90_roc.pct_change 1 [10; 12; 15; 20]%float
     = [nan; 20; 25; 33.333333333333329]%float
  /\ option_map (fun out => map compare_p90_roc.pct_change_1h
                                (filter (compare_p90_roc.in_site "02035000") out))
                (compare_p90_roc.compute_rate_of_change Examples.two_sites)
     = Some (repeat nan 12 ++ [120; 109.09090909090908])%float.
Proof. vm_compute. repeat split. Qed.

(** C3. The failing input. A site whose flow was zero twelve readings ago
    and is five now gets an infinite one-hour rate of change: the division
    of line 49 is not guarded, so a zero predecessor gives the quotient
    binary64 defines, an infinity, and not a null. *)
Theorem bulk_roc_zero_predecessor :
  option_map (map compare_p90_roc.pct_change_1h)
             (compare_p90_roc.compute_rate_of_change Examples.dry_start)
  = Some (repeat Float64.NaN 12 ++ [infinity])
  /\ compare_p90_roc.offset_formula 12
       (map compare_p90_roc.flow_cfs Examples.dry_start) 12 = infinity
  /\ nth 0 (map compare_p90_roc.flow_cfs Examples.dry_start) Float64.NaN = 0%float
  /\ Float64.isna infinity = false.
Proof. vm_compute. repeat split. Qed.

(** The join key of the classifier is the day of the year of the UTC
    instant, whatever the zone of the gauge. *)
Lemma day_of_year_is_utc (r : compare_p90_roc.with_roc) (t : Z) :
  compare_p90_roc.timestamp_utc (compare_p90_roc.row r) = Clock.At t ->
  compare_p90_roc.day_of_year (compare_p90_roc.add_day_of_year r)
  = Some (Clock.dayofyear t).
Proof.
  intros H. unfold compare_p90_roc.add_day_of_year. simpl. now rewrite H.
Qed.

(** C1. The failing input. A reading taken at nine in the evening of the
    first of January, Virginia time, is keyed by [prepare_current_data] to
    day 2, the UTC date, while [compute_p90_by_day] files a sample of the
    same instant under day 1, the US/Eastern date. The reading is compared
    with the threshold of day 2, and a flow above the threshold of its own
    day is not flagged. *)
Theorem classifier_day_of_year_is_not_local :
  map compare_p90_roc.day_of_year
      (compare_p90_roc.prepare_current_data [Examples.evening_reading]) = [Some 2]
  /\ fetch_historical.day_of_year Examples.evening_sample = Some 1
  /\ map (fun c => (compare_p90_roc.c_p90_flow_cfs c, compare_p90_roc.high_flow c))
         (compare_p90_roc.compare_to_historical
            (compare_p90_roc.prepare_current_data [Examples.evening_reading])
            Examples.new_year_baseline)
     = [(200%float, false)]
  /\ PrimFloat.leb 1 (120 / 100) = true.
Proof. vm_compute. repeat split. Qed.

(** The counterexample to C2 as stated. In [process_gauge_data.py] a P90 of
    zero gives an infinite ratio, not a null one; and in
    [compare_to_historical] an infinite flow over an infinite P90 gives a
    null ratio although the P90 is neither null nor zero. *)
Lemma ratio_nullity_counterexample :
  (exists r,
      process_gauge_data.script Examples.one_gauge Examples.zero_baseline = Some [r]
      /\ PrimFloat.eqb (process_gauge_data.p90_flow_cfs r) 0 = true
      /\ process_gauge_data.ratio r = infinity
      /\ Float64.isna (process_gauge_data.ratio r) = false)
  /\ (exists c,
         compare_p90_roc.compare_to_historical [Examples.infinite_reading]
                                               Examples.infinite_baseline = [c]
         /\ Float64.isna (compare_p90_roc.ratio c) = true
         /\ Float64.isna (compare_p90_roc.c_p90_flow_cfs c) = false
         /\ PrimFloat.eqb (compare_p90_roc.c_p90_flow_cfs c) 0 = false).
Proof.
  split; eexists; (split; [vm_compute; reflexivity|]); vm_compute; repeat split.
Qed.

(** The high-flow boundary of the specification. *)
Example high_flow_boundary :
  map (fun flow =>
         compare_p90_roc.high_flow
           (compare_p90_roc.classify
              ({| compare_p90_roc.base :=
                    {| compare_p90_roc.row := Examples.current "02035000" Examples.evening flow;
                       compare_p90_roc.pct_change_1h := Float64.NaN;
                       compare_p90_roc.pct_change_3h := Float64.NaN;
                       compare_p90_roc.pct_change_6h := Float64.NaN |};
                  compare_p90_roc.day_of_year := Some 2 |},
               Some (Examples.p90_row "02035000" 2 100))))
      [100; 99.999; 250]%float
  = [true; false; true].
Proof. vm_compute. reflexivity. Qed.

(* ================================================================== *)
(** * process_gauge_data.py: the nearest reading three hours back *)
(* ================================================================== *)

Section NearestNeighbour.
Import Clock Frame fetch_data process_gauge_data.

Lemma argmin_from_spec (l : list Z) :
  forall pre best besti,
    (besti < List.length pre)%nat ->
    nth besti (pre ++ l) 0 = best ->
    (forall x, In x pre -> best <= x) ->
    let k := argmin_from best besti (List.length pre) l in
    (k < List.length (pre ++ l))%nat
    /\ forall x, In x (pre ++ l) -> nth k (pre ++ l) 0 <= x.
Proof.
  induction l as [|d r IH]; intros pre best besti Hi Hb Hpre; simpl.
  - rewrite app_nil_r in *. split; [exact Hi|]. intros x Hx. rewrite Hb. auto.
  - destruct (Z.ltb_spec d best) as [Hd|Hd].
    + specialize (IH (pre ++ [d]) d (List.length pre)).
      rewrite <- app_assoc, length_app in IH. simpl in IH.
      rewrite Nat.add_1_r in IH. apply IH.
      * lia.
      * rewrite app_nth2, Nat.sub_diag by lia. reflexivity.
      * intros x Hx. apply in_app_or in Hx.
        destruct Hx as [Hx|[<-|[]]]; [specialize (Hpre x Hx)|]; lia.
    + specialize (IH (pre ++ [d]) best besti).
      rewrite <- app_assoc, length_app in IH. simpl in IH.
      rewrite Nat.add_1_r in IH. apply IH.
      * lia.
      * exact Hb.
      * intros x Hx. apply in_app_or in Hx.
        destruct Hx as [Hx|[<-|[]]]; [now apply Hpre | lia].
Qed.

(** [argmin] points at a least element. *)
Lemma argmin_spec (l : list Z) :
  l <> [] ->
  (argmin l < List.length l)%nat
  /\ forall x, In x l -> nth (argmin l) l 0 <= x.
Proof.
  destruct l as [|d r]; [congruence|]. intros _.
  apply (argmin_from_spec r [d] d 0%nat); simpl; auto.
  intros x [<-|[]]. lia.
Qed.

Lemma mask_true (target : Z) (r : reading) :
  mask (Some target) r = true <->
  exists u, timestamp_utc r = At u /\ Z.abs (u - target) <= minutes 30.
Proof.
  unfold mask, time_diff.
  destruct (timestamp_utc r) as [u| |]; simpl; split;
    try discriminate; try (intros [u' [H _]]; discriminate).
  - intros H. exists u. split; [reflexivity | now apply Z.leb_le].
  - intros [u' [[= <-] H]]. now apply Z.leb_le.
Qed.

Lemma distance_at (target u : Z) (r : reading) :
  timestamp_utc r = At u -> distance (Some target) r = Z.abs (u - target).
Proof. intros H. unfold distance, time_diff. now rewrite H. Qed.

(** The values come one per site, in the order of the sites. *)
Lemma compute_pct_change_3h_per_site (df : list reading) :
  compute_pct_change_3h df
  = map (fun s => pct_change_site
                    (filter (has_key (fun r => Some (site_no r)) String.eqb s) df))
        (group_keys (fun r => Some (site_no r)) String.eqb String.leb df).
Proof.
  unfold compute_pct_change_3h, by_site, groupby. now rewrite map_map.
Qed.

Lemma gauge_leb_total (a b : reading) : gauge_leb a b = true \/ gauge_leb b a = true.
Proof.
  apply pair_leb_total.
  - apply String.eqb_eq.
  - apply String.leb_total.
  - apply stamp_leb_total.
Qed.

Lemma gauge_leb_trans (a b c : reading) :
  gauge_leb a b = true -> gauge_leb b c = true -> gauge_leb a c = true.
Proof.
  apply pair_leb_trans.
  - apply String.eqb_eq.
  - apply string_leb_trans.
  - apply String.leb_antisym.
  - apply stamp_leb_trans.
Qed.

Lemma stamp_leb_refl (a : stamp) : stamp_leb a a = true.
Proof. destruct a; simpl; auto. apply Z.leb_refl. Qed.

(** In a group that is in timestamp order the last row is the latest
    reading. *)
Lemma last_row_is_latest (group : list reading) (latest : reading) :
  StronglySorted (fun a b => stamp_leb (timestamp_utc a) (timestamp_utc b) = true) group ->
  last_row group = Some latest ->
  Forall (fun r => stamp_leb (timestamp_utc r) (timestamp_utc latest) = true) group.
Proof.
  induction 1 as [|x rest Hs IH Hx]; intros Hl; [constructor|].
  destruct rest as [|y rest'].
  - injection Hl as <-. constructor; [apply stamp_leb_refl | constructor].
  - change (last_row (y :: rest') = Some latest) in Hl.
    specialize (IH Hl). constructor; [|exact IH].
    rewrite Forall_forall in Hx, IH.
    assert (Hin : In latest (y :: rest')).
    { clear -Hl. revert Hl. generalize (y :: rest'). intros l.
      induction l as [|a l IHl]; simpl; [discriminate|].
      destruct l as [|b l']; [intros [= <-]; now left|].
      intros H. right. now apply IHl. }
    now apply Hx.
Qed.

(** The groups the script hands to the loop are in timestamp order,
    thanks to the sort of line 24. *)
Lemma by_site_in_time_order (df : list reading) (s : string) (group : list reading) :
  In (s, group) (by_site (sort gauge_leb df)) ->
  StronglySorted (fun a b => stamp_leb (timestamp_utc a) (timestamp_utc b) = true) group.
Proof.
  intros H. apply groupby_In in H. destruct H as [_ ->].
  pose proof (sort_sorted gauge_leb gauge_leb_total gauge_leb_trans df) as Hs.
  induction Hs as [|x l Hl IH Hx]; simpl; [constructor|].
  destruct (has_key _ String.eqb s x) eqn:E; [|exact IH].
  constructor; [exact IH|]. apply Forall_forall. intros y Hy.
  apply filter_In in Hy. destruct Hy as [Hy Ey].
  apply (has_key_true _ _ String.eqb_eq) in E, Ey.
  injection E as E. injection Ey as Ey.
  rewrite Forall_forall in Hx. specialize (Hx y Hy).
  unfold gauge_leb, pair_leb in Hx. simpl in Hx.
  rewrite E, Ey, String.eqb_refl in Hx. exact Hx.
Qed.

End NearestNeighbour.

(** C5. For the readings of one site, whose last row is the latest reading
    at instant [t]: with the target [t] minus three hours, when no reading
    lies within thirty minutes of the target the result is null; otherwise
    a reading within the thirty minutes and closest to the target is
    selected, and the result is null when its flow is zero and
    [(latest - candidate) / candidate * 100] when it is not. *)
Theorem nearest_reading_within_tolerance
        (group : list fetch_data.reading) (latest : fetch_data.reading) (t : Z) :
  process_gauge_data.last_row group = Some latest ->
  fetch_data.timestamp_utc latest = Clock.At t ->
  let target := t - Clock.hours 3 in
  let near r := exists u, fetch_data.timestamp_utc r = Clock.At u
                          /\ Z.abs (u - target) <= Clock.minutes 30 in
  ((forall r, In r group -> ~ near r) ->
   process_gauge_data.pct_change_site group = Float64.NaN)
  /\ ((exists r, In r group /\ near r) ->
      exists c u,
        In c group
        /\ fetch_data.timestamp_utc c = Clock.At u
        /\ Z.abs (u - target) <= Clock.minutes 30
        /\ (forall r v, In r group -> fetch_data.timestamp_utc r = Clock.At v ->
                        Z.abs (v - target) <= Clock.minutes 30 ->
                        Z.abs (u - target) <= Z.abs (v - target))
        /\ process_gauge_data.pct_change_site group
           = if PrimFloat.eqb (fetch_data.flow_cfs c) 0 then Float64.NaN
             else ((fetch_data.flow_cfs latest - fetch_data.flow_cfs c)
                   / fetch_data.flow_cfs c * 100)%float).
Proof.
  intros Hlast Ht target near.
  unfold process_gauge_data.pct_change_site. rewrite Hlast, Ht.
  cbn [Clock.to_datetime_coerce]. fold target.
  set (m := process_gauge_data.mask (Some target)).
  split.
  - intros Hnone.
    replace (existsb m group) with false; [reflexivity|].
    symmetry. apply not_true_is_false. intros H. apply existsb_exists in H.
    destruct H as [r [Hr Hm]]. apply mask_true in Hm. now apply (Hnone r).
  - intros [r0 [Hr0 Hn0]].
    assert (He : existsb m group = true).
    { apply existsb_exists. exists r0. split; [exact Hr0 | now apply mask_true]. }
    rewrite He.
    set (cands := filter m group).
    set (ds := map (process_gauge_data.distance (Some target)) cands).
    assert (Hne : ds <> []).
    { unfold ds, cands. intros H. apply map_eq_nil in H.
      assert (Hin : In r0 (filter m group))
        by (apply filter_In; split; [exact Hr0 | now apply mask_true]).
      rewrite H in Hin. contradiction. }
    destruct (argmin_spec ds Hne) as [Hk Hmin].
    set (k := Frame.argmin ds) in *.
    assert (Hk' : (k < List.length cands)%nat)
      by (unfold ds in Hk; now rewrite length_map in Hk).
    set (c := nth k cands r0).
    assert (Hc : In c cands) by (apply nth_In; exact Hk').
    apply filter_In in Hc. destruct Hc as [Hcg Hcm].
    apply mask_true in Hcm. destruct Hcm as [u [Hu Hdu]].
    exists c, u. repeat split; auto.
    + intros r v Hr Hv Hdv.
      rewrite <- (distance_at target u c Hu), <- (distance_at target v r Hv).
      replace (process_gauge_data.distance (Some target) c) with (nth k ds 0).
      * apply Hmin. unfold ds. apply in_map. apply filter_In. split; [exact Hr|].
        apply mask_true. eauto.
      * unfold ds, c.
        rewrite (nth_indep _ 0 (process_gauge_data.distance (Some target) r0))
          by (now rewrite length_map).
        apply map_nth.
    + replace (nth k (map fetch_data.flow_cfs cands) Float64.NaN)
        with (fetch_data.flow_cfs c).
      * now destruct (PrimFloat.eqb (fetch_data.flow_cfs c) 0).
      * unfold c.
        rewrite (nth_indep _ Float64.NaN (fetch_data.flow_cfs r0))
          by (now rewrite length_map).
        symmetry. apply map_nth.
Qed.

(** The witness of C5, on the example of the specification: the latest
    reading at 12:00 with a flow of 50, a reading at 09:10 with a flow of
    40. *)
Lemma nearest_reading_within_tolerance_witness :
  process_gauge_data.pct_change_site Examples.noon_group = 25%float
  /\ process_gauge_data.pct_change_site Examples.gap_group = Float64.NaN
  /\ ((forall r, In r Examples.gap_group ->
         ~ exists u, fetch_data.timestamp_utc r = Clock.At u
                     /\ Z.abs (u - (Clock.utc 2024 1 2 12 0 - Clock.hours 3))
                        <= Clock.minutes 30) ->
      process_gauge_data.pct_change_site Examples.gap_group = Float64.NaN).
Proof.
  split; [vm_compute; reflexivity|]. split; [vm_compute; reflexivity|].
  apply (nearest_reading_within_tolerance
           Examples.gap_group
           (Examples.gauge "01613900" (Clock.At (Clock.utc 2024 1 2 12 0)) 50)
           (Clock.utc 2024 1 2 12 0)); reflexivity.
Defined.

(* ================================================================== *)
(** * fetch_historical.py: the baseline is dense *)
(* ================================================================== *)

Section Fills.
Import Frame Float64.

Lemma bfill_length (l : list float) : List.length (bfill l) = List.length l.
Proof. induction l as [|x r IH]; simpl; congruence. Qed.

Lemma ffill_from_length (l : list float) :
  forall prev, List.length (ffill_from prev l) = List.length l.
Proof. induction l as [|x r IH]; intros prev; simpl; [|rewrite IH]; reflexivity. Qed.

Lemma interpolate_from_length (l : list float) :
  forall prev i, List.length (interpolate_from prev i l) = List.length l.
Proof.
  induction l as [|x r IH]; intros prev i; simpl; [reflexivity|].
  destruct (isna x); simpl; now rewrite IH.
Qed.





End Fills.

Section ListFacts.
Context {A B : Type}.

Lemma filter_all (f : A -> bool) (l : list A) :
  (forall x, In x l -> f x = true) -> filter f l = l.
Proof.
  induction l as [|x r IH]; simpl; intros H; [reflexivity|].
  rewrite (H x (or_introl eq_refl)), IH; auto.
Qed.

Lemma filter_none (f : A -> bool) (l : list A) :
  (forall x, In x l -> f x = false) -> filter f l = [].
Proof.
  induction l as [|x r IH]; simpl; intros H; [reflexivity|].
  rewrite (H x (or_introl eq_refl)), IH; auto.
Qed.

(** Dropping rows keeps a column free of repetitions. *)
Lemma filter_keeps_NoDup (keep : A -> bool) (col : A -> B) (rows : list A) :
  NoDup (map col rows) -> NoDup (map col (filter keep rows)).
Proof.
  induction rows as [|x r IH]; simpl; intros H; [constructor|].
  inversion H as [|? ? Hx Hr]; subst.
  destruct (keep x); simpl; [constructor|]; auto.
  intros Hin. apply Hx. apply in_map_iff in Hin. destruct Hin as [y [Hy Hin]].
  apply filter_In in Hin. apply in_map_iff. exists y. tauto.
Qed.

(** A key that occurs once matches at most one row. *)
Lemma NoDup_at_most_one (f : A -> B) (test : A -> bool) (b : B) (l : list A) :
  (forall x, test x = true -> f x = b) ->
  NoDup (map f l) -> (List.length (filter test l) <= 1)%nat.
Proof.
  intros Ht. induction l as [|x r IH]; simpl; intros H; [lia|].
  inversion H as [|? ? Hx Hr]; subst. specialize (IH Hr).
  destruct (test x) eqn:E; [|exact IH]. simpl.
  rewrite (filter_none test r); [simpl; lia|].
  intros y Hy. destruct (test y) eqn:Ey; [|reflexivity].
  exfalso. apply Hx. apply in_map_iff. exists y. split; [|exact Hy].
  rewrite (Ht x E), (Ht y Ey). reflexivity.
Qed.

Lemma combine_fst (a : list A) (b : list B) :
  List.length a = List.length b -> map fst (combine a b) = a.
Proof.
  revert b. induction a as [|x a IH]; intros [|y b] H; simpl in *;
    try reflexivity; try discriminate.
  f_equal. apply IH. lia.
Qed.

End ListFacts.

Section Blocks.
Context {K G Row : Type} (eqb : K -> K -> bool).
Hypothesis eqb_eq : forall a b, eqb a b = true <-> a = b.
Variable keyof : Row -> K.
Variable block : K * G -> list Row.
Hypothesis block_key : forall g r, In r (block g) -> keyof r = fst g.


End Blocks.

Section Baseline.
Import Clock Frame fetch_historical Float64.

Lemma pair_eqb_eq {A B : Type} (eqbA : A -> A -> bool) (eqbB : B -> B -> bool) :
  (forall a b, eqbA a b = true <-> a = b) ->
  (forall a b, eqbB a b = true <-> a = b) ->
  forall x y, pair_eqb eqbA eqbB x y = true <-> x = y.
Proof.
  intros HA HB [a b] [a' b']. unfold pair_eqb. simpl.
  rewrite andb_true_iff, HA, HB. split; [intros [-> ->] | intros [= -> ->]]; auto.
Qed.

Lemma key2_eqb_eq (x y : key2) : key2_eqb x y = true <-> x = y.
Proof. apply pair_eqb_eq; [apply String.eqb_eq | apply String.eqb_eq]. Qed.

Lemma key3_eqb_eq (x y : key3) : key3_eqb x y = true <-> x = y.
Proof. apply pair_eqb_eq; [apply key2_eqb_eq | apply Z.eqb_eq]. Qed.

Lemma isin_In (s : string) (l : list string) : isin s l = true <-> In s l.
Proof.
  unfold isin. rewrite existsb_exists. split.
  - intros [x [H E]]. apply String.eqb_eq in E. now subst.
  - intros H. exists s. split; [exact H | apply String.eqb_refl].
Qed.

Lemma row_key_quantile_row (g : key3 * list sample) :
  row_key (quantile_row g) = fst g.
Proof. unfold quantile_row. destruct (fst g) as [[s n] d]. reflexivity. Qed.

(** The frame of quantiles has one row per (site, name, day). *)
Lemma grouped_keys (df : list sample) :
  map row_key (grouped df) = group_keys sample_key key3_eqb key3_leb df.
Proof.
  unfold grouped. rewrite map_map.
  rewrite (map_ext _ fst) by apply row_key_quantile_row.
  apply groupby_fst.
Qed.

Lemma site_days_NoDup (k : key2) (df : list sample) :
  NoDup (map b_day_of_year (filter (has_key site_key key2_eqb k) (grouped df))).
Proof.
  apply (NoDup_map_inv (fun d => (k, d))). rewrite map_map.
  rewrite (map_ext_in _ row_key).
  - apply filter_keeps_NoDup. rewrite grouped_keys.
    apply group_keys_NoDup, key3_eqb_eq.
  - intros r Hr. apply filter_In in Hr. destruct Hr as [_ Hr].
    apply (has_key_true _ _ key2_eqb_eq) in Hr. injection Hr as Hr.
    unfold row_key. now rewrite Hr.
Qed.

Lemma fill_site_days (site_df : list baseline) :
  NoDup (map b_day_of_year site_df) ->
  map fst (fill_site site_df) = full_idx.
Proof.
  intros Hnd. unfold fill_site.
  set (merged := merge_left _ full_idx site_df).
  assert (Hm : map fst merged = full_idx).
  { apply merge_left_fst. intros d _.
    apply (NoDup_at_most_one b_day_of_year _ d); [|exact Hnd].
    intros r H. apply Z.eqb_eq in H. now symmetry. }
  rewrite combine_fst; [exact Hm|].
  rewrite !length_map.
  destruct (forallb isna _); [rewrite length_map|];
    unfold ffill, interpolate;
    now rewrite ffill_from_length, bfill_length, interpolate_from_length, length_map.
Qed.


Lemma site_rows_key (g : key2 * list baseline) (r : baseline) :
  In r (site_rows g) -> site_of r = fst g.
Proof.
  unfold site_rows. rewrite in_map_iff. intros [dv [<- _]].
  unfold site_of. simpl. now destruct (fst g).
Qed.

Lemma site_rows_days (g : key2 * list baseline) :
  map b_day_of_year (site_rows g) = map fst (fill_site (snd g)).
Proof. unfold site_rows. now rewrite map_map. Qed.


(** The frame returned is made of one block per (site, name) group of the
    quantile frame. *)
Lemma compute_p90_by_day_In (r : baseline) (df : list sample) :
  In r (compute_p90_by_day df) <->
  exists g, In g (groupby site_key key2_eqb key2_leb
                          (grouped (filter (fun x => isin (site_no x) (valid_sites df)) df)))
            /\ In r (site_rows g).
Proof. unfold compute_p90_by_day. apply in_flat_map. Qed.

End Baseline.
Section Retention.
Import Clock Frame fetch_historical Float64.

Lemma valid_sites_In (s : string) (df : list sample) :
  In s (valid_sites df) <->
  exists r, In r df /\ site_no r = s /\ isna (flow_cfs r) = false.
Proof.
  unfold valid_sites. rewrite filter_In.
  rewrite (group_keys_In _ _ _ String.eqb_eq). split.
  - intros [_ H]. apply Nat.ltb_lt in H. unfold site_count in H.
    destruct (filter _ df) as [|r rest] eqn:E; [simpl in H; lia|].
    assert (Hr : In r (filter
                         (fun r => String.eqb (site_no r) s && notna (flow_cfs r)) df))
      by (rewrite E; now left).
    apply filter_In in Hr. destruct Hr as [Hr Hc].
    apply andb_true_iff in Hc. destruct Hc as [H1 H2].
    apply String.eqb_eq in H1. unfold notna in H2. apply negb_true_iff in H2. eauto.
  - intros [r [Hr [Hs Hf]]]. split.
    + exists r. split; [exact Hr | now rewrite Hs].
    + apply Nat.ltb_lt. unfold site_count.
      assert (Hin : In r (filter
                            (fun r => String.eqb (site_no r) s && notna (flow_cfs r)) df)).
      { apply filter_In. split; [exact Hr|]. unfold notna.
        rewrite Hf. simpl. rewrite andb_true_r. now apply String.eqb_eq. }
      destruct (filter _ df); [contradiction | simpl; lia].
Qed.

Lemma sample_key_Some (r : sample) (s n : string) (d : Z) :
  sample_key r = Some (s, n, d) <->
  site_no r = s /\ site_name r = n /\ day_of_year r = Some d.
Proof.
  unfold sample_key. destruct (day_of_year r) as [d'|]; split.
  - intros [= <- <- <-]. auto.
  - intros [-> [-> [= ->]]]. reflexivity.
  - discriminate.
  - intros [_ [_ H]]. discriminate.
Qed.


(** The rows of the quantile frame come from dated samples. *)
Lemma grouped_In (b : baseline) (df : list sample) :
  In b (grouped df) ->
  exists r, In r df /\ site_no r = b_site_no b /\ site_name r = b_site_name b
            /\ day_of_year r = Some (b_day_of_year b).
Proof.
  intros H. apply (in_map row_key) in H. rewrite grouped_keys in H.
  apply (group_keys_In _ _ _ key3_eqb_eq) in H. destruct H as [r [Hr Hk]].
  exists r. split; [exact Hr|]. now apply sample_key_Some in Hk.
Qed.




End Retention.



(** A site number reported under two names makes two groups, and each
    group has its 365 rows. *)
Example baseline_two_names :
  map (fun r => (fetch_historical.b_site_name r, fetch_historical.b_day_of_year r))
      (filter (fun r => (fetch_historical.b_day_of_year r =? 365)
                        && String.eqb (fetch_historical.b_site_no r) "02035000")
              (fetch_historical.compute_p90_by_day Examples.renamed))
  = [("JAMES R AT CARTERSVILLE"%string, 365);
     ("JAMES RIVER AT CARTERSVILLE, VA"%string, 365)]
  /\ List.length (fetch_historical.compute_p90_by_day Examples.renamed) = 730%nat.
Proof. vm_compute. split; reflexivity. Qed.

(** The three fills on the example: interpolation between the tenth and the
    twentieth of January, the first value copied backwards, the last value
    copied forwards, and zeros for a site whose quantiles are all null. *)
Example baseline_fill_values :
  map fetch_historical.p90_flow_cfs
      (firstn 3 (fetch_historical.compute_p90_by_day Examples.history))
  = [6.7999999999999998; 6.7999999999999998; 6.7999999999999998]%float
  /\ map fetch_historical.p90_flow_cfs
         (firstn 4 (skipn 17 (fetch_historical.compute_p90_by_day Examples.history)))
     = [14.960000000000001; 15.98; 17; 17]%float
  /\ map (fun r => (fetch_historical.b_site_no r, fetch_historical.p90_flow_cfs r))
         (firstn 2 (skipn 365 (fetch_historical.compute_p90_by_day Examples.history)))
     = [("02041650"%string, 0%float); ("02041650"%string, 0%float)].
Proof. vm_compute. repeat split. Qed.



(** [compute_p90_by_day] knows no no-data code: a flow of -9999 counts as a
    value, and the site is kept with that threshold. *)
Example no_data_code_is_a_flow :
  map fetch_historical.p90_flow_cfs
      (firstn 2 (fetch_historical.compute_p90_by_day Examples.no_data_only))
  = [-9999; -9999]%float
  /\ List.length (fetch_historical.compute_p90_by_day Examples.no_data_only) = 365%nat.
Proof. vm_compute. split; reflexivity. Qed.

(** Retention on the archive of four sites: the site without any value and
    the site without any date are absent; the site whose dated row has no
    value is present, filled with zeros. *)
Example baseline_sites :
  Frame.dedup String.eqb
              (map fetch_historical.b_site_no
                   (fetch_historical.compute_p90_by_day Examples.history))
  = ["02035000"%string; "02041650"%string].
Proof. vm_compute. reflexivity. Qed.

(* ================================================================== *)
(** * fetch_data.py: more on the reading store *)
(* ================================================================== *)

Section StoreContent.
Import Clock fetch_data.

(** The test of the trim on a row of the file. *)
Lemma to_datetime_parsed (df : list reading) (parsed : list (reading * option Z)) :
  to_datetime df = Some parsed ->
  parsed = map (fun r => (r, to_datetime_coerce (timestamp_utc r))) df.
Proof.
  revert parsed. induction df as [|r rest IH]; simpl; intros parsed H.
  - now injection H as <-.
  - destruct (to_datetime_cell (timestamp_utc r)) as [t|] eqn:E; try discriminate.
    destruct (to_datetime rest) as [rest'|]; try discriminate.
    injection H as <-. rewrite (IH rest' eq_refl). f_equal. f_equal.
    destruct (timestamp_utc r); simpl in *; congruence.
Qed.

Lemma with_timestamp_same (r : reading) (t : Z) :
  timestamp_utc r = At t -> with_timestamp (r, Some t) = r.
Proof. destruct r as [a b c d e f]. simpl. intros ->. reflexivity. Qed.

Lemma max_instant_from (col : list (option Z)) :
  forall acc,
    let step := fun acc t =>
                  match acc, t with
                  | Some a, Some b => Some (Z.max a b)
                  | None, x => x
                  | x, None => x
                  end in
    match fold_left step col acc with
    | Some m =>
        (acc = Some m \/ In (Some m) col)
        /\ (forall a, acc = Some a -> a <= m)
        /\ (forall t, In (Some t) col -> t <= m)
    | None => acc = None /\ forall t, ~ In (Some t) col
    end.
Proof.
  induction col as [|c rest IH]; intros acc step; simpl.
  - destruct acc as [a|].
    + split; [now left|]. split; [intros ? [= <-]; lia | intros t []].
    + split; [reflexivity | intros t []].
  - specialize (IH (step acc c)). simpl in IH. fold step in IH.
    destruct (fold_left step rest (step acc c)) as [m|].
    + destruct IH as [Hin [Hacc Hcol]]. split; [|split].
      * destruct Hin as [Hin|Hin]; [|now right; right].
        destruct acc as [a|], c as [b|]; simpl in Hin.
        -- injection Hin as Hin. destruct (Z.max_spec a b) as [[_ E]|[_ E]];
             rewrite E in Hin; subst; [right; left | left]; reflexivity.
        -- now left.
        -- right. left. exact Hin.
        -- discriminate.
      * intros a ->. destruct c as [b|]; simpl in Hacc.
        -- specialize (Hacc _ eq_refl). lia.
        -- now apply Hacc.
      * intros t [->|Ht]; [|now apply Hcol].
        destruct acc as [a|]; simpl in Hacc; specialize (Hacc _ eq_refl); lia.
    + destruct IH as [Hst Hcol]. destruct acc as [a|], c as [b|]; simpl in Hst;
        try discriminate.
      split; [reflexivity|]. intros t [H|H]; [discriminate | now apply (Hcol t)].
Qed.

(** [max_instant] is the greatest instant of the column. *)
Lemma max_instant_spec (col : list (option Z)) :
  match max_instant col with
  | Some m => In (Some m) col /\ forall t, In (Some t) col -> t <= m
  | None => forall t, ~ In (Some t) col
  end.
Proof.
  pose proof (max_instant_from col None) as H. simpl in H. unfold max_instant.
  destruct (fold_left _ col None) as [m|].
  - destruct H as [[H|H] [_ Hc]]; [discriminate | auto].
  - now destruct H.
Qed.

(** The trim on a parsed frame, in terms of the rows themselves. *)
Lemma trim_rows (cutoff : Z) (df : list reading) (parsed : list (reading * option Z)) :
  to_datetime df = Some parsed ->
  map with_timestamp (filter (fun p => not_before cutoff (snd p)) parsed)
  = filter (fun r => match timestamp_utc r with
                     | At t => cutoff <=? t
                     | _ => false
                     end) df.
Proof.
  intros E. rewrite (to_datetime_parsed _ _ E). clear E.
  induction df as [|r rest IH]; [reflexivity|].
  cbn [map filter snd]. unfold not_before at 1.
  destruct (timestamp_utc r) as [t| |] eqn:Et;
    cbn [to_datetime_coerce]; try exact IH.
  destruct (cutoff <=? t); [|exact IH].
  cbn [map]. now rewrite IH, with_timestamp_same.
Qed.

Lemma recent_not_garbled (cutoff : Z) (df : list reading) :
  Forall (fun r => exists t, timestamp_utc r = At t /\ cutoff <= t) df ->
  Forall (fun r => timestamp_utc r <> Garbled) df.
Proof.
  apply Forall_impl. intros r [t [H _]]. congruence.
Qed.

Lemma recent_filter (cutoff : Z) (df : list reading) :
  Forall (fun r => exists t, timestamp_utc r = At t /\ cutoff <= t) df ->
  filter (fun r => match timestamp_utc r with
                   | At t => cutoff <=? t
                   | _ => false
                   end) df = df.
Proof.
  intros H. apply filter_all. rewrite Forall_forall in H.
  intros r Hr. destruct (H r Hr) as [t [-> Ht]]. now apply Z.leb_le.
Qed.

Lemma filter_recent (cutoff : Z) (df : list reading) :
  Forall (fun r => exists t, timestamp_utc r = At t /\ cutoff <= t)
         (filter (fun r => match timestamp_utc r with
                           | At t => cutoff <=? t
                           | _ => false
                           end) df).
Proof.
  apply Forall_forall. intros r Hr. apply filter_In in Hr. destruct Hr as [_ Hr].
  destruct (timestamp_utc r) as [t| |]; try discriminate.
  exists t. split; [reflexivity | now apply Z.leb_le].
Qed.

(** A successful call, seen from outside. *)
Lemma append_and_trim_Some (now : Z) (df_new : list reading)
      (file : option (list reading)) (hrs : Z) (stored : list reading) :
  append_and_trim now df_new file hrs = Some stored ->
  stored = filter (fun r => match timestamp_utc r with
                            | At t => now - hours hrs <=? t
                            | _ => false
                            end)
                  (match file with Some df_old => df_old ++ df_new | None => df_new end).
Proof.
  unfold append_and_trim. intros H.
  destruct (to_datetime _) as [parsed|] eqn:E; try discriminate.
  injection H as <-. now apply trim_rows.
Qed.

Lemma append_and_trim_recent (now : Z) (df_new : list reading)
      (file : list reading) (hrs : Z) :
  Forall (fun r => exists t, timestamp_utc r = At t /\ now - hours hrs <= t)
         (file ++ df_new) ->
  append_and_trim now df_new (Some file) hrs = Some (file ++ df_new).
Proof.
  intros H. unfold append_and_trim.
  destruct (to_datetime_total _ (recent_not_garbled _ _ H)) as [parsed E].
  rewrite E. f_equal. rewrite (trim_rows _ _ _ E). now apply recent_filter.
Qed.

(** What the cut to the minute does to an instant one second after
    [last]. *)
Lemma startDT_cut (last : Z) :
  startDT (last + ns_per_second) <= last + ns_per_second
  /\ (last mod ns_per_minute < 59 * ns_per_second ->
      startDT (last + ns_per_second) <= last)
  /\ (last mod ns_per_minute = 0 -> startDT (last + ns_per_second) = last).
Proof.
  unfold startDT.
  assert (Hm : 0 < ns_per_minute) by reflexivity.
  pose proof (Z.mod_pos_bound (last + ns_per_second) ns_per_minute Hm) as Hb.
  pose proof (Z.mod_pos_bound last ns_per_minute Hm) as Hl.
  assert (Hsmall : last mod ns_per_minute < 59 * ns_per_second ->
                   (last + ns_per_second) mod ns_per_minute
                   = last mod ns_per_minute + ns_per_second).
  { intros H. rewrite Z.add_mod by (unfold ns_per_minute, ns_per_second; lia).
    rewrite (Z.mod_small ns_per_second) by (unfold ns_per_minute, ns_per_second; lia).
    apply Z.mod_small. unfold ns_per_minute, ns_per_second in *. lia. }
  split; [lia|]. split.
  - intros H. rewrite (Hsmall H). lia.
  - intros H. rewrite Hsmall by (rewrite H; unfold ns_per_second; lia). lia.
Qed.

End StoreContent.

(** X2. A second call on the file a first call wrote, with the same clock,
    drops nothing of it and appends every new recent row after it, whether
    the file already holds that row or not: appending the stored rows once
    more doubles them. *)
Theorem append_and_trim_no_dedup (now : Z) (df_new : list fetch_data.reading)
        (file : option (list fetch_data.reading)) (hrs : Z)
        (stored again : list fetch_data.reading) :
  fetch_data.append_and_trim now df_new file hrs = Some stored ->
  Forall (fun r => exists t, fetch_data.timestamp_utc r = Clock.At t
                             /\ now - Clock.hours hrs <= t) again ->
  fetch_data.append_and_trim now again (Some stored) hrs = Some (stored ++ again)
  /\ fetch_data.append_and_trim now stored (Some stored) hrs = Some (stored ++ stored)
  /\ fetch_data.append_and_trim now [] (Some stored) hrs = Some stored.
Proof.
  intros H Hagain. apply append_and_trim_Some in H.
  assert (Hs : Forall (fun r => exists t, fetch_data.timestamp_utc r = Clock.At t
                                          /\ now - Clock.hours hrs <= t) stored)
    by (rewrite H; apply filter_recent).
  split; [|split].
  - apply append_and_trim_recent. now apply Forall_app.
  - apply append_and_trim_recent. now apply Forall_app.
  - rewrite <- (app_nil_r stored) at 2. apply append_and_trim_recent.
    now rewrite app_nil_r.
Qed.

Lemma append_and_trim_no_dedup_witness :
  exists stored,
    fetch_data.append_and_trim Examples.store_now Examples.store_new
                               (Some Examples.store_old) 24 = Some stored
    /\ fetch_data.append_and_trim Examples.store_now stored (Some stored) 24
       = Some (stored ++ stored)
    /\ List.length (stored ++ stored) = 6%nat.
Proof.
  eexists. split; [vm_compute; reflexivity|]. split; [|reflexivity].
  refine (proj1 (proj2 (append_and_trim_no_dedup
                          Examples.store_now Examples.store_new
                          (Some Examples.store_old) 24 _ [] _ _))).
  - vm_compute. reflexivity.
  - constructor.
Defined.

(** X3. After a call of [append_and_trim] that left the file non-empty,
    [load_last_timestamp] answers one second after the latest instant of
    the file, which no instant of the file exceeds. The request that
    follows does not carry that second: its [startDT] is cut to the minute,
    so it is never later than the answer, it is not later than the latest
    instant stored unless that instant lies in the last second of a
    minute, and it is that instant itself when the instant lies on a whole
    minute. *)
Theorem load_last_timestamp_after_store (now later : Z)
        (df_new : list fetch_data.reading)
        (file : option (list fetch_data.reading)) (hrs : Z)
        (stored : list fetch_data.reading) :
  fetch_data.append_and_trim now df_new file hrs = Some stored ->
  stored <> [] ->
  exists last,
    fetch_data.load_last_timestamp later (Some stored)
    = Some (Some (last + Clock.ns_per_second))
    /\ (exists r, In r stored /\ fetch_data.timestamp_utc r = Clock.At last)
    /\ (forall r t, In r stored -> fetch_data.timestamp_utc r = Clock.At t -> t <= last)
    /\ fetch_data.startDT (last + Clock.ns_per_second) <= last + Clock.ns_per_second
    /\ (last mod Clock.ns_per_minute < 59 * Clock.ns_per_second ->
        fetch_data.startDT (last + Clock.ns_per_second) <= last)
    /\ (last mod Clock.ns_per_minute = 0 ->
        fetch_data.startDT (last + Clock.ns_per_second) = last).
Proof.
  intros H Hne. apply append_and_trim_Some in H.
  assert (Hs : Forall (fun r => exists t, fetch_data.timestamp_utc r = Clock.At t
                                          /\ now - Clock.hours hrs <= t) stored)
    by (rewrite H; apply filter_recent).
  clear H. unfold fetch_data.load_last_timestamp.
  destruct (to_datetime_total _ (recent_not_garbled _ _ Hs)) as [parsed E].
  rewrite E. rewrite (to_datetime_parsed _ _ E), map_map. simpl.
  pose proof (max_instant_spec
                (map (fun r => Clock.to_datetime_coerce (fetch_data.timestamp_utc r))
                     stored)) as Hm.
  destruct (fetch_data.max_instant _) as [m|].
  - destruct Hm as [Hin Hmax]. exists m. split; [reflexivity|]. split; [|split].
    + apply in_map_iff in Hin. destruct Hin as [r [Hr Hin]]. exists r.
      split; [exact Hin|]. destruct (fetch_data.timestamp_utc r); simpl in Hr;
        congruence.
    + intros r t Hr Ht.
      apply Hmax. apply in_map_iff. exists r. split; [|exact Hr]. now rewrite Ht.
    + apply startDT_cut.
  - exfalso. destruct stored as [|r rest]; [congruence|].
    inversion Hs as [|? ? [t [Ht _]] _]; subst.
    apply (Hm t). left. now rewrite Ht.
Qed.

Lemma load_last_timestamp_after_store_witness :
  exists stored,
    fetch_data.append_and_trim Examples.store_now Examples.store_new
                               (Some Examples.store_old) 24 = Some stored
    /\ fetch_data.load_last_timestamp 0 (Some stored)
       = Some (Some (Clock.utc 2024 1 2 11 55 + Clock.ns_per_second))
    /\ fetch_data.startDT (Clock.utc 2024 1 2 11 55 + Clock.ns_per_second)
       = Clock.utc 2024 1 2 11 55
    /\ exists last,
         fetch_data.load_last_timestamp 0 (Some stored)
         = Some (Some (last + Clock.ns_per_second))
         /\ (exists r, In r stored /\ fetch_data.timestamp_utc r = Clock.At last)
         /\ (forall r t, In r stored -> fetch_data.timestamp_utc r = Clock.At t ->
                         t <= last)
         /\ fetch_data.startDT (last + Clock.ns_per_second) <= last + Clock.ns_per_second
         /\ (last mod Clock.ns_per_minute < 59 * Clock.ns_per_second ->
             fetch_data.startDT (last + Clock.ns_per_second) <= last)
         /\ (last mod Clock.ns_per_minute = 0 ->
             fetch_data.startDT (last + Clock.ns_per_second) = last).
Proof.
  eexists. split; [vm_compute; reflexivity|]. split; [vm_compute; reflexivity|].
  split; [vm_compute; reflexivity|].
  apply (load_last_timestamp_after_store
           Examples.store_now 0 Examples.store_new (Some Examples.store_old) 24).
  - vm_compute. reflexivity.
  - discriminate.
Defined.

(** Whatever value the service sends, the flow that enters the frame
    is never the no-data code -9999: the code and the texts [float()]
    rejects become nulls, any other number is kept as it is. *)
Lemma parse_flow_never_sentinel (v : option float) :
  PrimFloat.eqb (fetch_data.parse_flow v) (-9999) = false
  /\ (forall flow, v = Some flow -> PrimFloat.eqb flow (-9999) = false ->
                   fetch_data.parse_flow v = flow)
  /\ (v = None -> fetch_data.parse_flow v = Float64.NaN).
Proof.
  unfold fetch_data.parse_flow. split; [|split].
  - destruct v as [flow|]; [|reflexivity].
    destruct (PrimFloat.eqb flow (-9999)) eqn:E; [reflexivity | exact E].
  - intros flow -> E. now rewrite E.
  - now intros ->.
Qed.
(* ================================================================== *)
(** * update_data.py and fetch_historical.py: the update log and the date ranges *)
(* ================================================================== *)

Section UpdateLog.
Import update_data.

Lemma tail_length {A : Type} (n : nat) (df : list A) :
  List.length (tail n df) = Nat.min (List.length df) n.
Proof. unfold tail. rewrite length_skipn. lia. Qed.

Lemma tail_suffix {A : Type} (n : nat) (df : list A) :
  firstn (List.length df - n) df ++ tail n df = df.
Proof. unfold tail. apply firstn_skipn. Qed.

Lemma tail_snoc {A : Type} (n : nat) (df : list A) (x : A) :
  tail (S n) (df ++ [x]) = tail n df ++ [x].
Proof.
  unfold tail. rewrite length_app. simpl.
  replace (List.length df + 1 - S n)%nat with (List.length df - n)%nat by lia.
  rewrite skipn_app.
  replace (List.length df - n - List.length df)%nat with 0%nat by lia.
  reflexivity.
Qed.

End UpdateLog.

(** X4. [log_update] writes the old log with the new timestamp as its last
    row, cut at the front to the 100 latest rows: one row more than before
    up to 100 rows, and the rows kept are the latest ones, in order. *)
Theorem log_update_keeps_latest (timestamp : Z) (log_file : option (list Z)) :
  let df_log := match log_file with Some rows => rows | None => [] end in
  let written := update_data.log_update timestamp log_file in
  written = update_data.tail 99 df_log ++ [timestamp]
  /\ List.length written = Nat.min (S (List.length df_log)) 100
  /\ firstn (List.length df_log - 99) df_log ++ written = df_log ++ [timestamp].
Proof.
  intros df_log written.
  assert (E : written = update_data.tail 99 df_log ++ [timestamp]).
  { unfold written, update_data.log_update, update_data.MAX_LOG_RECORDS.
    fold df_log. apply tail_snoc. }
  split; [exact E|]. split.
  - rewrite E, length_app, tail_length. simpl. lia.
  - rewrite E, app_assoc. now rewrite tail_suffix.
Qed.

Section Chunks.
Import Clock fetch_historical.

Lemma days_1_pos : 0 < days 1.
Proof. reflexivity. Qed.

(** With enough fuel the loop stops by its own test, and more fuel asks
    for the same ranges. *)
Lemma chunk_loop_fuel (fuel extra : nat) (cur_start end_date span : Z) :
  0 <= span ->
  end_date - cur_start <= Z.of_nat fuel * days 1 ->
  chunk_loop (fuel + extra) cur_start end_date span
  = chunk_loop fuel cur_start end_date span.
Proof.
  pose proof days_1_pos as Hd.
  revert cur_start. induction fuel as [|k IH]; intros s Hspan Hf.
  - simpl in Hf. destruct extra; [reflexivity|]. simpl.
    destruct (s <? end_date) eqn:E; [|reflexivity].
    apply Z.ltb_lt in E. lia.
  - cbn [Nat.add chunk_loop]. destruct (s <? end_date) eqn:E; [|reflexivity].
    f_equal. apply IH; [exact Hspan|]. lia.
Qed.

(** Every range lies in the period, is no longer than the span, and
    starts at or after the start of the loop. *)
Lemma chunk_loop_bounds (fuel : nat) (cur_start end_date span : Z) :
  0 <= span ->
  Forall (fun r => cur_start <= fst r /\ fst r <= snd r /\ snd r <= end_date
                   /\ snd r - fst r <= span)
         (chunk_loop fuel cur_start end_date span).
Proof.
  pose proof days_1_pos as Hd.
  revert cur_start. induction fuel as [|k IH]; intros s Hspan; [constructor|].
  cbn [chunk_loop]. destruct (s <? end_date) eqn:E; [|constructor].
  apply Z.ltb_lt in E. constructor.
  - simpl. lia.
  - eapply Forall_impl; [|apply IH; exact Hspan]. simpl. intros r H. lia.
Qed.

(** Each range starts one day after the one before it ends. *)
Lemma chunk_loop_chain (fuel : nat) (cur_start end_date span : Z) (i : nat) :
  (S i < List.length (chunk_loop fuel cur_start end_date span))%nat ->
  fst (nth (S i) (chunk_loop fuel cur_start end_date span) (0, 0))
  = snd (nth i (chunk_loop fuel cur_start end_date span) (0, 0)) + days 1.
Proof.
  revert cur_start i. induction fuel as [|k IH]; intros s i; [simpl; lia|].
  cbn [chunk_loop]. destruct (s <? end_date) eqn:E; [|simpl; lia].
  destruct i as [|i].
  - cbn [nth List.length]. intros H.
    destruct k as [|k]; [simpl in H; lia|].
    cbn [chunk_loop] in *.
    destruct (Z.min (s + span) end_date + days 1 <? end_date); [|simpl in H; lia].
    reflexivity.
  - cbn [List.length]. intros H. apply IH. lia.
Qed.

(** The first range starts where the loop starts, and the last one ends
    no more than a day before the end of the period. *)
Lemma chunk_loop_ends (fuel : nat) (cur_start end_date span : Z) :
  0 <= span ->
  cur_start < end_date ->
  end_date - cur_start <= Z.of_nat fuel * days 1 ->
  fst (hd (0, 0) (chunk_loop fuel cur_start end_date span)) = cur_start
  /\ end_date <= snd (last (chunk_loop fuel cur_start end_date span) (0, 0)) + days 1.
Proof.
  pose proof days_1_pos as Hd.
  revert cur_start. induction fuel as [|k IH]; intros s Hspan Hs Hf; [simpl in Hf; lia|].
  cbn [chunk_loop]. apply Z.ltb_lt in Hs. rewrite Hs. apply Z.ltb_lt in Hs.
  split; [reflexivity|].
  set (cur_end := Z.min (s + span) end_date).
  destruct (Z_lt_dec (cur_end + days 1) end_date) as [Hlt|Hge].
  - destruct (IH (cur_end + days 1) Hspan Hlt) as [_ H]; [unfold cur_end; lia|].
    destruct (chunk_loop k (cur_end + days 1) end_date span) as [|r rest] eqn:Er.
    + exfalso. destruct k; [change (Z.of_nat 1) with 1 in Hf; unfold cur_end in *; lia|].
      cbn [chunk_loop] in Er. apply Z.ltb_lt in Hlt. rewrite Hlt in Er. discriminate.
    + exact H.
  - assert (Er : chunk_loop k (cur_end + days 1) end_date span = []).
    { destruct k; [reflexivity|]. cbn [chunk_loop].
      destruct (cur_end + days 1 <? end_date) eqn:E; [|reflexivity].
      apply Z.ltb_lt in E. lia. }
    rewrite Er. cbn [last snd]. lia.
Qed.

End Chunks.

(** X5. The date ranges [fetch_historical_data] asks for tile the period
    from [years_back * 365] days ago to now: the first starts at the start
    of the period, each next one starts one day after the one before it
    ends, none is longer than [chunk_years * 365] days or ends after now,
    the last one ends no more than a day before now, and the loop ends by
    its own test. *)
Theorem date_ranges_tile (now years_back chunk_years : Z) :
  0 < years_back -> 0 <= chunk_years ->
  fst (hd (0, 0) (fetch_historical.date_ranges now years_back chunk_years))
  = now - fetch_historical.days (years_back * 365)
  /\ (forall i,
        (S i < List.length (fetch_historical.date_ranges now years_back chunk_years))%nat ->
        fst (nth (S i) (fetch_historical.date_ranges now years_back chunk_years) (0, 0))
        = snd (nth i (fetch_historical.date_ranges now years_back chunk_years) (0, 0))
          + fetch_historical.days 1)
  /\ Forall (fun r => fst r <= snd r /\ snd r <= now
                      /\ snd r - fst r <= fetch_historical.days (chunk_years * 365))
            (fetch_historical.date_ranges now years_back chunk_years)
  /\ now <= snd (last (fetch_historical.date_ranges now years_back chunk_years) (0, 0))
            + fetch_historical.days 1
  /\ forall extra,
       fetch_historical.chunk_loop (Z.to_nat (years_back * 365 + 1) + extra)
                                   (now - fetch_historical.days (years_back * 365)) now
                                   (fetch_historical.days (chunk_years * 365))
       = fetch_historical.date_ranges now years_back chunk_years.
Proof.
  intros Hy Hc. unfold fetch_historical.date_ranges.
  assert (Hspan : 0 <= fetch_historical.days (chunk_years * 365))
    by (unfold fetch_historical.days, Clock.ns_per_day, Clock.ns_per_second; lia).
  assert (Hstart : now - fetch_historical.days (years_back * 365) < now)
    by (unfold fetch_historical.days, Clock.ns_per_day, Clock.ns_per_second; lia).
  assert (Hfuel : now - (now - fetch_historical.days (years_back * 365))
                  <= Z.of_nat (Z.to_nat (years_back * 365 + 1)) * fetch_historical.days 1).
  { rewrite Z2Nat.id by lia.
    unfold fetch_historical.days, Clock.ns_per_day, Clock.ns_per_second. lia. }
  destruct (chunk_loop_ends _ _ _ _ Hspan Hstart Hfuel) as [H1 H2].
  split; [exact H1|]. split; [intros i; apply chunk_loop_chain|].
  split.
  - eapply Forall_impl; [|apply chunk_loop_bounds; exact Hspan].
    simpl. intros r H. lia.
  - split; [exact H2|]. intros extra. now apply chunk_loop_fuel.
Qed.

Lemma date_ranges_tile_witness :
  fetch_historical.date_ranges (Clock.utc 2024 1 1 0 0) 20 5
  = [(Clock.utc 2024 1 1 0 0 - fetch_historical.days 7300,
      Clock.utc 2024 1 1 0 0 - fetch_historical.days 5475);
     (Clock.utc 2024 1 1 0 0 - fetch_historical.days 5474,
      Clock.utc 2024 1 1 0 0 - fetch_historical.days 3649);
     (Clock.utc 2024 1 1 0 0 - fetch_historical.days 3648,
      Clock.utc 2024 1 1 0 0 - fetch_historical.days 1823);
     (Clock.utc 2024 1 1 0 0 - fetch_historical.days 1822,
      Clock.utc 2024 1 1 0 0)]
  /\ Clock.utc 2024 1 1 0 0
     <= snd (last (fetch_historical.date_ranges (Clock.utc 2024 1 1 0 0) 20 5) (0, 0))
        + fetch_historical.days 1.
Proof.
  split; [vm_compute; reflexivity|].
  apply (date_ranges_tile (Clock.utc 2024 1 1 0 0) 20 5); lia.
Defined.

(** The bound on the last range is reached: with chunks of no day the
    ranges are single days and the last one is the day before now. *)
Example date_ranges_without_span :
  last (fetch_historical.date_ranges (Clock.utc 2024 1 1 0 0) 1 0) (0, 0)
  = (Clock.utc 2024 1 1 0 0 - fetch_historical.days 1,
     Clock.utc 2024 1 1 0 0 - fetch_historical.days 1)
  /\ List.length (fetch_historical.date_ranges (Clock.utc 2024 1 1 0 0) 1 0) = 365%nat.
Proof. split; vm_compute; reflexivity. Qed.
(* ================================================================== *)
(** * fetch_historical.py: computed quantiles survive the fills *)
(* ================================================================== *)

Section KnownValues.
Import Clock Frame fetch_historical Float64.

Lemma interpolate_from_keeps (l : list float) :
  forall prev i, Forall2 (fun x y => isna x = false -> y = x)
                         l (interpolate_from prev i l).
Proof.
  induction l as [|x r IH]; intros prev i; cbn [interpolate_from]; [constructor|].
  destruct (isna x) eqn:E; constructor; try apply IH; congruence.
Qed.

Lemma bfill_keeps (l : list float) :
  Forall2 (fun x y => isna x = false -> y = x) l (bfill l).
Proof.
  induction l as [|x r IH]; cbn [bfill]; constructor; [|exact IH].
  intros E. now rewrite E.
Qed.

Lemma ffill_from_keeps (l : list float) :
  forall prev, Forall2 (fun x y => isna x = false -> y = x) l (ffill_from prev l).
Proof.
  induction l as [|x r IH]; intros prev; cbn [ffill_from]; constructor; [|apply IH].
  intros E. now rewrite E.
Qed.

Lemma keeps_trans (a b c : list float) :
  Forall2 (fun x y => isna x = false -> y = x) a b ->
  Forall2 (fun x y => isna x = false -> y = x) b c ->
  Forall2 (fun x y => isna x = false -> y = x) a c.
Proof.
  intros H. revert c. induction H as [|x y a b Hxy Hab IH]; intros c Hc;
    inversion Hc as [|? z ? c' Hyz Hbc]; subst; constructor.
  - intros E. rewrite <- (Hxy E). apply Hyz. now rewrite (Hxy E).
  - now apply IH.
Qed.

(** The three fills of [fill_site], one after the other, leave every
    value that is not null where it is. *)
Lemma fills_keep (l : list float) :
  Forall2 (fun x y => isna x = false -> y = x) l (ffill (bfill (interpolate l))).
Proof.
  eapply keeps_trans; [apply interpolate_from_keeps|].
  eapply keeps_trans; [apply bfill_keeps | apply ffill_from_keeps].
Qed.

Lemma kept_In {M : Type} (day : M -> Z) (val : M -> float) (m : list M)
      (out : list float) (x : M) :
  Forall2 (fun a b => isna a = false -> b = a) (map val m) out ->
  In x m -> isna (val x) = false ->
  In (day x, val x) (combine (map day m) out).
Proof.
  revert out. induction m as [|y m IH]; intros out H Hx Hv; [contradiction|].
  cbn [map] in H. inversion H as [|? b ? out' Hb Hout]; subst.
  destruct Hx as [->|Hx].
  - left. now rewrite (Hb Hv).
  - right. now apply IH.
Qed.

Lemma merge_left_match {L R : Type} (same_key : L -> R -> bool)
      (left : list L) (right : list R) (l : L) (r : R) :
  In l left -> In r right -> same_key l r = true ->
  In (l, Some r) (merge_left same_key left right).
Proof.
  intros Hl Hr Hk. unfold merge_left. apply in_flat_map. exists l.
  split; [exact Hl|].
  assert (H : In r (filter (same_key l) right)) by (apply filter_In; auto).
  destruct (filter (same_key l) right) as [|r0 ms]; [contradiction|].
  apply in_map_iff. exists r. auto.
Qed.

Lemma full_idx_In (d : Z) : In d full_idx <-> 1 <= d <= 365.
Proof.
  unfold full_idx. rewrite in_map_iff. split.
  - intros [n [<- H]]. apply in_seq in H. lia.
  - intros H. exists (Z.to_nat d). split; [lia|]. apply in_seq. lia.
Qed.

(** A row of the quantile frame whose day is one of the 365 and whose
    quantile is not null is a row of the filled frame of its group. *)
Lemma fill_site_keeps (site_df : list baseline) (b : baseline) :
  In b site_df -> 1 <= b_day_of_year b <= 365 -> isna (p90_flow_cfs b) = false ->
  In (b_day_of_year b, p90_flow_cfs b) (fill_site site_df).
Proof.
  intros Hb Hd Hv. unfold fill_site.
  set (merged := merge_left _ full_idx site_df).
  set (val := fun m : Z * option baseline =>
                match snd m with
                | Some r => p90_flow_cfs r
                | None => NaN
                end).
  assert (Hm : In (b_day_of_year b, Some b) merged).
  { apply merge_left_match; [now apply full_idx_In | exact Hb | apply Z.eqb_refl]. }
  assert (Hin : In (b_day_of_year b, p90_flow_cfs b)
                   (combine (map fst merged) (ffill (bfill (interpolate (map val merged)))))).
  { apply (kept_In fst val merged _ (b_day_of_year b, Some b));
      [apply fills_keep | exact Hm | exact Hv]. }
  destruct (forallb isna (ffill (bfill (interpolate (map val merged))))) eqn:E;
    [|exact Hin].
  exfalso. apply in_combine_r in Hin.
  rewrite forallb_forall in E. apply E in Hin. congruence.
Qed.

Lemma grouped_row_kept (df : list sample) (b : baseline) :
  In b (grouped (filter (fun x => isin (site_no x) (valid_sites df)) df)) ->
  1 <= b_day_of_year b <= 365 -> isna (p90_flow_cfs b) = false ->
  In b (compute_p90_by_day df).
Proof.
  intros Hb Hd Hv. apply compute_p90_by_day_In.
  set (G := grouped _) in *.
  exists (site_of b, filter (has_key site_key key2_eqb (site_of b)) G). split.
  - apply groupby_In. split; [|reflexivity].
    apply (group_keys_In _ _ _ key2_eqb_eq). exists b. split; [exact Hb | reflexivity].
  - unfold site_rows. cbn [fst snd]. apply in_map_iff.
    exists (b_day_of_year b, p90_flow_cfs b). split; [now destruct b|].
    apply fill_site_keeps; [|exact Hd | exact Hv].
    apply filter_In. split; [exact Hb|].
    now apply (has_key_true _ _ key2_eqb_eq).
Qed.

Lemma filter_filter_implied {A : Type} (p q : A -> bool) (l : list A) :
  (forall x, In x l -> p x = true -> q x = true) ->
  filter p (filter q l) = filter p l.
Proof.
  induction l as [|x r IH]; intros H; [reflexivity|]. cbn [filter].
  destruct (q x) eqn:Eq; cbn [filter].
  - destruct (p x); [f_equal|]; apply IH; intros; apply H; auto; now right.
  - destruct (p x) eqn:Ep.
    + rewrite (H x (or_introl eq_refl) Ep) in Eq. discriminate.
    + apply IH. intros; apply H; auto; now right.
Qed.

(** The quantile of a group with one valid value is that value. *)
Lemma quantile_single (values : list float) (x : float) :
  filter notna values = [x] -> quantile 0.9 values = x.
Proof.
  intros H. unfold quantile. rewrite H. reflexivity.
Qed.

End KnownValues.

(** X6. The fills of [compute_p90_by_day] never change a quantile that was
    computed: for a sample with a flow, dated on day [d] of the first 365
    days of a year, the baseline holds the row of its site, its name and
    [d] whose P90 is the 0.9 quantile of the samples of that site, name and
    day, when this quantile is a number. When the sample is the only one
    of its day with a flow, that P90 is its flow. *)
Theorem baseline_keeps_quantiles (df : list fetch_historical.sample)
        (r : fetch_historical.sample) (d : Z) :
  In r df ->
  Float64.isna (fetch_historical.flow_cfs r) = false ->
  fetch_historical.day_of_year r = Some d ->
  1 <= d <= 365 ->
  let same_day :=
    filter (fun x =>
              match fetch_historical.day_of_year x with
              | Some d' => (String.eqb (fetch_historical.site_no x) (fetch_historical.site_no r)
                            && String.eqb (fetch_historical.site_name x)
                                          (fetch_historical.site_name r))
                           && (d' =? d)
              | None => false
              end) df in
  let q := Frame.quantile 0.9 (map fetch_historical.flow_cfs same_day) in
  Float64.isna q = false ->
  In {| fetch_historical.b_site_no := fetch_historical.site_no r;
        fetch_historical.b_site_name := fetch_historical.site_name r;
        fetch_historical.b_day_of_year := d;
        fetch_historical.p90_flow_cfs := q |}
     (fetch_historical.compute_p90_by_day df)
  /\ (filter Float64.notna (map fetch_historical.flow_cfs same_day)
      = [fetch_historical.flow_cfs r] ->
      q = fetch_historical.flow_cfs r).
Proof.
  intros Hr Hf Hd Hrange same_day q Hq.
  split; [|apply quantile_single].
  set (k := (fetch_historical.site_no r, fetch_historical.site_name r, d)).
  set (df' := filter (fun x => fetch_historical.isin (fetch_historical.site_no x)
                                 (fetch_historical.valid_sites df)) df).
  assert (Hvalid : In (fetch_historical.site_no r) (fetch_historical.valid_sites df))
    by (apply valid_sites_In; eauto).
  assert (Hr' : In r df').
  { apply filter_In. split; [exact Hr | now apply isin_In]. }
  assert (Hsame : filter (Frame.has_key fetch_historical.sample_key
                                        fetch_historical.key3_eqb k) df' = same_day).
  { unfold df'. rewrite filter_filter_implied.
    - apply filter_ext. intros x.
      unfold Frame.has_key, fetch_historical.sample_key.
      destruct (fetch_historical.day_of_year x); reflexivity.
    - intros x _ Hx. apply (has_key_true _ _ key3_eqb_eq) in Hx.
      apply sample_key_Some in Hx. destruct Hx as [Hs _].
      apply isin_In. now rewrite Hs. }
  assert (Hb : fetch_historical.quantile_row
                 (k, filter (Frame.has_key fetch_historical.sample_key
                                           fetch_historical.key3_eqb k) df')
               = {| fetch_historical.b_site_no := fetch_historical.site_no r;
                    fetch_historical.b_site_name := fetch_historical.site_name r;
                    fetch_historical.b_day_of_year := d;
                    fetch_historical.p90_flow_cfs := q |}).
  { rewrite Hsame. reflexivity. }
  rewrite <- Hb. apply grouped_row_kept.
  - unfold fetch_historical.grouped. apply in_map. apply groupby_In.
    split; [|reflexivity].
    apply (group_keys_In _ _ _ key3_eqb_eq). exists r. split; [exact Hr'|].
    now apply sample_key_Some.
  - rewrite Hb. exact Hrange.
  - rewrite Hb. exact Hq.
Qed.

Lemma baseline_keeps_quantiles_witness :
  In (Examples.p90_row "02035000" 20 17)
     (fetch_historical.compute_p90_by_day Examples.history).
Proof.
  pose proof (baseline_keeps_quantiles
                Examples.history
                (Examples.daily "02035000" "JAMES RIVER AT CARTERSVILLE, VA"
                                (Clock.At (Clock.utc 2021 1 20 12 0)) 17)
                20) as H.
  cbv zeta in H.
  refine (proj1 (H _ _ _ _ _)).
  - right. right. right. left. reflexivity.
  - reflexivity.
  - vm_compute. reflexivity.
  - lia.
  - vm_compute. reflexivity.
Defined.
(* ================================================================== *)
(** * compare_p90_roc.py: the whole frame *)
(* ================================================================== *)

Section WholeFrame.
Import Clock Frame compare_p90_roc Float64.

Lemma existsb_garbled (df : list reading) :
  existsb garbled df = true <-> exists r, In r df /\ timestamp_utc r = Garbled.
Proof.
  rewrite existsb_exists. split; intros [r [Hr H]]; exists r; split; try exact Hr.
  - unfold garbled in H. destruct (timestamp_utc r); congruence.
  - unfold garbled. now rewrite H.
Qed.

(** A row without a site number is in no group: its three columns are
    null. *)
Lemma add_roc_no_site (df : list reading) :
  forall rest before r,
    In r (add_roc df before rest) -> site_no (row r) = None ->
    pct_change_1h r = NaN /\ pct_change_3h r = NaN /\ pct_change_6h r = NaN.
Proof.
  induction rest as [|x rest IH]; intros before r; cbn [add_roc]; [contradiction|].
  intros [<-|H] Hs.
  - cbn [row pct_change_1h pct_change_3h pct_change_6h] in *.
    unfold transform_at. rewrite Hs. auto.
  - now apply (IH (before ++ [x])).
Qed.

Lemma find_filter {A : Type} (f : A -> bool) (l : list A) :
  find f l = hd_error (filter f l).
Proof.
  induction l as [|x r IH]; [reflexivity|]. cbn [find filter].
  destruct (f x); [reflexivity | exact IH].
Qed.

(** A left merge on a key the right frame holds once is a lookup. *)
Lemma merge_left_lookup {L R : Type} (same_key : L -> R -> bool)
      (left : list L) (right : list R) :
  (forall l, In l left -> (List.length (filter (same_key l) right) <= 1)%nat) ->
  merge_left same_key left right = map (fun l => (l, find (same_key l) right)) left.
Proof.
  unfold merge_left. induction left as [|l rest IH]; intros H; [reflexivity|].
  cbn [flat_map]. rewrite IH by (intros; apply H; now right).
  specialize (H l (or_introl eq_refl)).
  change (map (fun l0 => (l0, find (same_key l0) right)) (l :: rest))
    with ((l, find (same_key l) right)
            :: map (fun l0 => (l0, find (same_key l0) right)) rest).
  rewrite find_filter.
  destruct (filter (same_key l) right) as [|r [|r' ms]]; [reflexivity..|].
  simpl in H. lia.
Qed.

Lemma merge_left_longer {L R : Type} (same_key : L -> R -> bool)
      (left : list L) (right : list R) :
  (List.length left <= List.length (merge_left same_key left right))%nat.
Proof.
  unfold merge_left. induction left as [|l rest IH]; [reflexivity|].
  cbn [flat_map]. rewrite length_app. cbn [List.length].
  destruct (filter (same_key l) right) as [|r ms];
    [|rewrite length_map]; cbn [List.length]; lia.
Qed.

Lemma merge_left_unmatched {L R : Type} (same_key : L -> R -> bool)
      (left : list L) (right : list R) (l : L) :
  In l left -> (forall r, In r right -> same_key l r = false) ->
  In (l, None) (merge_left same_key left right).
Proof.
  intros Hl H. unfold merge_left. apply in_flat_map. exists l. split; [exact Hl|].
  rewrite filter_none by exact H. now left.
Qed.

Lemma same_key_true (p : prepared) (h : fetch_historical.baseline) :
  same_key p h = true ->
  site_no (row (base p)) = Some (fetch_historical.b_site_no h)
  /\ day_of_year p = Some (fetch_historical.b_day_of_year h).
Proof.
  unfold same_key. intros H. apply andb_true_iff in H. destruct H as [H1 H2].
  destruct (site_no (row (base p))) as [s|]; [|discriminate].
  destruct (day_of_year p) as [d|]; [|discriminate].
  simpl in H1, H2. apply String.eqb_eq in H1. apply Z.eqb_eq in H2. now subst.
Qed.

Lemma same_key_once (p : prepared) (df_hist : list fetch_historical.baseline) :
  NoDup (map (fun h => (fetch_historical.b_site_no h, fetch_historical.b_day_of_year h))
             df_hist) ->
  (List.length (filter (same_key p) df_hist) <= 1)%nat.
Proof.
  destruct (site_no (row (base p))) as [s|] eqn:Es.
  - destruct (day_of_year p) as [d|] eqn:Ed.
    + apply (NoDup_at_most_one _ _ (s, d)).
      intros h H. apply same_key_true in H. destruct H as [H1 H2].
      rewrite Es in H1. rewrite Ed in H2. congruence.
    + intros _. rewrite filter_none; [simpl; lia|].
      intros h _. destruct (same_key p h) eqn:E; [|reflexivity].
      apply same_key_true in E. destruct E as [_ E]. congruence.
  - intros _. rewrite filter_none; [simpl; lia|].
    intros h _. destruct (same_key p h) eqn:E; [|reflexivity].
    apply same_key_true in E. destruct E as [E _]. congruence.
Qed.

(** In the order of the sort a row without a site number is followed by
    such rows only. *)
Lemma row_leb_null (a b : reading) :
  site_no a = None -> row_leb a b = true -> site_no b = None.
Proof.
  unfold row_leb, pair_leb. cbn [fst snd]. intros ->.
  destruct (site_no b); [discriminate | reflexivity].
Qed.

Lemma nulls_last (out : list with_roc) :
  StronglySorted (fun a b => row_leb a b = true) (map row out) ->
  exists sited unsited,
    out = sited ++ unsited
    /\ Forall (fun r => site_no (row r) <> None) sited
    /\ Forall (fun r => site_no (row r) = None) unsited.
Proof.
  induction out as [|x out IH]; cbn [map]; intros H.
  - exists [], []. repeat split; constructor.
  - inversion H as [|? ? Hs Hx]; subst.
    destruct (site_no (row x)) as [s|] eqn:Es.
    + destruct (IH Hs) as [a [b [-> [Ha Hb]]]]. exists (x :: a), b.
      split; [reflexivity|]. split; [|exact Hb]. constructor; [congruence | exact Ha].
    + exists [], (x :: out). split; [reflexivity|]. split; [constructor|].
      constructor; [exact Es|]. apply Forall_forall. intros y Hy.
      rewrite Forall_forall in Hx. apply (row_leb_null (row x)); [exact Es|].
      apply Hx. now apply in_map.
Qed.

End WholeFrame.

(** X7. [compute_rate_of_change] raises exactly when a timestamp of the
    frame is not a date. Otherwise it returns every row of the frame once,
    none dropped and none added; the rows without a site number come
    after all the others, and their three rate-of-change columns are
    null. *)
Theorem compute_rate_of_change_frame (df : list compare_p90_roc.reading) :
  (compare_p90_roc.compute_rate_of_change df = None
   <-> exists r, In r df /\ compare_p90_roc.timestamp_utc r = Clock.Garbled)
  /\ forall out,
       compare_p90_roc.compute_rate_of_change df = Some out ->
       Permutation (map compare_p90_roc.row out) df
       /\ (exists sited unsited,
             out = sited ++ unsited
             /\ Forall (fun r => compare_p90_roc.site_no (compare_p90_roc.row r) <> None)
                       sited
             /\ Forall (fun r => compare_p90_roc.site_no (compare_p90_roc.row r) = None)
                       unsited)
       /\ forall r, In r out ->
                    compare_p90_roc.site_no (compare_p90_roc.row r) = None ->
                    compare_p90_roc.pct_change_1h r = Float64.NaN
                    /\ compare_p90_roc.pct_change_3h r = Float64.NaN
                    /\ compare_p90_roc.pct_change_6h r = Float64.NaN.
Proof.
  unfold compare_p90_roc.compute_rate_of_change.
  destruct (existsb compare_p90_roc.garbled df) eqn:E.
  - split; [|discriminate]. split; [intros _; now apply existsb_garbled | reflexivity].
  - split.
    + split; [discriminate|]. intros H. apply existsb_garbled in H. congruence.
    + intros out [= <-]. split; [rewrite add_roc_row; apply sort_perm|].
      split; [|intros r; apply add_roc_no_site].
      apply nulls_last. rewrite add_roc_row.
      apply sort_sorted; [apply row_leb_total | apply row_leb_trans].
Qed.

(** X8. When the baseline holds every (site number, day of year) at most
    once, [compare_to_historical] is a row-wise lookup: the frame has one
    row per current reading, in the order of the readings, each classified
    against the baseline row of its site and day, if there is one. *)
Theorem compare_to_historical_lookup (df_current : list compare_p90_roc.prepared)
        (df_hist : list fetch_historical.baseline) :
  NoDup (map (fun h => (fetch_historical.b_site_no h, fetch_historical.b_day_of_year h))
             df_hist) ->
  compare_p90_roc.compare_to_historical df_current df_hist
  = map (fun p => compare_p90_roc.classify (p, find (compare_p90_roc.same_key p) df_hist))
        df_current
  /\ List.length (compare_p90_roc.compare_to_historical df_current df_hist)
     = List.length df_current.
Proof.
  intros Hnd.
  assert (E : compare_p90_roc.compare_to_historical df_current df_hist
              = map (fun p => compare_p90_roc.classify
                                (p, find (compare_p90_roc.same_key p) df_hist))
                    df_current).
  { unfold compare_p90_roc.compare_to_historical.
    rewrite merge_left_lookup by (intros p _; now apply same_key_once).
    now rewrite map_map. }
  split; [exact E|]. now rewrite E, length_map.
Qed.

Lemma compare_to_historical_lookup_witness :
  List.length (compare_p90_roc.compare_to_historical
                 (compare_p90_roc.prepare_current_data [Examples.evening_reading])
                 Examples.new_year_baseline) = 1%nat.
Proof.
  refine (eq_trans (proj2 (compare_to_historical_lookup
                             (compare_p90_roc.prepare_current_data [Examples.evening_reading])
                             Examples.new_year_baseline _)) _).
  - repeat constructor; simpl; intuition discriminate.
  - reflexivity.
Defined.

(** X9. [compare_to_historical] never drops a current reading: the frame
    has at least as many rows as there are readings, and a reading whose
    site and day the baseline does not hold is in it with a null P90, a
    null ratio and no high-flow flag. *)
Theorem compare_to_historical_unmatched (df_current : list compare_p90_roc.prepared)
        (df_hist : list fetch_historical.baseline) (p : compare_p90_roc.prepared) :
  In p df_current ->
  (forall h, In h df_hist -> compare_p90_roc.same_key p h = false) ->
  (List.length df_current
   <= List.length (compare_p90_roc.compare_to_historical df_current df_hist))%nat
  /\ exists c,
       In c (compare_p90_roc.compare_to_historical df_current df_hist)
       /\ compare_p90_roc.c_site_no c
          = compare_p90_roc.site_no (compare_p90_roc.row (compare_p90_roc.base p))
       /\ compare_p90_roc.c_timestamp_utc c
          = compare_p90_roc.timestamp_utc (compare_p90_roc.row (compare_p90_roc.base p))
       /\ compare_p90_roc.c_flow_cfs c
          = compare_p90_roc.flow_cfs (compare_p90_roc.row (compare_p90_roc.base p))
       /\ compare_p90_roc.c_p90_flow_cfs c = Float64.NaN
       /\ compare_p90_roc.ratio c = Float64.NaN
       /\ compare_p90_roc.high_flow c = false.
Proof.
  intros Hp Hno. split; [unfold compare_p90_roc.compare_to_historical;
                         rewrite length_map; apply merge_left_longer|].
  exists (compare_p90_roc.classify (p, None)). split.
  - unfold compare_p90_roc.compare_to_historical. apply in_map.
    now apply merge_left_unmatched.
  - repeat split.
Qed.

Lemma compare_to_historical_unmatched_witness :
  exists c,
    In c (compare_p90_roc.compare_to_historical
            (compare_p90_roc.prepare_current_data [Examples.evening_reading])
            Examples.zero_baseline)
    /\ compare_p90_roc.c_flow_cfs c = 120%float
    /\ compare_p90_roc.high_flow c = false.
Proof.
  destruct (compare_to_historical_unmatched
              (compare_p90_roc.prepare_current_data [Examples.evening_reading])
              Examples.zero_baseline
              (compare_p90_roc.add_day_of_year Examples.evening_reading))
    as [_ [c [H1 [_ [_ [H2 [_ [_ H3]]]]]]]].
  - left. reflexivity.
  - intros h [<-|[]]. reflexivity.
  - exists c. split; [exact H1|]. split; [exact H2 | exact H3].
Defined.
(* ================================================================== *)
(** * fetch_historical.py and compare_p90_roc.py: one baseline row per site and day *)
(* ================================================================== *)

Section UniqueKeys.
Import Clock Frame fetch_historical Float64.

Lemma full_idx_NoDup : NoDup full_idx.
Proof.
  unfold full_idx. apply NoDup_map_NoDup_ForallPairs; [|apply seq_NoDup].
  intros a b _ _. apply Nat2Z.inj.
Qed.

(** A frame built block by block repeats no key when no block does and
    two blocks that share a key are one block. *)
Lemma NoDup_blocks {K G Row Key : Type} (block : K * G -> list Row)
      (key : Row -> Key) (gs : list (K * G)) :
  NoDup (map fst gs) ->
  (forall g, In g gs -> NoDup (map key (block g))) ->
  (forall g1 g2 r1 r2, In g1 gs -> In g2 gs -> In r1 (block g1) -> In r2 (block g2) ->
                       key r1 = key r2 -> fst g1 = fst g2) ->
  NoDup (map key (flat_map block gs)).
Proof.
  induction gs as [|g rest IH]; intros Hk Hb Hx; [constructor|].
  cbn [flat_map]. rewrite map_app. inversion Hk as [|? ? Hg Hrest]; subst.
  apply NoDup_app.
  - apply Hb. now left.
  - apply IH; [exact Hrest | |].
    + intros g' Hg'. apply Hb. now right.
    + intros g1 g2 r1 r2 H1 H2. apply Hx; now right.
  - intros a Ha Ha'. apply in_map_iff in Ha. destruct Ha as [r1 [E1 Hr1]].
    apply in_map_iff in Ha'. destruct Ha' as [r2 [E2 Hr2]].
    apply in_flat_map in Hr2. destruct Hr2 as [g2 [Hg2 Hr2]].
    apply Hg. apply in_map_iff. exists g2. split; [|exact Hg2].
    symmetry. apply (Hx g g2 r1 r2); [now left | now right | exact Hr1 | exact Hr2|].
    congruence.
Qed.

Lemma site_group_sample (df : list sample) (k : key2) (site_df : list baseline) :
  In (k, site_df) (groupby site_key key2_eqb key2_leb (grouped df)) ->
  exists x, In x df /\ site_no x = fst k /\ site_name x = snd k.
Proof.
  intros H.
  destruct (groupby_nonempty _ _ _ key2_eqb_eq _ _ _ H) as [b [Hb Hk]].
  assert (Hin : In b (grouped df)).
  { apply groupby_In in H. destruct H as [_ ->].
    apply filter_In in Hb. tauto. }
  injection Hk as <-. apply grouped_In in Hin.
  destruct Hin as [x [Hx [Hs [Hn _]]]]. exists x. auto.
Qed.

Lemma site_group_days (df : list sample) (k : key2) (site_df : list baseline) :
  In (k, site_df) (groupby site_key key2_eqb key2_leb (grouped df)) ->
  map b_day_of_year (site_rows (k, site_df)) = full_idx.
Proof.
  intros H. apply groupby_In in H. destruct H as [_ ->].
  rewrite site_rows_days. apply fill_site_days. apply site_days_NoDup.
Qed.

Lemma compute_p90_by_day_keys (df : list sample) :
  (forall x y, In x df -> In y df -> site_no x = site_no y ->
               site_name x = site_name y) ->
  NoDup (map (fun h => (b_site_no h, b_day_of_year h)) (compute_p90_by_day df)).
Proof.
  intros Hname. unfold compute_p90_by_day.
  set (df' := filter (fun r => isin (site_no r) (valid_sites df)) df).
  apply NoDup_blocks.
  - rewrite groupby_fst. apply group_keys_NoDup, key2_eqb_eq.
  - intros [k site_df] Hg.
    apply (NoDup_map_inv snd). rewrite map_map.
    change (NoDup (map b_day_of_year (site_rows (k, site_df)))).
    rewrite (site_group_days _ _ _ Hg). apply full_idx_NoDup.
  - intros [k1 g1] [k2 g2] r1 r2 H1 H2 Hr1 Hr2 E. cbn [fst].
    apply site_rows_key in Hr1, Hr2. cbn [fst] in Hr1, Hr2.
    apply site_group_sample in H1, H2.
    destruct H1 as [x [Hx [Hxs Hxn]]]. destruct H2 as [y [Hy [Hys Hyn]]].
    apply filter_In in Hx, Hy. destruct Hx as [Hx _]. destruct Hy as [Hy _].
    injection E as Es _. unfold site_of in Hr1, Hr2. subst k1 k2. cbn [fst snd] in *.
    assert (site_name x = site_name y) by (apply Hname; congruence).
    f_equal; congruence.
Qed.

End UniqueKeys.

(** X10. When every site number of the archive comes with one site name,
    the baseline [compute_p90_by_day] builds holds each (site number, day
    of year) once, so [compare_to_historical] against it returns exactly
    one row per current reading. *)
Theorem baseline_keys_unique (df : list fetch_historical.sample) :
  (forall x y, In x df -> In y df ->
               fetch_historical.site_no x = fetch_historical.site_no y ->
               fetch_historical.site_name x = fetch_historical.site_name y) ->
  NoDup (map (fun h => (fetch_historical.b_site_no h, fetch_historical.b_day_of_year h))
             (fetch_historical.compute_p90_by_day df))
  /\ forall df_current,
       List.length (compare_p90_roc.compare_to_historical
                      df_current (fetch_historical.compute_p90_by_day df))
       = List.length df_current.
Proof.
  intros Hname. pose proof (compute_p90_by_day_keys df Hname) as Hnd.
  split; [exact Hnd|]. intros df_current.
  unfold compare_p90_roc.compare_to_historical.
  rewrite merge_left_lookup by (intros p _; now apply same_key_once).
  now rewrite !length_map.
Qed.

Lemma baseline_keys_unique_witness :
  List.length (compare_p90_roc.compare_to_historical
                 (compare_p90_roc.prepare_current_data [Examples.evening_reading])
                 (fetch_historical.compute_p90_by_day Examples.history))
  = 1%nat.
Proof.
  refine (proj2 (baseline_keys_unique Examples.history _)
                (compare_p90_roc.prepare_current_data [Examples.evening_reading])).
  intros x y Hx Hy.
  repeat (destruct Hx as [<-|Hx]); try contradiction;
    repeat (destruct Hy as [<-|Hy]); try contradiction;
    intros E; try reflexivity; discriminate E.
Defined.

(** With one site number under two names the baseline holds each of its
    days twice, and one reading gives two rows. *)
Example renamed_site_doubles_rows :
  List.length (compare_p90_roc.compare_to_historical
                 (compare_p90_roc.prepare_current_data [Examples.evening_reading])
                 (fetch_historical.compute_p90_by_day Examples.renamed))
  = 2%nat.
Proof. vm_compute. reflexivity. Qed.
(* ================================================================== *)
(** * process_gauge_data.py: one row per gauge *)
(* ================================================================== *)

Section LatestRows.
Import Clock Frame fetch_data process_gauge_data Float64.

Lemma existsb_unparsed (df : list reading) :
  existsb unparsed df = true <-> exists r, In r df /\ timestamp_utc r = Garbled.
Proof.
  rewrite existsb_exists. split; intros [r [Hr H]]; exists r; split; try exact Hr.
  - unfold unparsed in H. destruct (timestamp_utc r); congruence.
  - unfold unparsed. now rewrite H.
Qed.





End LatestRows.


(* ================================================================== *)
(** * main.py: download names and the six-hour chart *)
(* ================================================================== *)

Section Downloads.
Import main.

Lemma first_free_spec (taken : nat -> bool) (fuel : nat) :
  forall n,
    match first_free fuel taken n with
    | Some m => (n <= m < n + fuel)%nat /\ taken m = false
                /\ forall k, (n <= k < m)%nat -> taken k = true
    | None => forall k, (n <= k < n + fuel)%nat -> taken k = true
    end.
Proof.
  induction fuel as [|fuel IH]; intros n; cbn [first_free]; [intros k; lia|].
  destruct (taken n) eqn:E.
  - specialize (IH (S n)). destruct (first_free fuel taken (S n)) as [m|].
    + destruct IH as [Hm [Hfree Hbelow]]. split; [lia|]. split; [exact Hfree|].
      intros k Hk. destruct (Nat.eq_dec k n) as [->|Hne]; [exact E|].
      apply Hbelow. lia.
    + intros k Hk. destruct (Nat.eq_dec k n) as [->|Hne]; [exact E|].
      apply IH. lia.
  - split; [lia|]. split; [exact E|]. intros k Hk. lia.
Qed.

Lemma taken_In (folder : list nat) (n : nat) :
  existsb (Nat.eqb n) folder = true <-> In n folder.
Proof.
  rewrite existsb_exists. split.
  - intros [x [Hx E]]. apply Nat.eqb_eq in E. now subst.
  - intros H. exists n. split; [exact H | apply Nat.eqb_refl].
Qed.

End Downloads.

(** X12. [unique_filename] always finds a name: its number is the least
    number from 1 on whose file is not in the download folder, so the file
    it names does not exist yet and every smaller number is taken. *)
Theorem unique_filename_least_free (folder : list nat) :
  exists n,
    main.unique_filename folder = Some n
    /\ (1 <= n <= S (List.length folder))%nat
    /\ ~ In n folder
    /\ forall k, (1 <= k < n)%nat -> In k folder.
Proof.
  unfold main.unique_filename.
  pose proof (first_free_spec (fun n => existsb (Nat.eqb n) folder)
                              (S (List.length folder)) 1) as H.
  destruct (main.first_free _ _ 1) as [m|].
  - destruct H as [Hm [Hfree Hbelow]]. exists m. split; [reflexivity|].
    split; [lia|]. split.
    + intros Hin. apply taken_In in Hin. congruence.
    + intros k Hk. apply taken_In. now apply Hbelow.
  - exfalso.
    assert (Hincl : incl (seq 1 (S (List.length folder))) folder).
    { intros k Hk. apply in_seq in Hk. apply taken_In. apply H. lia. }
    apply NoDup_incl_length in Hincl; [|apply seq_NoDup].
    rewrite length_seq in Hincl. lia.
Qed.

Section Page.
Import Clock Frame fetch_data main.

Lemma instant_leb_total (a b : reading) :
  stamp_leb (timestamp_utc a) (timestamp_utc b) = true
  \/ stamp_leb (timestamp_utc b) (timestamp_utc a) = true.
Proof. apply stamp_leb_total. Qed.

Lemma instant_leb_trans (a b c : reading) :
  stamp_leb (timestamp_utc a) (timestamp_utc b) = true ->
  stamp_leb (timestamp_utc b) (timestamp_utc c) = true ->
  stamp_leb (timestamp_utc a) (timestamp_utc c) = true.
Proof. apply stamp_leb_trans. Qed.

Lemma coerce_Some (r : reading) (t : Z) :
  to_datetime_coerce (timestamp_utc r) = Some t <-> timestamp_utc r = At t.
Proof.
  destruct (timestamp_utc r); simpl; split; congruence.
Qed.

End Page.

(** X13. The chart of the page of a gauge shows exactly the readings of the
    site that have a timestamp no more than six hours before any reading
    of the site, in the order of their timestamps; the page fails only
    when a timestamp of the file is not a date. *)
Theorem gauge_6h_window (site_no : string) (ts : list fetch_data.reading) :
  (main.gauge_6h site_no ts = None
   <-> exists r, In r ts /\ fetch_data.timestamp_utc r = Clock.Garbled)
  /\ forall shown_rows,
       main.gauge_6h site_no ts = Some shown_rows ->
       (forall r,
          In r shown_rows
          <-> In r ts /\ fetch_data.site_no r = site_no
              /\ exists t, fetch_data.timestamp_utc r = Clock.At t
                           /\ forall r' t', In r' ts -> fetch_data.site_no r' = site_no ->
                                            fetch_data.timestamp_utc r' = Clock.At t' ->
                                            t' - Clock.hours 6 <= t)
       /\ StronglySorted (fun a b => Clock.stamp_leb (fetch_data.timestamp_utc a)
                                                     (fetch_data.timestamp_utc b) = true)
                         shown_rows.
Proof.
  unfold main.gauge_6h.
  destruct (existsb process_gauge_data.unparsed ts) eqn:E.
  { split; [|discriminate].
    split; [intros _; now apply existsb_unparsed | reflexivity]. }
  split.
  { split; [intros H; destruct (Frame.sort _ _); discriminate|].
    intros H. apply existsb_unparsed in H. congruence. }
  set (leb := fun a b => Clock.stamp_leb (fetch_data.timestamp_utc a)
                                         (fetch_data.timestamp_utc b)).
  remember (Frame.sort leb (filter (fun r => String.eqb (fetch_data.site_no r) site_no) ts))
    as gauge_df eqn:Hdf.
  assert (Hin : forall r, In r gauge_df <-> In r ts /\ fetch_data.site_no r = site_no).
  { intros r. rewrite Hdf, sort_In, filter_In, String.eqb_eq. tauto. }
  assert (Hsorted : StronglySorted (fun a b => leb a b = true) gauge_df)
    by (rewrite Hdf; apply sort_sorted; [apply instant_leb_total | apply instant_leb_trans]).
  clear Hdf.
  intros shown_rows H.
  assert (Hshown : shown_rows
                   = filter (fun r =>
                               match Clock.to_datetime_coerce (fetch_data.timestamp_utc r),
                                     fetch_data.max_instant
                                       (map (fun r => Clock.to_datetime_coerce
                                                        (fetch_data.timestamp_utc r))
                                            gauge_df) with
                               | Some t, Some l => l - Clock.hours 6 <=? t
                               | _, _ => false
                               end) gauge_df).
  { destruct gauge_df as [|r0 rest]; injection H as H; now rewrite <- H. }
  clear H. subst shown_rows. split; [|now apply StronglySorted_filter].
  intros r. rewrite filter_In, Hin.
  pose proof (max_instant_spec
                (map (fun r => Clock.to_datetime_coerce (fetch_data.timestamp_utc r))
                     gauge_df)) as Hm.
  destruct (fetch_data.max_instant _) as [l|].
  - destruct Hm as [Hl Hmax]. apply in_map_iff in Hl. destruct Hl as [rl [Hrl Hl]].
    apply coerce_Some in Hrl. apply Hin in Hl. destruct Hl as [Hl1 Hl2].
    split.
    + intros [[Hr Hs] Ht]. split; [exact Hr|]. split; [exact Hs|].
      destruct (Clock.to_datetime_coerce (fetch_data.timestamp_utc r)) as [t|] eqn:Et;
        [|discriminate].
      apply coerce_Some in Et. exists t. split; [exact Et|].
      intros r' t' Hr' Hs' Ht'. apply Z.leb_le in Ht.
      assert (t' <= l); [|lia].
      apply Hmax. apply in_map_iff. exists r'. split; [now apply coerce_Some|].
      apply Hin. auto.
    + intros [Hr [Hs [t [Et Hall]]]]. split; [auto|].
      apply coerce_Some in Et. rewrite Et. apply Z.leb_le.
      now apply (Hall rl l).
  - split.
    + intros [_ Ht]. destruct (Clock.to_datetime_coerce _); discriminate.
    + intros [Hr [Hs [t [Et _]]]]. exfalso. apply (Hm t).
      apply in_map_iff. exists r. split; [now apply coerce_Some | apply Hin; auto].
Qed.
(* ================================================================== *)
(** * main.py and visualize_site.py: the dots and the site plot *)
(* ================================================================== *)

Section FloatOrder.
Import SpecFloat.

Lemma SFleb_trans (a b c : spec_float) :
  SFleb a b = true -> SFleb b c = true -> SFleb a c = true.
Proof.
  unfold SFleb.
  destruct a as [sa|sa| |sa ma ea], b as [sb|sb| |sb mb eb], c as [sc|sc| |sc mc ec];
    cbn [SFcompare]; try discriminate;
    try (destruct sa; discriminate || reflexivity);
    try (destruct sa, sb; discriminate || reflexivity);
    try (destruct sa, sc; discriminate || reflexivity);
    try (destruct sb, sc; discriminate || reflexivity);
    try (destruct sa, sb, sc; discriminate || reflexivity).
  all: destruct sa, sb, sc; try discriminate; try reflexivity.
  all: fold (Pos.compare ma mb); fold (Pos.compare mb mc); fold (Pos.compare ma mc).
  all: destruct (Z.compare_spec ea eb), (Z.compare_spec eb ec), (Z.compare_spec ea ec);
    try lia; try discriminate; try reflexivity; subst.
  all: destruct (Pos.compare_spec ma mb), (Pos.compare_spec mb mc),
         (Pos.compare_spec ma mc);
    simpl; try lia; try discriminate; try reflexivity.
Qed.

Lemma leb_trans (a b c : float) :
  PrimFloat.leb a b = true -> PrimFloat.leb b c = true -> PrimFloat.leb a c = true.
Proof. rewrite !FloatAxioms.leb_spec. apply SFleb_trans. Qed.

End FloatOrder.

(** X14. On the map a gauge with a larger flow never gets a smaller dot,
    and the size of a dot is 10, 20 or 30. *)
Theorem size_class_monotone (flow flow' : float) :
  PrimFloat.leb flow flow' = true ->
  main.size_class flow <= main.size_class flow'
  /\ 10 <= main.size_class flow <= 30.
Proof.
  intros H. unfold main.size_class. split.
  - destruct (PrimFloat.leb flow' 50) eqn:E1.
    + rewrite (leb_trans _ _ _ H E1). lia.
    + destruct (PrimFloat.leb flow' 200) eqn:E2.
      * destruct (PrimFloat.leb flow 50); [lia|].
        rewrite (leb_trans _ _ _ H E2). lia.
      * destruct (PrimFloat.leb flow 50); [lia|].
        destruct (PrimFloat.leb flow 200); lia.
  - destruct (PrimFloat.leb flow 50); [lia|].
    destruct (PrimFloat.leb flow 200); lia.
Qed.

Lemma size_class_monotone_witness :
  main.size_class 50 <= main.size_class 50.5
  /\ 10 <= main.size_class 50 <= 30.
Proof. apply size_class_monotone. reflexivity. Defined.

(** The three sizes at their bounds. *)
Example size_class_edges :
  main.size_class 50 = 10 /\ main.size_class 50.5 = 20
  /\ main.size_class 200 = 20 /\ main.size_class 200.5 = 30
  /\ main.size_class Float64.NaN = 30.
Proof. repeat split. Qed.

Section SitePlot.
Import Clock Frame visualize_site.

Lemma mask_true_iff (x : string) (r : reading) :
  mask x r = true <-> site_name r = x.
Proof. unfold mask, site_no_is. now rewrite orb_false_r, String.eqb_eq. Qed.

Lemma site_rows_Some (x : string) (df rows : list reading) :
  site_rows x df = Some rows ->
  (forall r, In r rows <-> In r df /\ site_name r = x)
  /\ StronglySorted (fun a b => stamp_leb (timestamp_utc a) (timestamp_utc b) = true)
                    rows.
Proof.
  unfold site_rows. destruct (existsb unparsed df); [discriminate|].
  intros [= <-]. split.
  - intros r. now rewrite sort_In, filter_In, mask_true_iff.
  - apply sort_sorted; [intros a b; apply stamp_leb_total
                      | intros a b c; apply stamp_leb_trans].
Qed.

End SitePlot.

(** X16. [load_data] looks in the north file first, and finds a site by
    its name only, the comparison of the number column with the text asked
    for being false on every row. What it returns is sorted by timestamp
    and is either the rows of the north file that carry the name asked
    for, with the region north, when there are some; or else those of the
    south file, with the region south; or else no row and no region, which
    is the answer whenever the text is no site's name, be it a site's
    number. A file that does not exist holds no row. *)
Theorem load_data_region (north south : option (list visualize_site.reading))
        (site_name_or_no : string) (rows : list visualize_site.reading)
        (region : option string) :
  visualize_site.load_data north south site_name_or_no = Some (rows, region) ->
  let file f := match f with Some df => df | None => [] end in
  let found f r := In r (file f) /\ visualize_site.site_name r = site_name_or_no in
  StronglySorted (fun a b => Clock.stamp_leb (visualize_site.timestamp_utc a)
                                             (visualize_site.timestamp_utc b) = true) rows
  /\ ((region = Some "north"%string /\ rows <> []
       /\ forall r, In r rows <-> found north r)
      \/ (region = Some "south"%string /\ rows <> []
          /\ (forall r, ~ found north r)
          /\ forall r, In r rows <-> found south r)
      \/ (region = None /\ rows = []
          /\ (forall r, ~ found north r) /\ forall r, ~ found south r))
  /\ ((forall r, In r (file north ++ file south) ->
                 visualize_site.site_name r <> site_name_or_no) ->
      rows = [] /\ region = None).
Proof.
  intros H file found.
  assert (Hempty : forall f, f = None -> forall r, ~ found f r)
    by (intros f -> r [[] _]).
  assert (Hnone : forall df, visualize_site.site_rows site_name_or_no df = Some [] ->
                             forall r, ~ found (Some df) r).
  { intros df E r Hr. apply site_rows_Some in E. destruct E as [E _].
    now apply (proj2 (E r)) in Hr. }
  assert (Hsouth :
            match south with
            | Some df =>
                match visualize_site.site_rows site_name_or_no df with
                | None => None
                | Some [] => Some ([], None)
                | Some rows => Some (rows, Some "south"%string)
                end
            | None => Some ([], None)
            end = Some (rows, region) ->
            StronglySorted (fun a b => Clock.stamp_leb (visualize_site.timestamp_utc a)
                                                       (visualize_site.timestamp_utc b)
                                       = true)
                           rows
            /\ ((region = Some "south"%string /\ rows <> []
                 /\ forall r, In r rows <-> found south r)
                \/ (region = None /\ rows = [] /\ forall r, ~ found south r))).
  { destruct south as [df|].
    - destruct (visualize_site.site_rows site_name_or_no df) as [[|r0 rest]|] eqn:E;
        intros [= <- <-].
      + split; [constructor|]. right. split; [reflexivity|]. split; [reflexivity|].
        now apply Hnone.
      + apply site_rows_Some in E. destruct E as [E1 E2]. split; [exact E2|].
        left. split; [reflexivity|]. split; [discriminate | exact E1].
    - intros [= <- <-]. split; [constructor|]. right.
      split; [reflexivity|]. split; [reflexivity|]. now apply Hempty. }
  assert (Hmain :
            StronglySorted (fun a b => Clock.stamp_leb (visualize_site.timestamp_utc a)
                                                       (visualize_site.timestamp_utc b)
                                       = true) rows
            /\ ((region = Some "north"%string /\ rows <> []
                 /\ forall r, In r rows <-> found north r)
                \/ (region = Some "south"%string /\ rows <> []
                    /\ (forall r, ~ found north r)
                    /\ forall r, In r rows <-> found south r)
                \/ (region = None /\ rows = []
                    /\ (forall r, ~ found north r) /\ forall r, ~ found south r))).
  { unfold visualize_site.load_data in H.
    destruct north as [df|].
    - destruct (visualize_site.site_rows site_name_or_no df) as [[|r0 rest]|] eqn:E.
      + destruct (Hsouth H) as [Hs [[H1 [H2 H3]]|[H1 [H2 H3]]]]; (split; [exact Hs|]).
        * right. left. split; [exact H1|]. split; [exact H2|].
          split; [now apply Hnone | exact H3].
        * right. right. split; [exact H1|]. split; [exact H2|].
          split; [now apply Hnone | exact H3].
      + injection H as <- <-. apply site_rows_Some in E. destruct E as [E1 E2].
        split; [exact E2|]. left. split; [reflexivity|].
        split; [discriminate | exact E1].
      + discriminate.
    - destruct (Hsouth H) as [Hs [[H1 [H2 H3]]|[H1 [H2 H3]]]]; (split; [exact Hs|]).
      + right. left. split; [exact H1|]. split; [exact H2|].
        split; [now apply Hempty | exact H3].
      + right. right. split; [exact H1|]. split; [exact H2|].
        split; [now apply Hempty | exact H3]. }
  destruct Hmain as [Hs Hcases]. split; [exact Hs|]. split; [exact Hcases|].
  intros Hno.
  assert (Hnot : forall f r, found f r -> In r (file north ++ file south) -> False)
    by (intros f r [_ Hn] Hin; now apply (Hno r)).
  destruct Hcases as [[_ [Hne Hr]]|[[_ [Hne [_ Hr]]]|[H1 [H2 _]]]].
  - exfalso. destruct rows as [|r0 rest]; [congruence|].
    assert (Hf : found north r0) by (apply Hr; now left).
    apply (Hnot north r0 Hf). apply in_or_app. left. apply Hf.
  - exfalso. destruct rows as [|r0 rest]; [congruence|].
    assert (Hf : found south r0) by (apply Hr; now left).
    apply (Hnot south r0 Hf). apply in_or_app. right. apply Hf.
  - auto.
Qed.

Lemma load_data_region_witness :
  exists rows region,
    visualize_site.load_data (Some Examples.north_va) (Some Examples.south_va)
                             "1613900" = Some (rows, region)
    /\ rows = [] /\ region = None.
Proof.
  exists [], None. split; [vm_compute; reflexivity|].
  refine (proj2 (proj2 (load_data_region (Some Examples.north_va) (Some Examples.south_va)
                                         "1613900" [] None _)) _).
  - vm_compute. reflexivity.
  - intros r Hr. simpl in Hr.
    destruct Hr as [<-|[<-|[<-|[]]]]; discriminate.
Defined.

(** A site asked for by its name is found, its rows in time order. *)
Example load_data_by_name :
  visualize_site.load_data (Some Examples.north_va) (Some Examples.south_va)
                           "HOGUE CREEK NEAR HAYFIELD, VA"
  = Some (rev Examples.north_va, Some "north"%string).
Proof. vm_compute. reflexivity. Qed.
(* ================================================================== *)
(** * fetch_historical.py: the ends of a filled column *)
(* ================================================================== *)

Section Ends.
Import Frame Float64.

Lemma next_valid_null (l : list float) :
  forall i, Forall (fun x => isna x = true) l -> next_valid i l = None.
Proof.
  induction l as [|x r IH]; intros i H; [reflexivity|].
  inversion H as [|? ? Hx Hr]; subst. cbn [next_valid]. rewrite Hx. now apply IH.
Qed.

Lemma interpolate_from_leading (pre : list float) (v : float) (rest : list float) :
  forall i, Forall (fun x => isna x = true) pre -> isna v = false ->
            interpolate_from None i (pre ++ v :: rest)
            = pre ++ v :: interpolate_from (Some ((i + List.length pre)%nat, v))
                                           (S (i + List.length pre)) rest.
Proof.
  induction pre as [|x pre IH]; intros i H Hv.
  - cbn [app interpolate_from List.length]. rewrite Hv, Nat.add_0_r. reflexivity.
  - inversion H as [|? ? Hx Hpre]; subst.
    cbn [app interpolate_from List.length]. rewrite Hx, (IH (S i) Hpre Hv).
    now rewrite Nat.add_succ_r.
Qed.

Lemma interpolate_from_trailing (post : list float) (w : float) :
  forall i0 i, Forall (fun x => isna x = true) post ->
               interpolate_from (Some (i0, w)) i post = repeat w (List.length post).
Proof.
  induction post as [|x post IH]; intros i0 i H; [reflexivity|].
  inversion H as [|? ? Hx Hpost]; subst.
  cbn [interpolate_from List.length repeat].
  rewrite Hx, (next_valid_null post (S i) Hpost). f_equal. now apply IH.
Qed.

Lemma interpolate_from_app (a b : list float) :
  forall prev i, exists a' prev',
    List.length a' = List.length a
    /\ interpolate_from prev i (a ++ b)
       = a' ++ interpolate_from prev' (i + List.length a) b.
Proof.
  induction a as [|x a IH]; intros prev i.
  - exists [], prev. split; [reflexivity|]. cbn [app List.length].
    now rewrite Nat.add_0_r.
  - cbn [app interpolate_from List.length]. destruct (isna x).
    + destruct (IH prev (S i)) as [a' [prev' [Hl E]]]. rewrite E.
      eexists (_ :: a'), prev'. split; [simpl; now rewrite Hl|].
      now rewrite Nat.add_succ_r.
    + destruct (IH (Some (i, x)) (S i)) as [a' [prev' [Hl E]]]. rewrite E.
      exists (x :: a'), prev'. split; [simpl; now rewrite Hl|].
      now rewrite Nat.add_succ_r.
Qed.

Lemma bfill_leading (pre : list float) (v : float) (rest : list float) :
  Forall (fun x => isna x = true) pre -> isna v = false ->
  bfill (pre ++ v :: rest) = repeat v (S (List.length pre)) ++ bfill rest.
Proof.
  intros H Hv. induction H as [|x pre Hx Hpre IH].
  - cbn [app bfill List.length repeat]. now rewrite Hv.
  - cbn [app bfill List.length]. rewrite IH, Hx. reflexivity.
Qed.

Lemma bfill_valid (l : list float) :
  Forall (fun x => isna x = false) l -> bfill l = l.
Proof.
  induction 1 as [|x l Hx Hl IH]; [reflexivity|]. cbn [bfill]. now rewrite IH, Hx.
Qed.

Lemma bfill_app (a b : list float) :
  exists a', List.length a' = List.length a /\ bfill (a ++ b) = a' ++ bfill b.
Proof.
  induction a as [|x a [a' [Hl E]]].
  - exists []. auto.
  - cbn [app bfill]. rewrite E. eexists (_ :: a'). split; [simpl; now rewrite Hl|].
    reflexivity.
Qed.

Lemma ffill_from_leading (n : nat) (v : float) (rest : list float) :
  forall prev, isna v = false ->
               ffill_from prev (repeat v (S n) ++ rest)
               = repeat v (S n) ++ ffill_from v rest.
Proof.
  induction n as [|n IH]; intros prev Hv.
  - cbn [repeat app ffill_from]. now rewrite Hv.
  - change (repeat v (S (S n))) with (v :: repeat v (S n)).
    cbn [app ffill_from]. rewrite Hv. f_equal. now apply IH.
Qed.

Lemma ffill_from_valid_id (l : list float) :
  forall prev, Forall (fun x => isna x = false) l -> ffill_from prev l = l.
Proof.
  induction l as [|x l IH]; intros prev H; [reflexivity|].
  inversion H as [|? ? Hx Hl]; subst. cbn [ffill_from]. rewrite Hx. f_equal.
  now apply IH.
Qed.

Lemma ffill_from_app (a b : list float) :
  forall prev, exists a' prev',
    List.length a' = List.length a
    /\ ffill_from prev (a ++ b) = a' ++ ffill_from prev' b.
Proof.
  induction a as [|x a IH]; intros prev.
  - exists [], prev. auto.
  - cbn [app ffill_from].
    destruct (IH (if isna x then prev else x)) as [a' [prev' [Hl E]]]. rewrite E.
    eexists (_ :: a'), prev'. split; [simpl; now rewrite Hl | reflexivity].
Qed.

Lemma repeat_valid (w : float) (n : nat) :
  isna w = false -> Forall (fun x => isna x = false) (repeat w n).
Proof. intros H. induction n; simpl; constructor; auto. Qed.

End Ends.

(** X17. The fills of [compute_p90_by_day] extend a column by constants at
    both ends: the days before the first day with a value take the value of
    that day, and the days after the last day with a value take the value
    of that one. The year is not closed into a circle. *)
Theorem fills_extend_ends (before : list float) (v : float) (after : list float) :
  Float64.isna v = false ->
  (Forall (fun x => Float64.isna x = true) before ->
   exists tail,
     Frame.ffill (Frame.bfill (Frame.interpolate (before ++ v :: after)))
     = repeat v (S (List.length before)) ++ tail
     /\ List.length tail = List.length after)
  /\ (Forall (fun x => Float64.isna x = true) after ->
      exists head,
        Frame.ffill (Frame.bfill (Frame.interpolate (before ++ v :: after)))
        = head ++ repeat v (S (List.length after))
        /\ List.length head = List.length before).
Proof.
  intros Hv. split; intros H.
  - unfold Frame.interpolate, Frame.ffill.
    rewrite (interpolate_from_leading _ _ _ 0%nat H Hv).
    rewrite (bfill_leading _ _ _ H Hv).
    rewrite (ffill_from_leading _ _ _ _ Hv).
    eexists. split; [reflexivity|].
    now rewrite ffill_from_length, bfill_length, interpolate_from_length.
  - unfold Frame.interpolate, Frame.ffill.
    destruct (interpolate_from_app before (v :: after) None 0%nat)
      as [a1 [prev1 [L1 E1]]].
    rewrite E1. cbn [Frame.interpolate_from]. rewrite Hv.
    rewrite (interpolate_from_trailing _ _ _ _ H).
    change (v :: repeat v (List.length after)) with (repeat v (S (List.length after))).
    destruct (bfill_app a1 (repeat v (S (List.length after)))) as [a2 [L2 E2]].
    rewrite E2, (bfill_valid _ (repeat_valid v _ Hv)).
    destruct (ffill_from_app a2 (repeat v (S (List.length after))) Float64.NaN)
      as [a3 [prev3 [L3 E3]]].
    rewrite E3, (ffill_from_valid_id _ _ (repeat_valid v _ Hv)).
    exists a3. split; [reflexivity | congruence].
Qed.

Lemma fills_extend_ends_witness :
  Frame.ffill (Frame.bfill (Frame.interpolate [nan; nan; 4; nan; 8; nan]%float))
  = [4; 4; 4; 6; 8; 8]%float
  /\ exists tail,
       Frame.ffill (Frame.bfill (Frame.interpolate
                                   ([nan; nan] ++ 4 :: [nan; 8; nan])))%float
       = repeat 4%float 3 ++ tail
       /\ List.length tail = 3%nat.
Proof.
  split; [vm_compute; reflexivity|].
  apply (proj1 (fills_extend_ends [nan; nan]%float 4%float [nan; 8; nan]%float eq_refl)).
  repeat constructor.
Defined.
(* ================================================================== *)
(** * compare_p90_roc.py: the rows main writes *)
(* ================================================================== *)

Section Pipeline.
Import Clock Frame compare_p90_roc Float64.

Lemma filter_perm {A : Type} (f : A -> bool) (l l' : list A) :
  Permutation l l' -> Permutation (filter f l) (filter f l').
Proof.
  induction 1 as [|x l l' H IH|x y l|l l' l'' H1 IH1 H2 IH2]; cbn [filter].
  - constructor.
  - destruct (f x); [now constructor | exact IH].
  - destruct (f x), (f y); try apply Permutation_refl; apply perm_swap.
  - now transitivity (filter f l').
Qed.

Lemma sorted_map {A B : Type} (R : B -> B -> Prop) (f : A -> B) (l : list A) :
  StronglySorted (fun a b => R (f a) (f b)) l -> StronglySorted R (map f l).
Proof.
  induction 1 as [|x l Hl IH Hx]; cbn [map]; constructor; [exact IH|].
  apply Forall_forall. intros y Hy. apply in_map_iff in Hy.
  destruct Hy as [a [<- Ha]]. rewrite Forall_forall in Hx. now apply Hx.
Qed.

(** A frame whose timestamps all parse keeps its rows through
    [prepare_current_data]; the rows dropped are those without a site
    number, an instant or a flow. *)
Lemma prepare_rows (df : list with_roc) :
  Forall (fun r => garbled (row r) = false) df ->
  map (fun p => row (base p)) (prepare_current_data df)
  = filter (fun r => match timestamp_utc r, site_no r with
                     | At _, Some _ => notna (flow_cfs r)
                     | _, _ => false
                     end) (map row df).
Proof.
  unfold prepare_current_data.
  induction 1 as [|r df Hr Hdf IH]; [reflexivity|].
  destruct r as [[s n c f] p1 p3 p6]. unfold garbled in Hr.
  cbn [row timestamp_utc] in Hr. cbn [map filter].
  unfold complete at 1.
  cbn [add_day_of_year day_of_year base set_timestamp row timestamp_utc
         site_no site_name flow_cfs].
  destruct c as [t| |]; cbn [coerce]; try discriminate.
  - destruct s as [s|]; [|exact IH].
    destruct (notna f); [|exact IH]. cbn [map base row]. now rewrite IH.
  - exact IH.
Qed.

Lemma classify_row (p : prepared) (o : option fetch_historical.baseline) :
  {| site_no := c_site_no (classify (p, o));
     site_name := c_site_name (classify (p, o));
     timestamp_utc := c_timestamp_utc (classify (p, o));
     flow_cfs := c_flow_cfs (classify (p, o)) |}
  = row (base p).
Proof. cbn. now destruct (row (base p)). Qed.

Lemma existsb_false_Forall {A : Type} (f : A -> bool) (l : list A) :
  existsb f l = false -> Forall (fun x => f x = false) l.
Proof.
  induction l as [|x l IH]; cbn [existsb]; intros H; constructor.
  - now destruct (f x).
  - apply IH. now destruct (f x).
Qed.

Lemma filter_of_map {A B : Type} (f : B -> bool) (g : A -> B) (l : list A) :
  map g (filter (fun x => f (g x)) l) = filter f (map g l).
Proof.
  induction l as [|x l IH]; [reflexivity|]. cbn [map filter].
  destruct (f (g x)); cbn [map]; now rewrite IH.
Qed.

End Pipeline.

(** X18. [main] of [compare_p90_roc.py] writes nothing when there are no
    current rows, when a timestamp is not a date, or when the baseline file
    is missing. Otherwise, against a baseline that holds every (site
    number, day of year) at most once, the rows it writes are the current
    readings that have a site number, an instant and a flow, each once,
    and the rows of one site are in the order of their timestamps. *)
Theorem main_writes_usable_readings (df_current : list compare_p90_roc.reading)
        (hist : option (list fetch_historical.baseline)) :
  (forall df_hist,
      hist = Some df_hist ->
      NoDup (map (fun h => (fetch_historical.b_site_no h,
                            fetch_historical.b_day_of_year h)) df_hist)) ->
  let usable r :=
    match compare_p90_roc.timestamp_utc r, compare_p90_roc.site_no r with
    | Clock.At _, Some _ => Float64.notna (compare_p90_roc.flow_cfs r)
    | _, _ => false
    end in
  let reading_of c :=
    {| compare_p90_roc.site_no := compare_p90_roc.c_site_no c;
       compare_p90_roc.site_name := compare_p90_roc.c_site_name c;
       compare_p90_roc.timestamp_utc := compare_p90_roc.c_timestamp_utc c;
       compare_p90_roc.flow_cfs := compare_p90_roc.c_flow_cfs c |} in
  (compare_p90_roc.main df_current hist = None
   <-> df_current = []
       \/ (exists r, In r df_current
                     /\ compare_p90_roc.timestamp_utc r = Clock.Garbled)
       \/ hist = None)
  /\ forall out,
       compare_p90_roc.main df_current hist = Some out ->
       Permutation (map reading_of out) (filter usable df_current)
       /\ forall s,
            StronglySorted
              (fun a b => Clock.stamp_leb a b = true)
              (map compare_p90_roc.c_timestamp_utc
                   (filter (fun c => match compare_p90_roc.c_site_no c with
                                     | Some s' => String.eqb s' s
                                     | None => false
                                     end) out)).
Proof.
  intros Hnd usable reading_of. unfold compare_p90_roc.main.
  destruct df_current as [|r0 rest] eqn:Edf.
  { split; [|discriminate]. split; [now left | reflexivity]. }
  rewrite <- Edf. assert (Hne : df_current <> []) by (rewrite Edf; discriminate).
  clear Edf r0 rest.
  unfold compare_p90_roc.compute_rate_of_change.
  destruct (existsb compare_p90_roc.garbled df_current) eqn:Eg.
  { split; [|discriminate]. split; [|reflexivity].
    intros _. right. left. now apply existsb_garbled. }
  destruct hist as [df_hist|].
  - split.
    + split; [discriminate|]. intros [H|[H|H]]; [contradiction| |discriminate].
      apply existsb_garbled in H. congruence.
    + intros out [= <-].
      set (df := Frame.sort compare_p90_roc.row_leb df_current).
      set (out := compare_p90_roc.compare_to_historical _ _).
      assert (E : map reading_of out = filter usable df).
      { unfold out, compare_p90_roc.compare_to_historical.
        rewrite merge_left_lookup
          by (intros p _; apply same_key_once; now apply Hnd).
        rewrite !map_map.
        rewrite (map_ext _ (fun p => compare_p90_roc.row (compare_p90_roc.base p)))
          by (intros p; apply classify_row).
        rewrite prepare_rows, add_roc_row; [reflexivity|].
        apply Forall_forall. intros r Hr.
        apply (in_map compare_p90_roc.row) in Hr. rewrite add_roc_row in Hr.
        apply sort_In in Hr.
        apply existsb_false_Forall in Eg. rewrite Forall_forall in Eg. now apply Eg. }
      split; [rewrite E; apply filter_perm, sort_perm|].
      intros s.
      change (filter (fun c => match compare_p90_roc.c_site_no c with
                               | Some s' => String.eqb s' s
                               | None => false
                               end) out)
        with (filter (fun c => compare_p90_roc.of_site s (reading_of c)) out).
      rewrite <- (map_map reading_of compare_p90_roc.timestamp_utc).
      rewrite (filter_of_map (compare_p90_roc.of_site s) reading_of out), E.
      apply (site_rows_by_time s).
      * apply StronglySorted_filter, StronglySorted_filter.
        apply sort_sorted; [apply row_leb_total | apply row_leb_trans].
      * apply Forall_forall. intros r Hr. apply filter_In in Hr.
        now apply of_site_true.
  - split; [|discriminate]. split; [|reflexivity]. intros _. right. now right.
Qed.

Lemma main_writes_usable_readings_witness :
  exists out,
    compare_p90_roc.main Examples.two_sites (Some Examples.new_year_baseline) = Some out
    /\ List.length out = 16%nat
    /\ StronglySorted
         (fun a b => Clock.stamp_leb a b = true)
         (map compare_p90_roc.c_timestamp_utc
              (filter (fun c => match compare_p90_roc.c_site_no c with
                                | Some s' => String.eqb s' "02035000"
                                | None => false
                                end) out)).
Proof.
  eexists. split; [vm_compute; reflexivity|]. split; [reflexivity|].
  refine (proj2 (proj2 (main_writes_usable_readings
                          Examples.two_sites (Some Examples.new_year_baseline) _)
                       _ _) "02035000"%string).
  - intros df_hist [= <-]. repeat constructor; simpl; intuition discriminate.
  - vm_compute. reflexivity.
Defined.
